(** * ST touchpad driver: SPI host-buffer protocol, system state, flash
      update and heat-map double buffer.

    A shallow embedding of the touchpad driver (the file that defines
    [st_tp_read_all_events], [st_tp_update_system_state],
    [st_tp_load_host_data], [touchpad_update_write] and
    [st_tp_read_report]).  Driver globals live in an explicit [world]
    that is threaded through every function; the SPI bus is a
    deterministic but otherwise arbitrary device; every frame sent on the
    bus is appended to a log. *)

From Stdlib Require Import ZArith List Bool Lia.
Import ListNotations.
Open Scope Z_scope.

(** ** Machine integers *)

(** [uint32_t] and [size_t] arithmetic wraps modulo 2^32. *)
Definition u32 (x : Z) : Z := x mod 4294967296.

(** [uint8_t] keeps the low eight bits. *)
Definition u8 (x : Z) : Z := x mod 256.

(** [uint16_t] keeps the low sixteen bits. *)
Definition u16 (x : Z) : Z := x mod 65536.

(** An unsigned bit-field of [width] bits keeps the low [width] bits of
    what is assigned to it. *)
Definition bit_field (width x : Z) : Z := x mod 2 ^ width.

(** Conversion of an [int] to [size_t] (32 bits on this target), as a
    comparison with [ARRAY_SIZE] does it: a negative value wraps. *)
Definition int_to_size_t (i : Z) : Z :=
  if i <? 0 then i + 4294967296 else i.

(** Conversion to [int16_t]. *)
Definition s16 (x : Z) : Z := (x + 32768) mod 65536 - 32768.

(** C's [!!x]. *)
Definition notnot (x : Z) : Z := if x =? 0 then 0 else 1.

(** The bytes of a 32-bit register address, most significant first. *)
Definition be32 (x : Z) : list Z :=
  [Z.land (Z.shiftr x 24) 255; Z.land (Z.shiftr x 16) 255;
   Z.land (Z.shiftr x 8) 255; Z.land (Z.shiftr x 0) 255].

(** [memcpy]-style store of [src] at the start of [dst]. *)
Definition overwrite (src dst : list Z) : list Z :=
  src ++ skipn (length src) dst.

(** [len] bytes of [l] starting at index [start]. *)
Definition slice (start len : Z) (l : list Z) : list Z :=
  firstn (Z.to_nat len) (skipn (Z.to_nat start) l).

(** ** Constants and layouts declared outside the driver file

    The driver includes touchpad_st.h, usb_hid_touchpad.h, common.h and
    the board configuration.  Their constants and the layouts of the
    structures the driver reads through [rx_buf] are parameters of the
    model. *)
Class st_tp_header := {
  (* bus configuration *)
  ST_TP_DUMMY_BYTE : Z;
  (* command bytes *)
  ST_TP_CMD_READ_ALL_EVENTS : Z;
  ST_TP_CMD_READ_SPI_HOST_BUFFER : Z;
  ST_TP_CMD_SPI_HOST_BUFFER_ACK : Z;
  ST_TP_CMD_WRITE_FEATURE_SELECT : Z;
  ST_TP_CMD_WRITE_SCAN_MODE_SELECT : Z;
  ST_TP_CMD_WRITE_SYSTEM_COMMAND : Z;
  ST_TP_CMD_READ_HOST_DATA_MEMORY : Z;
  ST_TP_CMD_WRITE_HW_REG : Z;
  ST_TP_CMD_READ_HW_REG : Z;
  ST_TP_SCAN_MODE_ACTIVE : Z;
  ST_TP_SCAN_MODE_LOCKED : Z;
  (* events *)
  ST_TP_EVENT_MAGIC : Z;
  ST_TP_EVENT_ID_CONTROLLER_READY : Z;
  ST_TP_EVENT_ID_ENTER_POINTER : Z;
  ST_TP_EVENT_ID_MOTION_POINTER : Z;
  ST_TP_EVENT_ID_LEAVE_POINTER : Z;
  ST_TP_EVENT_ID_ERROR_REPORT : Z;
  ST_TP_TOUCH_TYPE_INVALID : Z;
  (* host data and host buffer headers *)
  ST_TP_HEADER_MAGIC : Z;
  ST_TP_BUFFER_HEADER_DOMESWITCH_CHG : Z;
  sizeof_buffer_header : Z;
  sizeof_data_header : Z;
  sizeof_heat_map : Z;
  (* flash layout *)
  ST_TP_DMA_CHUNK_SIZE : Z;
  ST_TP_FLASH_BUFFER_SIZE : Z;
  ST_TP_FLASH_OFFSET_CX : Z;
  ST_TP_FLASH_OFFSET_CONFIG : Z;
  CONFIG_TOUCHPAD_VIRTUAL_SIZE : Z;
  (* heat map geometry *)
  ST_TOUCH_ROWS : Z;
  ST_TOUCH_COLS : Z;
  BITS_PER_PIXEL : Z;
  ST_TP_HEAT_MAP_THRESHOLD : Z;
  (* HID report: struct usb_hid_touchpad_report.  The widths of the
     pressure (10), width and height (12) and timestamp (16) fields are
     stated in the driver; those of the other bit-fields are not. *)
  MAX_FINGERS : Z;
  REPORT_FINGER_ID_BITS : Z;
  REPORT_FINGER_X_BITS : Z;
  REPORT_FINGER_Y_BITS : Z;
  REPORT_COUNT_BITS : Z;
  CONFIG_USB_HID_TOUCHPAD_LOGICAL_MAX_X : Z;
  CONFIG_USB_HID_TOUCHPAD_LOGICAL_MAX_Y : Z;
  USB_HID_TOUCHPAD_TIMESTAMP_UNIT : Z;
  (* error codes of enum ec_error_list other than EC_SUCCESS *)
  EC_ERROR_INVAL : Z;
  EC_ERROR_TIMEOUT : Z;
  (* struct st_tp_event_t, read from the eight bytes of one record *)
  event_magic : list Z -> Z;
  event_evt_id : list Z -> Z;
  event_minor_high : list Z -> Z;
  event_major_high : list Z -> Z;
  event_report_type : list Z -> Z;
  event_report_info : list Z -> Z -> Z;
  event_finger_touch_type : list Z -> Z;
  event_finger_touch_id : list Z -> Z;
  event_finger_x : list Z -> Z;
  event_finger_y : list Z -> Z;
  event_finger_z : list Z -> Z;
  event_finger_minor : list Z -> Z;
  event_finger_major : list Z -> Z;
  (* struct st_tp_host_data_header_t, read from the bytes of the union *)
  data_header_magic : list Z -> Z;
  data_header_host_data_mem_id : list Z -> Z;
  data_header_count : list Z -> Z;
  (* struct st_tp_host_buffer_header_t *)
  buffer_header_flags : list Z -> Z;
  buffer_header_dome_switch_level : list Z -> Z;
  (* struct st_tp_host_buffer_heat_map_t: byte [i] of [frame] *)
  heat_map_frame : list Z -> Z -> Z
}.

(** [EC_SUCCESS] is zero: the driver tests return codes with [if (ret)]. *)
Definition EC_SUCCESS : Z := 0.

Definition SYSTEM_STATE_DEBUG_MODE : Z := Z.shiftl 1 0.
Definition SYSTEM_STATE_ENABLE_HEAT_MAP : Z := Z.shiftl 1 1.
Definition SYSTEM_STATE_ENABLE_DOME_SWITCH : Z := Z.shiftl 1 2.
Definition SYSTEM_STATE_ACTIVE_MODE : Z := Z.shiftl 1 3.
Definition SYSTEM_STATE_DOME_SWITCH_LEVEL : Z := Z.shiftl 1 4.

Definition HEADER_FLAGS_NEW_FRAME : Z := Z.shiftl 1 0.

(** ** Driver state *)

(** What the driver prints on the console. *)
Inductive console_msg :=
| MsgTouchpadError (report_type info : Z)
| MsgEnableMultiTouch (v : Z)
| MsgTouchpadReady
| MsgTimeoutControllerReady
| MsgStartFullInit
| MsgUpdateWrite (offset size : Z)
| MsgEndUpdate
| MsgSendPacketError (err : Z)
| MsgCursorHome
| MsgRule
| MsgLine (chars : list Z).

(** Functions handed to [hook_call_deferred]. *)
Inductive deferred :=
| st_tp_interrupt_send_data
| st_tp_full_initialize_end_data (delay : Z).

Record finger_t := mkFinger {
  finger_tip : Z; finger_inrange : Z; finger_id : Z;
  finger_pressure : Z; finger_width : Z; finger_height : Z;
  finger_x : Z; finger_y : Z
}.

Record usb_hid_touchpad_report := mkReport {
  report_id : Z;
  report_finger : list finger_t;
  report_button : Z;
  report_count : Z;
  report_timestamp : Z
}.

(** One answer of the SPI master to a transaction: the return code and the
    bytes it stored in the receive buffer. *)
Record spi_reply := mkReply { reply_ret : Z; reply_rx : list Z }.

Record world := mkWorld {
  (* the bus: every transmitted frame, oldest first *)
  spi_log : list (list Z);
  (* rx_buf, including the leading dummy byte when there is one *)
  rx_buf : list Z;
  system_state : Z;
  irq_ts : Z;
  release_info : Z;                  (* system_info.release_info *)
  spi_buffer_index : Z;
  usb_buffer_index : Z;
  usb_packet_frame : Z -> list Z;    (* usb_packet[k].frame, k = 0, 1 *)
  transmit_report_offset : Z;
  packet_header_index : Z;
  packet_header_flags : Z;
  (* the platform around the driver *)
  console : list console_msg;
  deferred_calls : list deferred;
  touchpad_reports : list usb_hid_touchpad_report;
  touchpad_int_enabled : bool;
  touchpad_resets : Z;
  slept_ms : Z;
  (* ghost: indices [i] at which [rx_buf.events[i]] was dereferenced *)
  events_examined : list Z
}.

Definition set_spi_log v w := mkWorld v (rx_buf w) (system_state w) (irq_ts w) (release_info w) (spi_buffer_index w) (usb_buffer_index w) (usb_packet_frame w) (transmit_report_offset w) (packet_header_index w) (packet_header_flags w) (console w) (deferred_calls w) (touchpad_reports w) (touchpad_int_enabled w) (touchpad_resets w) (slept_ms w) (events_examined w).
Definition set_rx_buf v w := mkWorld (spi_log w) v (system_state w) (irq_ts w) (release_info w) (spi_buffer_index w) (usb_buffer_index w) (usb_packet_frame w) (transmit_report_offset w) (packet_header_index w) (packet_header_flags w) (console w) (deferred_calls w) (touchpad_reports w) (touchpad_int_enabled w) (touchpad_resets w) (slept_ms w) (events_examined w).
Definition set_system_state v w := mkWorld (spi_log w) (rx_buf w) v (irq_ts w) (release_info w) (spi_buffer_index w) (usb_buffer_index w) (usb_packet_frame w) (transmit_report_offset w) (packet_header_index w) (packet_header_flags w) (console w) (deferred_calls w) (touchpad_reports w) (touchpad_int_enabled w) (touchpad_resets w) (slept_ms w) (events_examined w).
Definition set_spi_buffer_index v w := mkWorld (spi_log w) (rx_buf w) (system_state w) (irq_ts w) (release_info w) v (usb_buffer_index w) (usb_packet_frame w) (transmit_report_offset w) (packet_header_index w) (packet_header_flags w) (console w) (deferred_calls w) (touchpad_reports w) (touchpad_int_enabled w) (touchpad_resets w) (slept_ms w) (events_examined w).
Definition set_usb_buffer_index v w := mkWorld (spi_log w) (rx_buf w) (system_state w) (irq_ts w) (release_info w) (spi_buffer_index w) v (usb_packet_frame w) (transmit_report_offset w) (packet_header_index w) (packet_header_flags w) (console w) (deferred_calls w) (touchpad_reports w) (touchpad_int_enabled w) (touchpad_resets w) (slept_ms w) (events_examined w).
Definition set_usb_packet_frame v w := mkWorld (spi_log w) (rx_buf w) (system_state w) (irq_ts w) (release_info w) (spi_buffer_index w) (usb_buffer_index w) v (transmit_report_offset w) (packet_header_index w) (packet_header_flags w) (console w) (deferred_calls w) (touchpad_reports w) (touchpad_int_enabled w) (touchpad_resets w) (slept_ms w) (events_examined w).
Definition set_transmit_report_offset v w := mkWorld (spi_log w) (rx_buf w) (system_state w) (irq_ts w) (release_info w) (spi_buffer_index w) (usb_buffer_index w) (usb_packet_frame w) v (packet_header_index w) (packet_header_flags w) (console w) (deferred_calls w) (touchpad_reports w) (touchpad_int_enabled w) (touchpad_resets w) (slept_ms w) (events_examined w).
Definition set_packet_header_index v w := mkWorld (spi_log w) (rx_buf w) (system_state w) (irq_ts w) (release_info w) (spi_buffer_index w) (usb_buffer_index w) (usb_packet_frame w) (transmit_report_offset w) v (packet_header_flags w) (console w) (deferred_calls w) (touchpad_reports w) (touchpad_int_enabled w) (touchpad_resets w) (slept_ms w) (events_examined w).
Definition set_packet_header_flags v w := mkWorld (spi_log w) (rx_buf w) (system_state w) (irq_ts w) (release_info w) (spi_buffer_index w) (usb_buffer_index w) (usb_packet_frame w) (transmit_report_offset w) (packet_header_index w) v (console w) (deferred_calls w) (touchpad_reports w) (touchpad_int_enabled w) (touchpad_resets w) (slept_ms w) (events_examined w).
Definition set_console v w := mkWorld (spi_log w) (rx_buf w) (system_state w) (irq_ts w) (release_info w) (spi_buffer_index w) (usb_buffer_index w) (usb_packet_frame w) (transmit_report_offset w) (packet_header_index w) (packet_header_flags w) v (deferred_calls w) (touchpad_reports w) (touchpad_int_enabled w) (touchpad_resets w) (slept_ms w) (events_examined w).
Definition set_deferred_calls v w := mkWorld (spi_log w) (rx_buf w) (system_state w) (irq_ts w) (release_info w) (spi_buffer_index w) (usb_buffer_index w) (usb_packet_frame w) (transmit_report_offset w) (packet_header_index w) (packet_header_flags w) (console w) v (touchpad_reports w) (touchpad_int_enabled w) (touchpad_resets w) (slept_ms w) (events_examined w).
Definition set_touchpad_reports v w := mkWorld (spi_log w) (rx_buf w) (system_state w) (irq_ts w) (release_info w) (spi_buffer_index w) (usb_buffer_index w) (usb_packet_frame w) (transmit_report_offset w) (packet_header_index w) (packet_header_flags w) (console w) (deferred_calls w) v (touchpad_int_enabled w) (touchpad_resets w) (slept_ms w) (events_examined w).
Definition set_touchpad_int_enabled v w := mkWorld (spi_log w) (rx_buf w) (system_state w) (irq_ts w) (release_info w) (spi_buffer_index w) (usb_buffer_index w) (usb_packet_frame w) (transmit_report_offset w) (packet_header_index w) (packet_header_flags w) (console w) (deferred_calls w) (touchpad_reports w) v (touchpad_resets w) (slept_ms w) (events_examined w).
Definition set_touchpad_resets v w := mkWorld (spi_log w) (rx_buf w) (system_state w) (irq_ts w) (release_info w) (spi_buffer_index w) (usb_buffer_index w) (usb_packet_frame w) (transmit_report_offset w) (packet_header_index w) (packet_header_flags w) (console w) (deferred_calls w) (touchpad_reports w) (touchpad_int_enabled w) v (slept_ms w) (events_examined w).
Definition set_slept_ms v w := mkWorld (spi_log w) (rx_buf w) (system_state w) (irq_ts w) (release_info w) (spi_buffer_index w) (usb_buffer_index w) (usb_packet_frame w) (transmit_report_offset w) (packet_header_index w) (packet_header_flags w) (console w) (deferred_calls w) (touchpad_reports w) (touchpad_int_enabled w) (touchpad_resets w) v (events_examined w).
Definition set_events_examined v w := mkWorld (spi_log w) (rx_buf w) (system_state w) (irq_ts w) (release_info w) (spi_buffer_index w) (usb_buffer_index w) (usb_packet_frame w) (transmit_report_offset w) (packet_header_index w) (packet_header_flags w) (console w) (deferred_calls w) (touchpad_reports w) (touchpad_int_enabled w) (touchpad_resets w) (slept_ms w) v.

(** Driver code is a state transformer over [world]. *)
Definition M (A : Type) : Type := world -> A * world.

Definition pure {A} (a : A) : M A := fun w => (a, w).
Definition bind {A B} (m : M A) (k : A -> M B) : M B :=
  fun w => let (a, w1) := m w in k a w1.

Declare Scope driver_scope.
Delimit Scope driver_scope with drv.
Notation "x <- m ;; k" := (bind m (fun x => k))
  (at level 61, m at next level, right associativity) : driver_scope.
Notation "m ;; k" := (bind m (fun _ => k))
  (at level 61, right associativity) : driver_scope.

Definition modify (f : world -> world) : M unit := fun w => (tt, f w).

Definition cprints (m : console_msg) : M unit :=
  modify (fun w => set_console (console w ++ [m]) w).
Definition msleep (ms : Z) : M unit :=
  modify (fun w => set_slept_ms (slept_ms w + ms) w).
Definition hook_call_deferred (d : deferred) : M unit :=
  modify (fun w => set_deferred_calls (deferred_calls w ++ [d]) w).
Definition set_touchpad_report (r : usb_hid_touchpad_report) : M unit :=
  modify (fun w => set_touchpad_reports (touchpad_reports w ++ [r]) w).
Definition board_touchpad_reset : M unit :=
  modify (fun w => set_touchpad_resets (touchpad_resets w + 1) w).
Definition gpio_set_touchpad_int (b : bool) : M unit :=
  modify (fun w => set_touchpad_int_enabled b w).

(** [set_bits(&lvalue, rvalue, mask)], returning the new [*lvalue]. *)
Definition set_bits (lvalue rvalue mask : Z) : Z :=
  Z.lor (Z.land lvalue (Z.lnot mask)) (Z.land rvalue mask).

(** [start, start + 1, ...], [len] numbers. *)
Fixpoint zseq (start : Z) (len : nat) : list Z :=
  match len with
  | O => []
  | S len' => start :: zseq (start + 1) len'
  end.

(** The indices [0 .. n - 1] of a C [for] loop. *)
Definition zrange (n : Z) : list Z := zseq 0 (Z.to_nat n).

Fixpoint list_set {A} (i : nat) (x : A) (l : list A) : list A :=
  match l, i with
  | [], _ => []
  | _ :: t, O => x :: t
  | h :: t, S i' => h :: list_set i' x t
  end.

Definition zero_finger : finger_t := mkFinger 0 0 0 0 0 0 0 0.

Section Driver.

Context {hdr : st_tp_header}.

(** The SPI master and the touchpad behind it: given the frames sent so
    far, the frame being sent and the receive length, the outcome of the
    transaction. *)
Variable spi_device : list (list Z) -> list Z -> Z -> spi_reply.

Local Open Scope driver_scope.

(** [spi_transaction(SPI, txdata, txlen, (uint8_t * )&rx_buf, rxlen)];
    with [rxlen = 0] it is the call that passes [NULL]. *)
Definition spi_transaction (txdata : list Z) (rxlen : Z) : M Z := fun w =>
  let reply := spi_device (spi_log w) txdata rxlen in
  (reply_ret reply,
   set_rx_buf (overwrite (firstn (Z.to_nat rxlen) (reply_rx reply)) (rx_buf w))
     (set_spi_log (spi_log w ++ [txdata]) w)).

(** The anonymous union of [rx_buf], after the dummy byte. *)
Definition rx_union (w : world) : list Z :=
  skipn (Z.to_nat ST_TP_DUMMY_BYTE) (rx_buf w).

(** [&rx_buf.events[i]]: the eight bytes of record [i]. *)
Definition rx_buf_events (i : Z) : M (list Z) := fun w =>
  (slice (8 * i) 8 (rx_union w),
   set_events_examined (events_examined w ++ [i]) w).

(** *** Host buffer header and acknowledge *)

Definition st_tp_read_host_buffer_header : M Z :=
  spi_transaction [ST_TP_CMD_READ_SPI_HOST_BUFFER; 0; 0]
                  (ST_TP_DUMMY_BYTE + sizeof_buffer_header).

Definition st_tp_send_ack : M Z :=
  spi_transaction [ST_TP_CMD_SPI_HOST_BUFFER_ACK] 0.

(** *** System state *)

Definition feature_select_frame (new_state : Z) : list Z :=
  [ST_TP_CMD_WRITE_FEATURE_SELECT; 5;
   Z.lor (if Z.land new_state SYSTEM_STATE_ENABLE_HEAT_MAP =? 0
          then 0 else Z.shiftl 1 0)
         (if Z.land new_state SYSTEM_STATE_ENABLE_DOME_SWITCH =? 0
          then 0 else Z.shiftl 1 1)].

Definition scan_mode_active_frame (new_state : Z) : list Z :=
  [ST_TP_CMD_WRITE_SCAN_MODE_SELECT; ST_TP_SCAN_MODE_ACTIVE;
   notnot (Z.land new_state SYSTEM_STATE_ACTIVE_MODE)].

Definition scan_mode_locked_frame : list Z :=
  [ST_TP_CMD_WRITE_SCAN_MODE_SELECT; ST_TP_SCAN_MODE_LOCKED; 0].

(** First block of [st_tp_update_system_state]: the debug bit needs no
    command. *)
Definition update_debug_mode (new_state : Z) : M unit := fun w =>
  let mask := SYSTEM_STATE_DEBUG_MODE in
  if negb (Z.land new_state mask =? Z.land (system_state w) mask)
  then (tt, set_system_state (set_bits (system_state w) new_state mask) w)
  else (tt, w).

(** Second block: heat map and dome switch share the feature-select
    command.  Returns [ret] and [need_locked_scan_mode]. *)
Definition update_feature_select (new_state : Z) : M (Z * Z) := fun w =>
  let mask := Z.lor SYSTEM_STATE_ENABLE_HEAT_MAP
                    SYSTEM_STATE_ENABLE_DOME_SWITCH in
  if negb (Z.land new_state mask =? Z.land (system_state w) mask) then
    let need_locked_scan_mode :=
      if Z.land new_state SYSTEM_STATE_ENABLE_HEAT_MAP =? 0 then 0 else 1 in
    let (r, w1) := spi_transaction (feature_select_frame new_state) 0 w in
    if negb (r =? 0) then ((r, need_locked_scan_mode), w1)
    else ((r, need_locked_scan_mode),
          set_system_state (set_bits (system_state w1) new_state mask) w1)
  else ((EC_SUCCESS, 0), w).

(** Third block: active scan mode. *)
Definition update_active_mode (new_state : Z) : M Z := fun w =>
  let mask := SYSTEM_STATE_ACTIVE_MODE in
  if negb (Z.land new_state mask =? Z.land (system_state w) mask) then
    let tx_buf := scan_mode_active_frame new_state in
    let (_, w0) := cprints (MsgEnableMultiTouch (nth 2 tx_buf 0)) w in
    let (r, w1) := spi_transaction tx_buf 0 w0 in
    if negb (r =? 0) then (r, w1)
    else (r, set_system_state (set_bits (system_state w1) new_state mask) w1)
  else (EC_SUCCESS, w).

(** Last block: lock the scan mode when heat map mode was switched on. *)
Definition update_locked_scan_mode (need_locked_scan_mode : Z) : M Z :=
  if negb (need_locked_scan_mode =? 0)
  then spi_transaction scan_mode_locked_frame 0
  else pure EC_SUCCESS.

Definition st_tp_update_system_state (new_state mask : Z) : M Z := fun w =>
  (* copy reserved bits *)
  let new_state := set_bits new_state (system_state w) (Z.lnot mask) in
  (update_debug_mode new_state ;;
   rn <- update_feature_select new_state ;;
   if negb (fst rn =? 0) then pure (fst rn) else
   r <- update_active_mode new_state ;;
   if negb (r =? 0) then pure r else
   update_locked_scan_mode (snd rn)) w.

Definition st_tp_enable_interrupt (enable : Z) : M unit :=
  let tx_buf := [ST_TP_CMD_WRITE_SYSTEM_COMMAND; 1;
                 if enable =? 0 then 0 else 1] in
  (if enable =? 0 then pure tt else gpio_set_touchpad_int true) ;;
  spi_transaction tx_buf 0 ;;
  (if enable =? 0 then gpio_set_touchpad_int false else pure tt).

Definition st_tp_start_scan : M Z :=
  let new_state := Z.lor SYSTEM_STATE_ACTIVE_MODE
                         SYSTEM_STATE_ENABLE_DOME_SWITCH in
  let mask := new_state in
  r <- st_tp_update_system_state new_state mask ;;
  if negb (r =? 0) then pure r else
  st_tp_send_ack ;;
  st_tp_enable_interrupt 1 ;;
  pure r.

Definition st_tp_stop_scan : M Z :=
  r <- st_tp_update_system_state 0 SYSTEM_STATE_ACTIVE_MODE ;;
  st_tp_enable_interrupt 0 ;;
  pure r.

(** *** Host data memory *)

Definition st_tp_read_host_data_memory (addr len : Z) : M Z :=
  spi_transaction [ST_TP_CMD_READ_HOST_DATA_MEMORY;
                   Z.shiftr addr 8; Z.land addr 255] len.

Definition load_host_data_frame (mem_id : Z) : list Z :=
  [ST_TP_CMD_WRITE_SYSTEM_COMMAND; 6; mem_id].

(** Does [rx_buf.data_header] announce block [mem_id], freshly written? *)
Definition host_data_ready (mem_id count : Z) (w : world) : bool :=
  (data_header_magic (rx_union w) =? ST_TP_HEADER_MAGIC) &&
  (data_header_host_data_mem_id (rx_union w) =? mem_id) &&
  negb (data_header_count (rx_union w) =? count).

(** The [while (retry--)] loop of [st_tp_load_host_data]. *)
Fixpoint load_host_data_poll (retry : nat) (mem_id count rx_len : Z) : M Z :=
  match retry with
  | O => pure EC_ERROR_TIMEOUT
  | S retry' =>
      st_tp_read_host_data_memory 0 rx_len ;;
      fun w =>
        if host_data_ready mem_id count w then (EC_SUCCESS, w)
        else (msleep 10 ;;
              load_host_data_poll retry' mem_id count rx_len) w
  end.

Definition st_tp_load_host_data (mem_id : Z) : M Z :=
  let tx_buf := load_host_data_frame mem_id in
  let rx_len := sizeof_data_header + ST_TP_DUMMY_BYTE in
  st_tp_read_host_data_memory 0 rx_len ;;
  fun w =>
    if data_header_host_data_mem_id (rx_union w) =? mem_id
    then (EC_SUCCESS, w)   (* already loaded no need to reload *)
    else
      let count := data_header_count (rx_union w) in
      (r <- spi_transaction tx_buf 0 ;;
       if negb (r =? 0) then pure r else
       load_host_data_poll 5 mem_id count rx_len) w.

(** *** Events *)

Definition st_tp_handle_error_report (e : list Z) : M Z :=
  if negb (event_magic e =? ST_TP_EVENT_MAGIC) ||
     negb (event_evt_id e =? ST_TP_EVENT_ID_ERROR_REPORT)
  then pure 0
  else
    cprints (MsgTouchpadError (event_report_type e)
               (Z.lor (Z.lor (Z.shiftl (event_report_info e 0) 24)
                             (Z.shiftl (event_report_info e 1) 16))
                      (Z.lor (Z.shiftl (event_report_info e 2) 8)
                             (Z.shiftl (event_report_info e 3) 0)))) ;;
    pure 0.

(** The [for] loop of [st_tp_read_all_events], entered at index [i] with
    [todo] slots of the array left. *)
Fixpoint read_all_events_loop (todo : nat) (i : Z) : M Z :=
  match todo with
  | O => pure i
  | S todo' =>
      e <- rx_buf_events i ;;
      if negb (event_magic e =? ST_TP_EVENT_MAGIC) then pure i
      else if event_evt_id e =? ST_TP_EVENT_ID_ERROR_REPORT then
        r <- st_tp_handle_error_report e ;;
        if negb (r =? 0) then pure (- r)
        else read_all_events_loop todo' (i + 1)
      else read_all_events_loop todo' (i + 1)
  end.

Definition st_tp_read_all_events : M Z :=
  let rx_len := 32 * 8 + ST_TP_DUMMY_BYTE in
  r <- spi_transaction [ST_TP_CMD_READ_ALL_EVENTS] rx_len ;;
  if negb (r =? 0) then pure (- r)
  else read_all_events_loop 32 0.

(** *** HID reports *)

(** [st_tp_parse_finger]; the report is represented by its [finger] array.
    [i] is compared with [ARRAY_SIZE(report->finger)] as a [size_t].  Each
    assignment is cut to the width of the bit-field it goes to; [tip] and
    [inrange] receive the constant 1, which every such field holds. *)
Definition st_tp_parse_finger (fingers : list finger_t) (event : list Z)
    (i : Z) : list finger_t * Z :=
  if int_to_size_t i >=? MAX_FINGERS then (fingers, i)
  else if event_finger_touch_type event =? ST_TP_TOUCH_TYPE_INVALID
  then (fingers, i)
  else
    let n := Z.to_nat i in
    let old := nth n fingers zero_finger in
    let evt := event_evt_id event in
    let fingers' :=
      if (evt =? ST_TP_EVENT_ID_ENTER_POINTER) ||
         (evt =? ST_TP_EVENT_ID_MOTION_POINTER)
      then list_set n
             (mkFinger 1 1
                (bit_field REPORT_FINGER_ID_BITS (event_finger_touch_id event))
                (* z is 8 bit uint, while pressure is 10 bits. *)
                (bit_field 10 (Z.shiftl (event_finger_z event) 2))
                (* width and height are 12 bits, ST only reports 6 bits *)
                (bit_field 12
                   (Z.shiftl (Z.lor (event_finger_minor event)
                                    (Z.shiftl (event_minor_high event) 4)) 6))
                (bit_field 12
                   (Z.shiftl (Z.lor (event_finger_major event)
                                    (Z.shiftl (event_major_high event) 4)) 6))
                (bit_field REPORT_FINGER_X_BITS
                   (CONFIG_USB_HID_TOUCHPAD_LOGICAL_MAX_X
                    - event_finger_x event))
                (bit_field REPORT_FINGER_Y_BITS
                   (CONFIG_USB_HID_TOUCHPAD_LOGICAL_MAX_Y
                    - event_finger_y event)))
             fingers
      else if evt =? ST_TP_EVENT_ID_LEAVE_POINTER
      then list_set n
             (mkFinger (finger_tip old) (finger_inrange old)
                (bit_field REPORT_FINGER_ID_BITS (event_finger_touch_id event))
                (finger_pressure old)
                (finger_width old) (finger_height old)
                (finger_x old) (finger_y old))
             fingers
      else fingers in
    (fingers', i + 1).

(** The event loop of [st_tp_write_hid_report]. *)
Fixpoint hid_report_loop (todo : nat) (i : Z) (fingers : list finger_t)
    (num_finger : Z) : M (list finger_t * Z) :=
  match todo with
  | O => pure (fingers, num_finger)
  | S todo' =>
      e <- rx_buf_events i ;;
      let evt := event_evt_id e in
      if (evt =? ST_TP_EVENT_ID_ENTER_POINTER) ||
         (evt =? ST_TP_EVENT_ID_MOTION_POINTER) ||
         (evt =? ST_TP_EVENT_ID_LEAVE_POINTER)
      then let (fingers', n') := st_tp_parse_finger fingers e num_finger in
           hid_report_loop todo' (i + 1) fingers' n'
      else hid_report_loop todo' (i + 1) fingers num_finger
  end.

Definition st_tp_write_hid_report : M Z :=
  r <- st_tp_read_host_buffer_header ;;
  if negb (r =? 0) then pure r else
  domeswitch_changed <-
    (fun w =>
       if negb (Z.land (buffer_header_flags (rx_union w))
                       ST_TP_BUFFER_HEADER_DOMESWITCH_CHG =? 0)
       then
         (* dome_switch_level from device is inverted. *)
         (1, set_system_state
               (set_bits (system_state w)
                  (if buffer_header_dome_switch_level (rx_union w) =? 0
                   then SYSTEM_STATE_DOME_SWITCH_LEVEL else 0)
                  SYSTEM_STATE_DOME_SWITCH_LEVEL) w)
       else (0, w)) ;;
  num_events <- st_tp_read_all_events ;;
  if num_events <? 0 then pure (- num_events) else
  fn <- hid_report_loop (Z.to_nat num_events) 0
          (repeat zero_finger (Z.to_nat MAX_FINGERS)) 0 ;;
  let (fingers, num_finger) := (fn : list finger_t * Z) in
  if (num_finger =? 0) && (domeswitch_changed =? 0)
  then pure 0   (* nothing changed *)
  else
    fun w =>
      (set_touchpad_report
         (mkReport 1 fingers
            (notnot (Z.land (system_state w) SYSTEM_STATE_DOME_SWITCH_LEVEL))
            (bit_field REPORT_COUNT_BITS num_finger)
            (* irq_ts divided by the unit, put in a 16-bit field *)
            (u16 (Z.quot (irq_ts w) USB_HID_TOUCHPAD_TIMESTAMP_UNIT))) ;;
       pure 0) w.

(** *** Heat map capture *)

Definition get_heat_map_addr (w : world) : Z :=
  if release_info w >=? 3 then 288      (* 0x0120 *)
  else if release_info w =? 1 then 32   (* 0x20 *)
  else -1.                              (* Unknown version *)

(** One pixel of the 16-to-8-bit down scaling of [st_tp_read_frame]. *)
Definition scale_pixel (lo hi : Z) : Z :=
  let v := s16 (Z.lor lo (Z.shiftl hi 8)) in
  let v := s16 (Z.max 0 v) in
  let v := s16 (Z.min (Z.shiftr v (BITS_PER_PIXEL - 8)) 255) in
  if v <? ST_TP_HEAT_MAP_THRESHOLD then 0 else v.

(** [st_tp_read_frame], the [BYTES_PER_PIXEL == 2] variant. *)
Definition st_tp_read_frame : M Z := fun w =>
  let rx_len := sizeof_heat_map + ST_TP_DUMMY_BYTE in
  let heat_map_addr := get_heat_map_addr w in
  let tx_buf := [ST_TP_CMD_READ_SPI_HOST_BUFFER;
                 Z.land (Z.shiftr heat_map_addr 8) 255;
                 Z.land (Z.shiftr heat_map_addr 0) 255] in
  if heat_map_addr <? 0 then (EC_SUCCESS, w)   (* goto failed *)
  else
    let (r, w1) := spi_transaction tx_buf rx_len w in
    if r =? EC_SUCCESS then
      let slot := Z.land (spi_buffer_index w1) 1 in
      let pixels :=
        map (fun i => u8 (scale_pixel
                            (heat_map_frame (rx_union w1) (i * 2))
                            (heat_map_frame (rx_union w1) (i * 2 + 1))))
            (zrange (ST_TOUCH_COLS * ST_TOUCH_ROWS)) in
      let max_value := fold_left (fun m v => u8 (Z.lor m v)) pixels 0 in
      let w2 := set_usb_packet_frame
                  (fun k => if k =? slot then pixels
                            else usb_packet_frame w1 k) w1 in
      if max_value =? 0 then (-1, w2)   (* empty frame *)
      else (r, w2)
    else (r, w1).

Definition print_frame : M unit := fun w =>
  let frame := usb_packet_frame w (Z.land (usb_buffer_index w) 1) in
  if usb_buffer_index w =? spi_buffer_index w then (tt, w)
  else if Z.rem (usb_buffer_index w) 37 =? 0 then
    let line i :=
      map (fun j =>
             let index := i * ST_TOUCH_COLS + (ST_TOUCH_COLS - j - 1) in
             let v := nth (Z.to_nat index) frame 0 in
             if v >? 0 then 48 + Z.quot (v * 10) 256 else 32)
          (zrange ST_TOUCH_COLS) ++ [10] in
    (tt, set_console (console w ++ [MsgCursorHome; MsgRule] ++
                      map (fun i => MsgLine (line i)) (zrange ST_TOUCH_ROWS) ++
                      [MsgRule]) w)
  else (tt, w).

(** The double-buffer test and capture inside [st_tp_read_report]. *)
Definition heat_map_capture : M unit := fun w =>
  if u32 (spi_buffer_index w - usb_buffer_index w) <=? 1 then
    let (r, w1) := st_tp_read_frame w in
    if r =? EC_SUCCESS then
      let w2 := set_spi_buffer_index (u32 (spi_buffer_index w1 + 1)) w1 in
      if negb (Z.land (system_state w2) SYSTEM_STATE_DEBUG_MODE =? 0) then
        let (_, w3) := print_frame w2 in
        (tt, set_usb_buffer_index (u32 (usb_buffer_index w3 + 1)) w3)
      else (tt, w2)
    else (tt, w1)
  else (tt, w).

Definition st_tp_read_report : M Z := fun w =>
  if negb (Z.land (system_state w) SYSTEM_STATE_ENABLE_HEAT_MAP =? 0) then
    (heat_map_capture ;;
     (fun w1 =>
        if spi_buffer_index w1 >? usb_buffer_index w1
        then hook_call_deferred st_tp_interrupt_send_data w1
        else (tt, w1)) ;;
     st_tp_send_ack) w
  else
    (st_tp_write_hid_report ;; st_tp_send_ack) w.

(** *** Heat map transmission *)

(** [sizeof(struct st_tp_usb_packet_t)]: one flag byte and the frame. *)
Definition sizeof_usb_packet : Z := 1 + ST_TOUCH_ROWS * ST_TOUCH_COLS.

(** [heatmap_send_packet].  [usb_isochronous_write_buffer] belongs to the
    USB stack; the function receives it as the answers of that stack to
    (data, length, offset, last). *)
Definition heatmap_send_packet
    (usb_isochronous_write_buffer : list Z -> Z -> Z -> Z -> Z) : M Z :=
  fun w =>
  let packet := 0 :: usb_packet_frame w (Z.land (usb_buffer_index w) 1) in
  let w := set_packet_header_flags 0 w in
  let num_byte_available := u32 (sizeof_usb_packet - transmit_report_offset w) in
  if num_byte_available >? 0 then
    let w := if transmit_report_offset w =? 0
             then set_packet_header_flags
                    (Z.lor (packet_header_flags w) HEADER_FLAGS_NEW_FRAME) w
             else w in
    let r := usb_isochronous_write_buffer
               [packet_header_index w; packet_header_flags w] 2 0 0 in
    if negb (r =? 2) then (-1, w)
    else
      let offset := r in
      let w := set_packet_header_index (u8 (packet_header_index w + 1)) w in
      let r := usb_isochronous_write_buffer
                 (skipn (Z.to_nat (transmit_report_offset w)) packet)
                 num_byte_available offset 1 in
      if r <? 0 then
        let (_, w) := cprints (MsgSendPacketError (- r)) w in (r, w)
      else
        (* We should have sent some bytes, update offset *)
        let w := set_transmit_report_offset
                   (u32 (transmit_report_offset w + r)) w in
        if transmit_report_offset w =? sizeof_usb_packet then
          (0, set_usb_buffer_index (u32 (usb_buffer_index w + 1))
                (set_transmit_report_offset 0 w))
        else (0, w)
  else (0, w).

(** *** Reset and full initialization *)

(** The inner loop of [st_tp_reset]: is there a controller-ready event
    among records [i .. i + todo - 1]? *)
Fixpoint find_controller_ready (todo : nat) (i : Z) : M bool :=
  match todo with
  | O => pure false
  | S todo' =>
      e <- rx_buf_events i ;;
      if event_evt_id e =? ST_TP_EVENT_ID_CONTROLLER_READY then pure true
      else find_controller_ready todo' (i + 1)
  end.

Fixpoint st_tp_reset_loop (retry : nat) : M Z :=
  match retry with
  | O => cprints MsgTimeoutControllerReady ;; pure EC_ERROR_TIMEOUT
  | S retry' =>
      num_events <- st_tp_read_all_events ;;
      if num_events <? 0 then pure (- num_events) else
      found <- find_controller_ready (Z.to_nat num_events) 0 ;;
      if (found : bool) then cprints MsgTouchpadReady ;; pure 0
      else msleep 10 ;; st_tp_reset_loop retry'
  end.

Definition st_tp_reset : M Z :=
  board_touchpad_reset ;; st_tp_reset_loop 100.

Definition st_tp_full_initialize_start : M unit :=
  let tx_buf := [ST_TP_CMD_WRITE_SYSTEM_COMMAND; 0; 3] in
  st_tp_stop_scan ;;
  r <- st_tp_reset ;;
  if negb (r =? 0) then pure tt else
  cprints MsgStartFullInit ;;
  spi_transaction tx_buf 0 ;;
  hook_call_deferred (st_tp_full_initialize_end_data 100).

(** *** Firmware update *)

Definition write_hwreg_cmd32 (address data : Z) : M Z :=
  spi_transaction ([ST_TP_CMD_WRITE_HW_REG] ++ be32 address ++ be32 data) 0.

Definition write_hwreg_cmd8 (address data : Z) : M Z :=
  spi_transaction ([ST_TP_CMD_WRITE_HW_REG] ++ be32 address ++ [data]) 0.

Definition flash_ready_frame (type : Z) : list Z :=
  [ST_TP_CMD_READ_HW_REG; 32; 0; 0; type].

(** The [while (retry--)] loop of [wait_for_flash_ready] together with
    the final [retry >= 0 ? ret : EC_ERROR_TIMEOUT]. *)
Fixpoint wait_for_flash_ready_loop (retry : nat) (type : Z) : M Z :=
  match retry with
  | O => pure EC_ERROR_TIMEOUT
  | S retry' =>
      r <- spi_transaction (flash_ready_frame type) 2 ;;
      fun w =>
        if (r =? EC_SUCCESS) && (Z.land (nth 0 (rx_union w) 0) 128 =? 0)
        then (r, w)
        else (msleep 50 ;; wait_for_flash_ready_loop retry' type) w
  end.

Definition wait_for_flash_ready (type : Z) : M Z :=
  wait_for_flash_ready_loop 200 type.

Definition erase_flash : M Z :=
  (* Erase everything, except CX *)
  r <- write_hwreg_cmd32 536871208 4294967171 ;;  (* 0x20000128 0xFFFFFF83 *)
  if negb (r =? 0) then pure r else
  r <- write_hwreg_cmd8 536871019 0 ;;            (* 0x2000006B *)
  if negb (r =? 0) then pure r else
  r <- write_hwreg_cmd8 536871018 160 ;;          (* 0x2000006A 0xA0 *)
  if negb (r =? 0) then pure r else
  wait_for_flash_ready 106.                       (* 0x6A *)

Definition st_tp_prepare_for_update : M Z :=
  write_hwreg_cmd8 536870948 1 ;;     (* hold m3: 0x20000024 *)
  write_hwreg_cmd8 536870949 32 ;;    (* unlock flash: 0x20000025 0x20 *)
  write_hwreg_cmd8 536871134 3 ;;     (* unlock flash erase: 0x200000DE *)
  erase_flash ;;
  pure EC_SUCCESS.

Definition st_tp_start_flash_dma : M Z :=
  r <- write_hwreg_cmd8 536871025 192 ;;   (* 0x20000071 0xC0 *)
  if negb (r =? 0) then pure r else
  wait_for_flash_ready 113.                (* 0x71 *)

(** The frame of [st_tp_write_one_chunk]: [head] is the index in [data]
    the C pointer [head] stands at. *)
Definition chunk_frame (data : list Z) (head addr chunk_size : Z) : list Z :=
  [ST_TP_CMD_WRITE_HW_REG] ++ be32 addr ++ slice head chunk_size data.

Definition st_tp_write_one_chunk (data : list Z) (head addr chunk_size : Z)
  : M Z :=
  spi_transaction (chunk_frame data head addr chunk_size) 0.

(** The DMA configuration command that commits one flash buffer. *)
Definition flash_dma_config_frame (offset flash_buffer_size : Z) : list Z :=
  [ST_TP_CMD_WRITE_HW_REG; 32; 0; 0; 114;   (* 0x20000072, flash DMA config *)
   0; 0;
   Z.land offset 255; Z.land (Z.shiftr offset 8) 255;
   Z.land flash_buffer_size 255; Z.land (Z.shiftr flash_buffer_size 8) 255;
   0].

(** The inner [while (flash_buffer_size < ST_TP_FLASH_BUFFER_SIZE)] loop of
    [st_tp_write_flash].  Returns [ret], [head] and [flash_buffer_size];
    [None] when the fuel does not cover the iterations. *)
Fixpoint write_flash_chunks (fuel : nat) (data : list Z)
    (tail head addr flash_buffer_size : Z) (w : world)
  : option (Z * Z * Z * world) :=
  match fuel with
  | O => None
  | S fuel' =>
      if flash_buffer_size <? ST_TP_FLASH_BUFFER_SIZE then
        let chunk_size := u32 (Z.min ST_TP_DMA_CHUNK_SIZE (tail - head)) in
        let (r, w1) := st_tp_write_one_chunk data head addr chunk_size w in
        if negb (r =? 0) then Some (r, head, flash_buffer_size, w1)
        else
          let flash_buffer_size := u32 (flash_buffer_size + chunk_size) in
          let addr := u32 (addr + chunk_size) in
          let head := head + chunk_size in
          if head >=? tail then Some (0, head, flash_buffer_size, w1)
          else write_flash_chunks fuel' data tail head addr
                 flash_buffer_size w1
      else Some (0, head, flash_buffer_size, w)
  end.

(** The outer [while (head < tail)] loop; [offset] counts words. *)
Fixpoint write_flash_groups (fuel : nat) (data : list Z)
    (tail offset head : Z) (w : world) : option (Z * world) :=
  match fuel with
  | O => None
  | S fuel' =>
      if head <? tail then
        match write_flash_chunks (S fuel') data tail head 1048576 0 w with
        | None => None
        | Some (r, head', flash_buffer_size, w1) =>
            if negb (r =? 0) then Some (r, w1) else
            (* configuring the DMA *)
            let flash_buffer_size := u32 (flash_buffer_size / 4 - 1) in
            let (r, w2) :=
              spi_transaction
                (flash_dma_config_frame offset flash_buffer_size) 0 w1 in
            if negb (r =? 0) then Some (r, w2) else
            let (r, w3) := st_tp_start_flash_dma w2 in
            if negb (r =? 0) then Some (r, w3) else
            write_flash_groups fuel' data tail
              (offset + Z.quot ST_TP_FLASH_BUFFER_SIZE 4) head' w3
        end
      else Some (EC_SUCCESS, w)
  end.

(** [st_tp_write_flash(offset, size, data)]. *)
Definition st_tp_write_flash (fuel : nat) (offset size : Z) (data : list Z)
    (w : world) : option (Z * world) :=
  write_flash_groups fuel data size (Z.shiftr offset 2) 0 w.

(** [touchpad_update_write(offset, size, data)]. *)
Definition touchpad_update_write (fuel : nat) (offset size : Z)
    (data : list Z) (w : world) : option (Z * world) :=
  let (_, w) := cprints (MsgUpdateWrite offset size) w in
  let (r, w) :=
    if offset =? 0 then
      (* stop scanning, interrupt, etc... *)
      (st_tp_stop_scan ;; st_tp_prepare_for_update) w
    else (0, w) in
  if negb (r =? 0) then Some (r, w) else
  if negb (Z.rem offset ST_TP_DMA_CHUNK_SIZE =? 0)
  then Some (EC_ERROR_INVAL, w) else
  if (offset >=? ST_TP_FLASH_OFFSET_CX) &&
     (offset <? ST_TP_FLASH_OFFSET_CONFIG)
  then Some (EC_SUCCESS, w)   (* don't update CX section *)
  else
    match st_tp_write_flash fuel offset size data w with
    | None => None
    | Some (r, w) =>
        if negb (r =? 0) then Some (r, w) else
        if offset + size =? CONFIG_TOUCHPAD_VIRTUAL_SIZE then
          Some (EC_SUCCESS,
                snd ((cprints MsgEndUpdate ;; st_tp_full_initialize_start) w))
        else Some (EC_SUCCESS, w)
    end.

(** *** The two tasks around the heat map double buffer

    [touchpad_task] runs [st_tp_read_report] on every interrupt.
    [heatmap_task] waits for the USB callback, gives up when debug mode is
    on or the buffer is empty, and otherwise calls [heatmap_send_packet]
    until it succeeds.  The only program point of [heatmap_task] that
    matters between two steps is whether it is inside that retry loop. *)
Inductive heatmap_task_pc := TaskWaiting | TaskSending.

Definition heatmap_task_wake (w : world) : heatmap_task_pc :=
  if negb (Z.land (system_state w) SYSTEM_STATE_DEBUG_MODE =? 0)
  then TaskWaiting
  else if usb_buffer_index w =? spi_buffer_index w then TaskWaiting
  else TaskSending.

Definition heatmap_task_send
    (usb_isochronous_write_buffer : list Z -> Z -> Z -> Z -> Z) (w : world)
  : world * heatmap_task_pc :=
  let (r, w') := heatmap_send_packet usb_isochronous_write_buffer w in
  (w', if r =? 0 then TaskWaiting else TaskSending).

(** Steps of the system, each function call taken as one step.  Nothing in
    the driver but [st_tp_read_report] and [heatmap_send_packet] assigns
    [spi_buffer_index], [usb_buffer_index] or [transmit_report_offset]; the
    last rule stands for all the other code. *)
Inductive step : world * heatmap_task_pc -> world * heatmap_task_pc -> Prop :=
| step_touchpad_interrupt w pc :
    step (w, pc) (snd (st_tp_read_report w), pc)
| step_heatmap_wake w :
    step (w, TaskWaiting) (w, heatmap_task_wake w)
| step_heatmap_send usb w :
    step (w, TaskSending) (heatmap_task_send usb w)
| step_other w w' pc :
    spi_buffer_index w' = spi_buffer_index w ->
    usb_buffer_index w' = usb_buffer_index w ->
    transmit_report_offset w' = transmit_report_offset w ->
    step (w, pc) (w', pc).

(** The indices and the transmit offset are zero-initialised statics. *)
Inductive reachable : world * heatmap_task_pc -> Prop :=
| reachable_init w :
    spi_buffer_index w = 0 -> usb_buffer_index w = 0 ->
    transmit_report_offset w = 0 ->
    reachable (w, TaskWaiting)
| reachable_step s s' : reachable s -> step s s' -> reachable s'.

End Driver.

(** ** A concrete header and concrete devices

    Used to run the model on explicit inputs.  The event layout is the
    one of the interface description: magic byte, event id byte, six
    payload bytes. *)
Definition sample_header : st_tp_header := {|
  ST_TP_DUMMY_BYTE := 1;
  ST_TP_CMD_READ_ALL_EVENTS := 135;
  ST_TP_CMD_READ_SPI_HOST_BUFFER := 182;
  ST_TP_CMD_SPI_HOST_BUFFER_ACK := 192;
  ST_TP_CMD_WRITE_FEATURE_SELECT := 162;
  ST_TP_CMD_WRITE_SCAN_MODE_SELECT := 160;
  ST_TP_CMD_WRITE_SYSTEM_COMMAND := 164;
  ST_TP_CMD_READ_HOST_DATA_MEMORY := 166;
  ST_TP_CMD_WRITE_HW_REG := 250;
  ST_TP_CMD_READ_HW_REG := 251;
  ST_TP_SCAN_MODE_ACTIVE := 0;
  ST_TP_SCAN_MODE_LOCKED := 3;
  ST_TP_EVENT_MAGIC := 3;
  ST_TP_EVENT_ID_CONTROLLER_READY := 0;
  ST_TP_EVENT_ID_ENTER_POINTER := 1;
  ST_TP_EVENT_ID_MOTION_POINTER := 2;
  ST_TP_EVENT_ID_LEAVE_POINTER := 3;
  ST_TP_EVENT_ID_ERROR_REPORT := 15;
  ST_TP_TOUCH_TYPE_INVALID := 0;
  ST_TP_HEADER_MAGIC := 165;
  ST_TP_BUFFER_HEADER_DOMESWITCH_CHG := 1;
  sizeof_buffer_header := 4;
  sizeof_data_header := 4;
  sizeof_heat_map := 900;
  ST_TP_DMA_CHUNK_SIZE := 32;
  ST_TP_FLASH_BUFFER_SIZE := 65536;
  ST_TP_FLASH_OFFSET_CX := 114688;
  ST_TP_FLASH_OFFSET_CONFIG := 126976;
  CONFIG_TOUCHPAD_VIRTUAL_SIZE := 131072;
  ST_TOUCH_ROWS := 18;
  ST_TOUCH_COLS := 25;
  BITS_PER_PIXEL := 12;
  ST_TP_HEAT_MAP_THRESHOLD := 10;
  MAX_FINGERS := 5;
  REPORT_FINGER_ID_BITS := 4;
  REPORT_FINGER_X_BITS := 12;
  REPORT_FINGER_Y_BITS := 12;
  REPORT_COUNT_BITS := 7;
  CONFIG_USB_HID_TOUCHPAD_LOGICAL_MAX_X := 2925;
  CONFIG_USB_HID_TOUCHPAD_LOGICAL_MAX_Y := 1426;
  USB_HID_TOUCHPAD_TIMESTAMP_UNIT := 100;
  EC_ERROR_INVAL := 5;
  EC_ERROR_TIMEOUT := 4;
  event_magic := fun e => nth 0 e 0;
  event_evt_id := fun e => nth 1 e 0;
  event_minor_high := fun e => Z.land (nth 7 e 0) 3;
  event_major_high := fun e => Z.land (Z.shiftr (nth 7 e 0) 2) 3;
  event_report_type := fun e => nth 2 e 0;
  event_report_info := fun e k => nth (Z.to_nat (3 + k)) e 0;
  event_finger_touch_type := fun e => Z.land (nth 2 e 0) 15;
  event_finger_touch_id := fun e => Z.shiftr (nth 2 e 0) 4;
  event_finger_x := fun e => Z.lor (nth 3 e 0) (Z.shiftl (Z.land (nth 4 e 0) 15) 8);
  event_finger_y := fun e => Z.lor (Z.shiftr (nth 4 e 0) 4) (Z.shiftl (nth 5 e 0) 4);
  event_finger_z := fun e => nth 6 e 0;
  event_finger_minor := fun e => Z.land (nth 7 e 0) 15;
  event_finger_major := fun e => Z.shiftr (nth 7 e 0) 4;
  data_header_magic := fun u => nth 0 u 0;
  data_header_host_data_mem_id := fun u => nth 1 u 0;
  data_header_count := fun u => Z.lor (nth 2 u 0) (Z.shiftl (nth 3 u 0) 8);
  buffer_header_flags := fun u => nth 0 u 0;
  buffer_header_dome_switch_level := fun u => nth 1 u 0;
  heat_map_frame := fun u i => nth (Z.to_nat i) u 0
|}.

(** A freshly booted driver: every global zero, nothing logged. *)
Definition boot_world : world :=
  mkWorld [] [] 0 0 0 0 0 (fun _ => []) 0 0 0 [] [] [] false 0 0 [].

(** A device that accepts every transaction and answers with [rx]. *)
Definition device_answering (rx : list Z) :
  list (list Z) -> list Z -> Z -> spi_reply :=
  fun _ _ _ => mkReply 0 rx.

(** A device that fails exactly the frames equal to [bad] with error code
    1 and accepts everything else, answering zeroes. *)
Definition device_failing (bad : list Z) :
  list (list Z) -> list Z -> Z -> spi_reply :=
  fun _ tx _ =>
    if list_eq_dec Z.eq_dec tx bad then mkReply 1 [] else mkReply 0 [].

(** A device whose first answer is [first] and whose later answers are
    [later], all successful. *)
Definition device_then (first later : list Z) :
  list (list Z) -> list Z -> Z -> spi_reply :=
  fun log _ _ =>
    match log with
    | [] => mkReply 0 first
    | _ :: _ => mkReply 0 later
    end.

(** A driver in heat-map mode on a touchpad whose firmware release is 3,
    with the given buffer indices. *)
Definition heat_map_world (spi usb : Z) : world :=
  mkWorld [] [] 2 0 3 spi usb (fun _ => []) 0 0 0 [] [] [] false 0 0 [].

(** A batch of events: a pointer entering, an error report, a record
    with a foreign magic byte, and a stale error report behind it. *)
Definition sample_batch : list Z :=
  [0;                           (* dummy byte *)
   3; 1; 17; 100; 0; 5; 10; 0;
   3; 15; 7; 1; 2; 3; 4; 0;
   0; 15; 7; 9; 9; 9; 9; 0;
   3; 15; 8; 1; 1; 1; 1; 0].

(** A heat map frame whose every raw pixel is 0x1010. *)
Definition sample_frame : list Z := 0 :: repeat 16 900.

(** Sixty-four bytes of firmware image, 1 to 64. *)
Definition sample_image : list Z := zseq 1 64.

(** The first command of [erase_flash]. *)
Definition erase_command (h : st_tp_header) : list Z :=
  [@ST_TP_CMD_WRITE_HW_REG h] ++ be32 536871208 ++ be32 4294967171.

(** ** Reading the receive buffer back

    What the driver finds in [rx_buf] in a given state, used to state
    what the functions above do with it. *)
Section Observations.

Context {hdr : st_tp_header}.

(** Record [i] of [rx_buf.events]. *)
Definition event_at (w : world) (i : Z) : list Z :=
  slice (8 * i) 8 (rx_union w).

Definition valid_magic (e : list Z) : bool :=
  event_magic e =? ST_TP_EVENT_MAGIC.

Definition is_error_report (e : list Z) : bool :=
  event_evt_id e =? ST_TP_EVENT_ID_ERROR_REPORT.

(** The console line [st_tp_handle_error_report] prints for [e]. *)
Definition error_report_msg (e : list Z) : console_msg :=
  MsgTouchpadError (event_report_type e)
    (Z.lor (Z.lor (Z.shiftl (event_report_info e 0) 24)
                  (Z.shiftl (event_report_info e 1) 16))
           (Z.lor (Z.shiftl (event_report_info e 2) 8)
                  (Z.shiftl (event_report_info e 3) 0))).

(** The unsigned difference the producer tests. *)
Definition buffer_gap (w : world) : Z :=
  u32 (spi_buffer_index w - usb_buffer_index w).

Variable spi_device : list (list Z) -> list Z -> Z -> spi_reply.

(** The header read of [st_tp_load_host_data]. *)
Definition host_data_header_frame : list Z :=
  [ST_TP_CMD_READ_HOST_DATA_MEMORY; 0; 0].

(** The state after one header read ... *)
Definition poll_header (w : world) : world :=
  snd (st_tp_read_host_data_memory spi_device 0
         (sizeof_data_header + ST_TP_DUMMY_BYTE) w).

(** ... and after a header read that did not end the polling loop. *)
Definition poll_header_and_sleep (w : world) : world :=
  snd (msleep 10 (poll_header w)).

(** The frames [st_tp_write_flash] sends for one flash buffer: the chunks
    of sizes [sizes], cut from [data] at index [head] and stored from
    buffer address [addr] on. *)
Fixpoint chunk_frames (data : list Z) (head addr : Z) (sizes : list Z)
  : list (list Z) :=
  match sizes with
  | [] => []
  | c :: rest =>
      chunk_frame data head addr c ::
      chunk_frames data (head + c) (u32 (addr + c)) rest
  end.

Definition list_sum (l : list Z) : Z := fold_right Z.add 0 l.

(** The frames of a successful [st_tp_start_flash_dma]: the start command
    and [polls] reads of the status register. *)
Definition flash_dma_frames (polls : nat) : list (list Z) :=
  ([ST_TP_CMD_WRITE_HW_REG] ++ be32 536871025 ++ [192]) ::
  repeat (flash_ready_frame 113) polls.

(** The bus traffic of a successful [st_tp_write_flash], group by group:
    chunks of at most [ST_TP_DMA_CHUNK_SIZE] bytes that add up to a full
    flash buffer, or to what is left of the data, then the DMA
    configuration for word offset [offset] and that many bytes, then the
    DMA start.  [head] is the index of the first byte not yet sent and
    [tail] the size of the data. *)
Inductive flash_write_trace (data : list Z) (tail : Z)
  : Z -> Z -> list (list Z) -> Prop :=
| flash_trace_done offset head :
    tail <= head ->
    flash_write_trace data tail offset head []
| flash_trace_group offset head sizes polls rest :
    head < tail ->
    Forall (fun c => 0 < c <= ST_TP_DMA_CHUNK_SIZE) sizes ->
    list_sum sizes = Z.min ST_TP_FLASH_BUFFER_SIZE (tail - head) ->
    (polls <= 200)%nat ->
    flash_write_trace data tail
      (offset + Z.quot ST_TP_FLASH_BUFFER_SIZE 4)
      (head + list_sum sizes) rest ->
    flash_write_trace data tail offset head
      (chunk_frames data head 1048576 sizes ++
       flash_dma_config_frame offset (u32 (list_sum sizes / 4 - 1)) ::
       flash_dma_frames polls ++ rest).

(** The heat map task is in the middle of a frame: inside its retry
    loop, or between two packets of one frame. *)
Definition draining (s : world * heatmap_task_pc) : Prop :=
  snd s = TaskSending \/ transmit_report_offset (fst s) <> 0.

(** What holds in every reachable state of the two tasks. *)
Definition buffer_invariant (s : world * heatmap_task_pc) : Prop :=
  0 <= spi_buffer_index (fst s) < 4294967296 /\
  0 <= usb_buffer_index (fst s) < 4294967296 /\
  buffer_gap (fst s) <= 2 /\
  (draining s -> 1 <= buffer_gap (fst s)).

(** A computation that leaves the double buffer (both indices, both
    frames and the transmit offset) alone. *)
Definition keeps_buffers {A} (m : M A) : Prop :=
  forall w,
    spi_buffer_index (snd (m w)) = spi_buffer_index w /\
    usb_buffer_index (snd (m w)) = usb_buffer_index w /\
    usb_packet_frame (snd (m w)) = usb_packet_frame w /\
    transmit_report_offset (snd (m w)) = transmit_report_offset w.

(** A computation that only appends to the bus log. *)
Definition extends_log {A} (m : M A) : Prop :=
  forall w, exists frames, spi_log (snd (m w)) = spi_log w ++ frames.

End Observations.

(** ** Further entry points of the driver

    [st_tp_check_command_echo] and [touchpad_debug] use constants of
    touchpad_st.h, common.h and ec_commands.h that the functions above do
    not need; they are parameters here. *)
Section DriverEntryPoints.

Context {hdr : st_tp_header}.
Variable spi_device : list (list Z) -> list Z -> Z -> spi_reply.

Variable ST_TP_EVENT_ID_STATUS_REPORT : Z.
Variable ST_TP_STATUS_CMD_ECHO : Z.
Variable EC_ERROR_BUSY : Z.
Variable EC_RES_INVALID_PARAM : Z.
Variable ST_TP_DEBUG_CMD_CALIBRATE : Z.

Local Open Scope driver_scope.

(** [memcmp(e->report.info, cmd, MIN(4, len)) == 0]. *)
Definition echo_matches (e cmd : list Z) (len : Z) : bool :=
  forallb (fun k => event_report_info e k =? nth (Z.to_nat k) cmd 0)
          (zrange (Z.min 4 len)).

(** The loop of [st_tp_check_command_echo]. *)
Fixpoint check_command_echo_loop (todo : nat) (i : Z) (cmd : list Z)
    (len : Z) : M bool :=
  match todo with
  | O => pure false
  | S todo' =>
      e <- rx_buf_events i ;;
      if (event_evt_id e =? ST_TP_EVENT_ID_STATUS_REPORT) &&
         (event_report_type e =? ST_TP_STATUS_CMD_ECHO) &&
         echo_matches e cmd len
      then pure true
      else check_command_echo_loop todo' (i + 1) cmd len
  end.

Definition st_tp_check_command_echo (cmd : list Z) (len : Z) : M Z :=
  num_events <- st_tp_read_all_events spi_device ;;
  if num_events <? 0 then pure (- num_events) else
  found <- check_command_echo_loop (Z.to_nat num_events) 0 cmd len ;;
  if (found : bool) then pure 0 else pure (- EC_ERROR_BUSY).

(** [touchpad_debug(param, param_size, data, data_size)].  The result
    carries the return value and, when the function assigned them, the
    values of [*data] ([None] for [NULL]) and [*data_size]. *)
Definition touchpad_debug (param : list Z) (param_size : Z)
  : M (Z * option (option (list Z) * Z)) :=
  if negb (param_size =? 1) then pure (EC_RES_INVALID_PARAM, None)
  else if nth 0 param 0 =? ST_TP_DEBUG_CMD_CALIBRATE then
    (* no return value *)
    st_tp_full_initialize_start spi_device ;;
    pure (EC_SUCCESS, Some (None, 0))
  else pure (EC_RES_INVALID_PARAM, None).

End DriverEntryPoints.

(** Reading a 32-bit value back from the four bytes [be32] produced. *)
Definition of_be32 (bytes : list Z) : Z :=
  Z.lor (Z.lor (Z.shiftl (nth 0 bytes 0) 24) (Z.shiftl (nth 1 bytes 0) 16))
        (Z.lor (Z.shiftl (nth 2 bytes 0) 8) (nth 3 bytes 0)).


Section MoreObservations.

Context {hdr : st_tp_header}.

(** A finger slot as the driver fills it: a contact ([tip] and [inrange]
    both 1) or a lifted finger (both 0), with pressure, width and height
    inside their 10 and 12 bit fields. *)
Definition finger_fits (f : finger_t) : Prop :=
  finger_tip f = finger_inrange f /\
  (finger_tip f = 0 \/ finger_tip f = 1) /\
  0 <= finger_pressure f < 1024 /\
  0 <= finger_width f < 4096 /\
  0 <= finger_height f < 4096.

(** A finger array and a finger count as [st_tp_write_hid_report] hands
    them to the USB stack: the count fits the array, the slots from the
    count on still hold the zeroes of the [memset], and every slot below
    it is a finger slot as above. *)
Definition report_well_formed (fingers : list finger_t) (count : Z) : Prop :=
  0 <= count <= MAX_FINGERS /\
  length fingers = Z.to_nat MAX_FINGERS /\
  (forall j, count <= j ->
             nth (Z.to_nat j) fingers zero_finger = zero_finger) /\
  (forall j, 0 <= j < count ->
             finger_fits (nth (Z.to_nat j) fingers zero_finger)).

(** Is [e] one of the three pointer events? *)
Definition is_pointer_event (e : list Z) : bool :=
  (event_evt_id e =? ST_TP_EVENT_ID_ENTER_POINTER) ||
  (event_evt_id e =? ST_TP_EVENT_ID_MOTION_POINTER) ||
  (event_evt_id e =? ST_TP_EVENT_ID_LEAVE_POINTER).

End MoreObservations.

(** ** Leaving heat map mode *)
Section HeatMapSwitch.

Context {hdr : st_tp_header}.
Variable spi_device : list (list Z) -> list Z -> Z -> spi_reply.

Local Open Scope driver_scope.

Definition st_tp_disable_heat_map : M unit :=
  let new_state := 0 in
  let mask := SYSTEM_STATE_ENABLE_HEAT_MAP in
  st_tp_update_system_state spi_device new_state mask ;; pure tt.

(** The frame [st_tp_read_frame] sends in state [w]. *)
Definition read_frame_command (w : world) : list Z :=
  [ST_TP_CMD_READ_SPI_HOST_BUFFER;
   Z.land (Z.shiftr (get_heat_map_addr w) 8) 255;
   Z.land (Z.shiftr (get_heat_map_addr w) 0) 255].

End HeatMapSwitch.

Section PlatformObservations.

(** A computation that leaves the interrupt setting, the deferred calls
    and the reset line alone. *)
Definition keeps_platform {A} (m : M A) : Prop :=
  forall w,
    touchpad_int_enabled (snd (m w)) = touchpad_int_enabled w /\
    deferred_calls (snd (m w)) = deferred_calls w /\
    touchpad_resets (snd (m w)) = touchpad_resets w.

End PlatformObservations.

(** ** More concrete inputs *)

(** A driver in heat map mode on a touchpad whose firmware release, 2,
    is none the driver knows. *)
Definition unknown_release_world : world :=
  mkWorld [] [] 2 0 2 0 0 (fun _ => []) 0 0 0 [] [] [] false 0 0 [].

(** A USB stack that takes every byte it is given. *)
Definition usb_accepting : list Z -> Z -> Z -> Z -> Z :=
  fun _ n _ _ => n.

(** One finger down: the first record of [sample_batch]. *)
Definition sample_finger_event : list Z := [3; 1; 17; 100; 0; 5; 10; 0].

(** A freshly booted driver whose last interrupt came at 10 s (in
    microseconds): the time in report units, 100000, does not fit the
    16-bit timestamp field. *)
Definition late_interrupt_world : world :=
  mkWorld [] [] 0 10000000 0 0 0 (fun _ => []) 0 0 0 [] [] [] false 0 0 [].
(** ** Bit-level facts about [set_bits] *)

Ltac bit_hyps i :=
  repeat match goal with
  | H : @eq Z ?a ?b |- _ =>
      let Hb := fresh "Hb" in
      assert (Hb : Z.testbit a i = Z.testbit b i) by (rewrite H; reflexivity);
      clear H
  end.

Ltac bitblast :=
  unfold set_bits in *;
  apply Z.bits_inj';
  let i := fresh "i" in
  let Hi := fresh "Hi" in
  intros i Hi; bit_hyps i;
  repeat (rewrite ?Z.lor_spec, ?Z.land_spec, ?Z.bits_0 in *);
  repeat (rewrite ?Z.lnot_spec in * by exact Hi);
  repeat (rewrite ?Z.lor_spec, ?Z.land_spec, ?Z.bits_0 in *);
  repeat match goal with
  | |- context [Z.testbit ?x i] => destruct (Z.testbit x i)
  | H : context [Z.testbit ?x i] |- _ => destruct (Z.testbit x i)
  end;
  simpl in *; congruence.

Lemma set_bits_inside l r m : Z.land (set_bits l r m) m = Z.land r m.
Proof. bitblast. Qed.

Lemma set_bits_outside l r m :
  Z.land (set_bits l r m) (Z.lnot m) = Z.land l (Z.lnot m).
Proof. bitblast. Qed.

Lemma set_bits_disjoint l r m g :
  Z.land m g = 0 -> Z.land (set_bits l r m) g = Z.land l g.
Proof. intros H. bitblast. Qed.

Lemma set_bits_same l r m : Z.land r m = Z.land l m -> set_bits l r m = l.
Proof. intros H. bitblast. Qed.

(** Committing a group of the merged target keeps the bits outside the
    caller's mask. *)
Lemma set_bits_target_frame s s0 new_state mask g :
  Z.land s (Z.lnot mask) = Z.land s0 (Z.lnot mask) ->
  Z.land (set_bits s (set_bits new_state s0 (Z.lnot mask)) g) (Z.lnot mask)
  = Z.land s0 (Z.lnot mask).
Proof. intros H. bitblast. Qed.

(** Once a group holds the merged target, merging again changes nothing
    in that group. *)
Lemma set_bits_retarget s1 s0 new_state mask g :
  Z.land s1 g = Z.land (set_bits new_state s0 (Z.lnot mask)) g ->
  Z.land (set_bits new_state s1 (Z.lnot mask)) g = Z.land s1 g.
Proof. intros H. bitblast. Qed.

Section Proofs.

Context {hdr : st_tp_header}.
Variable spi_device : list (list Z) -> list Z -> Z -> spi_reply.

Local Open Scope driver_scope.

Ltac break_if :=
  match goal with
  | |- context [if ?c then _ else _] =>
      lazymatch c with
      | context [if _ then _ else _] => fail
      | _ => destruct c eqn:?
      end
  end.

(** ** [st_tp_update_system_state] *)

(** C9: the bits of [system_state] outside [mask] are the same after a
    call of [st_tp_update_system_state(new_state, mask)] as before it,
    whether the call returns success or an error. *)
Theorem st_tp_update_system_state_frame (new_state mask : Z) (w : world) :
  Z.land (system_state (snd (st_tp_update_system_state spi_device
                               new_state mask w))) (Z.lnot mask)
  = Z.land (system_state w) (Z.lnot mask).
Proof.
  unfold st_tp_update_system_state, update_debug_mode, update_feature_select,
    update_active_mode, update_locked_scan_mode, bind, pure, cprints, modify,
    spi_transaction.
  repeat (break_if; simpl);
    repeat (apply set_bits_target_frame); reflexivity.
Qed.

Ltac state_constants :=
  change SYSTEM_STATE_DEBUG_MODE with 1 in *;
  change SYSTEM_STATE_ENABLE_HEAT_MAP with 2 in *;
  change SYSTEM_STATE_ENABLE_DOME_SWITCH with 4 in *;
  change SYSTEM_STATE_ACTIVE_MODE with 8 in *;
  change (Z.lor 2 4) with 6 in *.

Ltac eqb_hyps :=
  repeat match goal with
  | H : negb _ = true |- _ => apply negb_true_iff in H
  | H : negb _ = false |- _ => apply negb_false_iff in H
  | H : (_ =? _) = true |- _ => apply Z.eqb_eq in H
  | H : (_ =? _) = false |- _ => apply Z.eqb_neq in H
  end.

Lemma update_debug_mode_noop n w :
  Z.land n 1 = Z.land (system_state w) 1 ->
  update_debug_mode n w = (tt, w).
Proof.
  intros H. unfold update_debug_mode. state_constants.
  rewrite H, Z.eqb_refl. reflexivity.
Qed.

Lemma update_feature_select_noop n w :
  Z.land n 6 = Z.land (system_state w) 6 ->
  update_feature_select spi_device n w = ((EC_SUCCESS, 0), w).
Proof.
  intros H. unfold update_feature_select. state_constants.
  rewrite H, Z.eqb_refl. reflexivity.
Qed.

Lemma update_active_mode_noop n w :
  Z.land n 8 = Z.land (system_state w) 8 ->
  update_active_mode spi_device n w = (EC_SUCCESS, w).
Proof.
  intros H. unfold update_active_mode. state_constants.
  rewrite H, Z.eqb_refl. reflexivity.
Qed.

(** After a successful call every flag group holds the merged target. *)
Lemma st_tp_update_system_state_commits new_state mask w r w1 g :
  st_tp_update_system_state spi_device new_state mask w = (r, w1) ->
  r = 0 ->
  g = 1 \/ g = 6 \/ g = 8 ->
  Z.land (system_state w1) g
  = Z.land (set_bits new_state (system_state w) (Z.lnot mask)) g.
Proof.
  unfold st_tp_update_system_state, update_debug_mode, update_feature_select,
    update_active_mode, update_locked_scan_mode, bind, pure, cprints, modify,
    spi_transaction.
  generalize (set_bits new_state (system_state w) (Z.lnot mask)) as n.
  intros n E Hr Hg. state_constants.
  assert (D16 : Z.land 1 6 = 0) by reflexivity.
  assert (D18 : Z.land 1 8 = 0) by reflexivity.
  assert (D68 : Z.land 6 8 = 0) by reflexivity.
  repeat match type of E with
         | context [if ?c then _ else _] => destruct c eqn:?; simpl in E
         end;
    inversion E; subst; simpl in *; eqb_hyps; try congruence;
    destruct Hg as [-> | [-> | ->]]; bitblast.
Qed.

(** C6: after a successful call of [st_tp_update_system_state] an
    immediately repeated call with the same arguments returns success,
    sends nothing on the bus and leaves [system_state] (indeed the whole
    driver state) as it was. *)
Theorem st_tp_update_system_state_idempotent (new_state mask : Z)
    (w w1 : world) :
  st_tp_update_system_state spi_device new_state mask w = (EC_SUCCESS, w1) ->
  st_tp_update_system_state spi_device new_state mask w1 = (EC_SUCCESS, w1)
  /\ spi_log (snd (st_tp_update_system_state spi_device new_state mask w1))
     = spi_log w1
  /\ system_state (snd (st_tp_update_system_state spi_device new_state mask w1))
     = system_state w1.
Proof.
  intros E.
  assert (C : forall g, g = 1 \/ g = 6 \/ g = 8 ->
            Z.land (set_bits new_state (system_state w1) (Z.lnot mask)) g
            = Z.land (system_state w1) g).
  { intros g Hg. apply set_bits_retarget with (s0 := system_state w).
    eapply st_tp_update_system_state_commits; eauto. }
  assert (R : st_tp_update_system_state spi_device new_state mask w1
              = (EC_SUCCESS, w1)).
  { unfold st_tp_update_system_state, bind.
    rewrite update_debug_mode_noop by (apply C; auto).
    rewrite update_feature_select_noop by (apply C; auto).
    simpl.
    rewrite update_active_mode_noop by (apply C; auto).
    reflexivity. }
  rewrite R. auto.
Qed.


Lemma update_debug_mode_spec n w :
  spi_log (snd (update_debug_mode n w)) = spi_log w /\
  Z.land (system_state (snd (update_debug_mode n w))) 2
  = Z.land (system_state w) 2.
Proof.
  unfold update_debug_mode. state_constants.
  break_if; simpl; split; auto.
  apply set_bits_disjoint. reflexivity.
Qed.

Lemma update_feature_select_spec n w r need w' :
  update_feature_select spi_device n w = ((r, need), w') ->
  (r = 0 /\ need = 0 /\ spi_log w' = spi_log w /\
   system_state w' = system_state w)
  \/ (r <> 0 /\ spi_log w' = spi_log w ++ [feature_select_frame n] /\
      system_state w' = system_state w)
  \/ (r = 0 /\ need = (if Z.land n 2 =? 0 then 0 else 1) /\
      spi_log w' = spi_log w ++ [feature_select_frame n] /\
      system_state w' = set_bits (system_state w) n 6).
Proof.
  unfold update_feature_select, spi_transaction. state_constants.
  destruct (negb (Z.land n 6 =? Z.land (system_state w) 6)).
  - destruct (negb (reply_ret (spi_device (spi_log w)
                                 (feature_select_frame n) 0) =? 0)) eqn:E;
      intros H; inversion H; subst; clear H; eqb_hyps; simpl; auto.
    right; right. auto.
  - intros H; inversion H; subst. left. auto.
Qed.

Lemma update_active_mode_spec n w r w' :
  update_active_mode spi_device n w = (r, w') ->
  Z.land (system_state w') 2 = Z.land (system_state w) 2 /\
  ((r = 0 /\ spi_log w' = spi_log w) \/
   spi_log w' = spi_log w ++ [scan_mode_active_frame n]).
Proof.
  unfold update_active_mode, spi_transaction, cprints, modify.
  state_constants.
  destruct (negb (Z.land n 8 =? Z.land (system_state w) 8)).
  - simpl.
    destruct (negb (reply_ret (spi_device (spi_log w)
                                 (scan_mode_active_frame n) 0) =? 0));
      intros H; inversion H; subst; clear H; simpl; split; auto.
    apply set_bits_disjoint. reflexivity.
  - intros H; inversion H; subst. auto.
Qed.

Lemma update_locked_scan_mode_spec need w :
  system_state (snd (update_locked_scan_mode spi_device need w))
  = system_state w /\
  (need = 0 ->
   update_locked_scan_mode spi_device need w = (EC_SUCCESS, w)) /\
  (need <> 0 ->
   spi_log (snd (update_locked_scan_mode spi_device need w))
   = spi_log w ++ [scan_mode_locked_frame]).
Proof.
  unfold update_locked_scan_mode, spi_transaction, pure.
  destruct (need =? 0) eqn:E; eqb_hyps; simpl; repeat split; auto;
    intros; congruence.
Qed.

(** C7 (as the code has it): when a call of [st_tp_update_system_state]
    takes the heat-map flag from off to on, the feature-select command is
    followed in the same call by the locked-scan-mode command, with at
    most the active-scan-mode command in between, unless that command in
    between fails: then the call returns its error and stops there.  A
    call whose target has the heat-map flag off (in particular one that
    disables heat-map mode) never sends the locked-scan-mode command. *)
Theorem st_tp_update_system_state_locked_scan (new_state mask : Z)
    (w : world) :
  let target := set_bits new_state (system_state w) (Z.lnot mask) in
  let r := fst (st_tp_update_system_state spi_device new_state mask w) in
  let w' := snd (st_tp_update_system_state spi_device new_state mask w) in
  (Z.land (system_state w) SYSTEM_STATE_ENABLE_HEAT_MAP = 0 ->
   Z.land (system_state w') SYSTEM_STATE_ENABLE_HEAT_MAP <> 0 ->
   (exists mid,
       spi_log w' = spi_log w ++ [feature_select_frame target] ++ mid ++
                    [scan_mode_locked_frame] /\
       (mid = [] \/ mid = [scan_mode_active_frame target]))
   \/ (r <> EC_SUCCESS /\
       spi_log w' = spi_log w ++ [feature_select_frame target;
                                  scan_mode_active_frame target]))
  /\
  (Z.land target SYSTEM_STATE_ENABLE_HEAT_MAP = 0 ->
   ST_TP_CMD_WRITE_FEATURE_SELECT <> ST_TP_CMD_WRITE_SCAN_MODE_SELECT ->
   ST_TP_SCAN_MODE_ACTIVE <> ST_TP_SCAN_MODE_LOCKED ->
   exists frames,
     spi_log w' = spi_log w ++ frames /\
     ~ In scan_mode_locked_frame frames).
Proof.
  cbv zeta. unfold st_tp_update_system_state, bind, pure.
  generalize (set_bits new_state (system_state w) (Z.lnot mask)) as n.
  intros n. state_constants.
  destruct (update_debug_mode_spec n w) as [La Sa].
  destruct (update_debug_mode n w) as [[] wa]. simpl in La, Sa.
  destruct (update_feature_select spi_device n wa) as [[r1 need] wb] eqn:Eb.
  apply update_feature_select_spec in Eb. simpl fst. simpl snd.
  destruct (update_active_mode spi_device n wb) as [r2 wc] eqn:Ec.
  destruct (update_active_mode_spec _ _ _ _ Ec) as [Sc Lc].
  destruct (update_locked_scan_mode_spec need wc) as [Sd [Ld0 Ld1]].
  split.
  - intros Hoff.
    destruct Eb as [(-> & -> & Lb & Sb) | [(Hr1 & Lb & Sb) | (-> & Hn & Lb & Sb)]].
    + (* feature group unchanged: the flag cannot have come on *)
      simpl. rewrite Ec.
      destruct (negb (r2 =? 0)); simpl; intros Hon; exfalso; apply Hon.
      * congruence.
      * rewrite ?Sd. congruence.
    + (* feature select failed: state untouched *)
      apply Z.eqb_neq in Hr1. rewrite Hr1. simpl. intros Hon.
      exfalso. apply Hon. congruence.
    + simpl. rewrite Ec.
      assert (Hb : Z.land (system_state wb) 2 = Z.land n 2).
      { rewrite Sb. clear. 
        assert (D : Z.land 6 2 = 2) by reflexivity. bitblast. }
      destruct (negb (r2 =? 0)) eqn:Er2; simpl.
      * intros _. right. eqb_hyps. split; [exact Er2|].
        destruct Lc as [[-> _] | Lc]; [congruence|].
        rewrite Lc, Lb, La, <- app_assoc. reflexivity.
      * intros Hon. rewrite Sd, Sc, Hb in Hon.
        assert (Hneed : need <> 0).
        { rewrite Hn. destruct (Z.land n 2 =? 0) eqn:E; eqb_hyps;
            congruence. }
        left. rewrite (Ld1 Hneed).
        destruct Lc as [[_ Lc] | Lc]; rewrite Lc, Lb, La.
        -- exists []. rewrite <- app_assoc. auto.
        -- exists [scan_mode_active_frame n].
           rewrite <- !app_assoc. auto.
  - intros Hn Hfs Hmode.
    assert (Nfs : forall b, scan_mode_locked_frame <> feature_select_frame b).
    { intros b E. inversion E. congruence. }
    assert (Nact : forall b, scan_mode_locked_frame <> scan_mode_active_frame b).
    { intros b E. inversion E. congruence. }
    assert (Hneed : negb (r1 =? 0) = false -> need = 0).
    { intros Hr.
      destruct Eb as [(_ & -> & _) | [(Hr1 & _) | (_ & -> & _)]]; auto.
      - eqb_hyps. congruence.
      - rewrite Hn. reflexivity. }
    assert (Lb : spi_log wb = spi_log w \/
                 spi_log wb = spi_log w ++ [feature_select_frame n]).
    { rewrite <- La.
      destruct Eb as [(_ & _ & Lb & _) | [(_ & Lb & _) | (_ & _ & Lb & _)]];
        auto. }
    simpl. destruct (negb (r1 =? 0)) eqn:Er1; simpl.
    + destruct Lb as [-> | ->].
      * exists []. rewrite app_nil_r. auto.
      * eexists. split; [reflexivity|]. simpl. intros [F | []].
        symmetry in F. eapply Nfs; eauto.
    + specialize (Hneed eq_refl). subst need. rewrite Ec.
      destruct (negb (r2 =? 0)); simpl;
        [| rewrite ?(Ld0 eq_refl); simpl ];
        (destruct Lc as [[_ Lc] | Lc]; rewrite Lc;
         destruct Lb as [-> | ->];
         [ exists []; rewrite app_nil_r; auto
         | eexists; split; [reflexivity|]; simpl; intros [F | []];
           symmetry in F; eapply Nfs; eauto
         | eexists; split; [reflexivity|]; simpl; intros [F | []];
           symmetry in F; eapply Nact; eauto
         | eexists; split; [rewrite <- app_assoc; reflexivity|]; simpl;
           intros [F | [F | []]]; symmetry in F;
           [eapply Nfs | eapply Nact]; eauto ]).
Qed.

(** ** [st_tp_read_all_events] *)

Lemma zseq_in_range start len i :
  In i (zseq start len) -> start <= i < start + Z.of_nat len.
Proof.
  revert start. induction len as [|len IH]; simpl; intros start H.
  - contradiction.
  - destruct H as [<- | H]; [lia|]. apply IH in H. lia.
Qed.

Lemma zseq_snoc start len :
  zseq start (S len) = zseq start len ++ [start + Z.of_nat len].
Proof.
  revert start. induction len as [|len IH]; intros start.
  - simpl. f_equal. lia.
  - change (zseq start (S (S len)))
      with (start :: zseq (start + 1) (S len)).
    rewrite IH. simpl. do 3 f_equal. lia.
Qed.

(** One iteration of the loop of [st_tp_read_all_events]. *)
Lemma read_all_events_loop_step (todo : nat) (i : Z) (w : world) :
  read_all_events_loop (S todo) i w =
  let e := event_at w i in
  let w0 := set_events_examined (events_examined w ++ [i]) w in
  if valid_magic e then
    if is_error_report e
    then read_all_events_loop todo (i + 1)
           (set_console (console w0 ++ [error_report_msg e]) w0)
    else read_all_events_loop todo (i + 1) w0
  else (i, w0).
Proof.
  cbn [read_all_events_loop].
  unfold bind, rx_buf_events, st_tp_handle_error_report, valid_magic,
    is_error_report, pure, cprints, modify, error_report_msg.
  fold (event_at w i). cbv zeta.
  destruct (event_magic (event_at w i) =? ST_TP_EVENT_MAGIC);
    destruct (event_evt_id (event_at w i) =? ST_TP_EVENT_ID_ERROR_REPORT);
    reflexivity.
Qed.

(** The loop stops at the first record with a foreign magic byte, prints
    one line for every error report before it, and touches nothing else. *)
Lemma read_all_events_loop_spec (todo : nat) : forall (i : Z) (w : world),
  let n := fst (read_all_events_loop todo i w) in
  let w' := snd (read_all_events_loop todo i w) in
  i <= n <= i + Z.of_nat todo /\
  (forall j, i <= j < n -> valid_magic (event_at w j) = true) /\
  (n < i + Z.of_nat todo -> valid_magic (event_at w n) = false) /\
  events_examined w' =
    events_examined w ++
    zseq i (Z.to_nat (Z.min (n - i + 1) (Z.of_nat todo))) /\
  console w' =
    console w ++
    map error_report_msg
      (filter is_error_report (map (event_at w) (zseq i (Z.to_nat (n - i))))) /\
  rx_buf w' = rx_buf w /\ spi_log w' = spi_log w.
Proof.
  induction todo as [|todo IH]; intros i w; cbv zeta.
  - simpl. rewrite Z.sub_diag. simpl. rewrite !app_nil_r.
    repeat split; auto; lia.
  - rewrite read_all_events_loop_step. cbv zeta.
    destruct (valid_magic (event_at w i)) eqn:Hm.
    + (* valid record: handle it and go on *)
      assert (Hstep : forall w1 : world,
                 rx_buf w1 = rx_buf w ->
                 spi_log w1 = spi_log w ->
                 events_examined w1 = events_examined w ++ [i] ->
                 console w1 =
                   console w ++
                   map error_report_msg
                     (filter is_error_report [event_at w i]) ->
                 let n := fst (read_all_events_loop todo (i + 1) w1) in
                 let w' := snd (read_all_events_loop todo (i + 1) w1) in
                 i <= n <= i + Z.of_nat (S todo) /\
                 (forall j, i <= j < n -> valid_magic (event_at w j) = true) /\
                 (n < i + Z.of_nat (S todo) ->
                  valid_magic (event_at w n) = false) /\
                 events_examined w' =
                   events_examined w ++
                   zseq i (Z.to_nat (Z.min (n - i + 1) (Z.of_nat (S todo)))) /\
                 console w' =
                   console w ++
                   map error_report_msg
                     (filter is_error_report
                        (map (event_at w) (zseq i (Z.to_nat (n - i))))) /\
                 rx_buf w' = rx_buf w /\ spi_log w' = spi_log w).
      { intros w1 Hrx Hlog Hex Hcon. cbv zeta.
        assert (Hev1 : forall j, event_at w1 j = event_at w j).
        { intros j. unfold event_at, rx_union. rewrite Hrx. reflexivity. }
        destruct (IH (i + 1) w1) as (Hn & Hvalid & Hstop & Hexam & Hcons & Hr & Hl).
        set (n := fst (read_all_events_loop todo (i + 1) w1)) in *.
        set (w' := snd (read_all_events_loop todo (i + 1) w1)) in *.
        split; [lia|].
        split.
        { intros j Hj. destruct (Z.eq_dec j i) as [-> | Hne].
          - exact Hm.
          - rewrite <- Hev1. apply Hvalid. lia. }
        split.
        { intros Hlt. rewrite <- Hev1. apply Hstop. lia. }
        split.
        { rewrite Hexam, Hex, <- app_assoc. f_equal.
          replace (Z.to_nat (Z.min (n - i + 1) (Z.of_nat (S todo))))
            with (S (Z.to_nat (Z.min (n - (i + 1) + 1) (Z.of_nat todo))))
            by lia.
          reflexivity. }
        split.
        { rewrite Hcons, Hcon, <- app_assoc. f_equal.
          replace (Z.to_nat (n - i)) with (S (Z.to_nat (n - (i + 1)))) by lia.
          cbn [zseq map filter].
          rewrite <- map_app. f_equal.
          replace (map (event_at w1) (zseq (i + 1) (Z.to_nat (n - (i + 1)))))
            with (map (event_at w) (zseq (i + 1) (Z.to_nat (n - (i + 1)))))
            by (apply map_ext; intros; symmetry; apply Hev1).
          destruct (is_error_report (event_at w i)); reflexivity. }
        split; congruence. }
      destruct (is_error_report (event_at w i)) eqn:He.
      * apply Hstep; try reflexivity.
        cbn [filter]. rewrite He. reflexivity.
      * apply Hstep; try reflexivity.
        cbn [filter]. rewrite He. simpl.
        symmetry. apply app_nil_r.
    + (* foreign magic: break *)
      cbn [fst snd].
      replace (Z.to_nat (Z.min (i - i + 1) (Z.of_nat (S todo)))) with 1%nat
        by lia.
      rewrite Z.sub_diag. cbn [Z.to_nat zseq map filter]. rewrite app_nil_r.
      repeat split; auto; try lia.
Qed.

Lemma st_tp_read_all_events_unfold (w : world) :
  st_tp_read_all_events spi_device w =
  let rw := spi_transaction spi_device [ST_TP_CMD_READ_ALL_EVENTS]
              (32 * 8 + ST_TP_DUMMY_BYTE) w in
  if negb (fst rw =? 0) then (- fst rw, snd rw)
  else read_all_events_loop 32 0 (snd rw).
Proof.
  unfold st_tp_read_all_events, bind, pure, spi_transaction. cbn [fst snd].
  destruct (negb _); reflexivity.
Qed.

(** C1: when the SPI transaction that fetches the batch succeeds,
    [st_tp_read_all_events] walks the 32 records from index 0, stops at
    the first record whose magic byte is not [ST_TP_EVENT_MAGIC], and
    returns the number of valid records before it.  The record that stops
    the scan is the last one it looks at, and only error reports among
    the valid records before it are handled (printed). *)
Theorem st_tp_read_all_events_stops_at_first_invalid (w : world) :
  let rx_len := 32 * 8 + ST_TP_DUMMY_BYTE in
  let w1 := snd (spi_transaction spi_device
                   [ST_TP_CMD_READ_ALL_EVENTS] rx_len w) in
  let n := fst (st_tp_read_all_events spi_device w) in
  let w' := snd (st_tp_read_all_events spi_device w) in
  reply_ret (spi_device (spi_log w) [ST_TP_CMD_READ_ALL_EVENTS] rx_len)
    = EC_SUCCESS ->
  0 <= n <= 32 /\
  (forall j, 0 <= j < n -> valid_magic (event_at w1 j) = true) /\
  (n < 32 -> valid_magic (event_at w1 n) = false) /\
  events_examined w' = events_examined w ++ zrange (Z.min (n + 1) 32) /\
  console w' =
    console w ++
    map error_report_msg
      (filter is_error_report (map (event_at w1) (zrange n))) /\
  spi_log w' = spi_log w ++ [[ST_TP_CMD_READ_ALL_EVENTS]].
Proof.
  cbv zeta. intros Hok.
  rewrite st_tp_read_all_events_unfold. cbv zeta.
  set (w1 := snd (spi_transaction spi_device [ST_TP_CMD_READ_ALL_EVENTS]
                    (32 * 8 + ST_TP_DUMMY_BYTE) w)).
  assert (Hr : fst (spi_transaction spi_device [ST_TP_CMD_READ_ALL_EVENTS]
                      (32 * 8 + ST_TP_DUMMY_BYTE) w) = 0) by exact Hok.
  rewrite Hr. cbn [Z.eqb negb].
  destruct (read_all_events_loop_spec 32 0 w1)
    as (Hn & Hvalid & Hstop & Hexam & Hcons & _ & Hlog).
  set (n := fst (read_all_events_loop 32 0 w1)) in *.
  set (w' := snd (read_all_events_loop 32 0 w1)) in *.
  change (Z.of_nat 32) with 32 in *.
  rewrite Z.sub_0_r in *. rewrite Z.add_0_l in *.
  repeat split; auto; try lia.
Qed.

(** C10: with the EC convention that error codes are positive,
    [st_tp_read_all_events] returns a count between 0 and 32 when the SPI
    transaction succeeds and a strictly negative value when it fails;
    every record it dereferences lies inside the 32-slot array; so a
    non-negative result never exceeds 32. *)
Theorem st_tp_read_all_events_bounds (w : world) :
  let rx_len := 32 * 8 + ST_TP_DUMMY_BYTE in
  let spi_ret :=
    reply_ret (spi_device (spi_log w) [ST_TP_CMD_READ_ALL_EVENTS] rx_len) in
  let n := fst (st_tp_read_all_events spi_device w) in
  let w' := snd (st_tp_read_all_events spi_device w) in
  0 <= spi_ret ->
  (spi_ret = EC_SUCCESS -> 0 <= n <= 32) /\
  (spi_ret <> EC_SUCCESS -> n < 0) /\
  (exists examined,
      events_examined w' = events_examined w ++ examined /\
      Forall (fun i => 0 <= i < 32) examined) /\
  (0 <= n -> n <= 32).
Proof.
  cbv zeta. intros Hpos.
  rewrite st_tp_read_all_events_unfold. cbv zeta.
  set (w1 := snd (spi_transaction spi_device [ST_TP_CMD_READ_ALL_EVENTS]
                    (32 * 8 + ST_TP_DUMMY_BYTE) w)).
  change (fst (spi_transaction spi_device [ST_TP_CMD_READ_ALL_EVENTS]
                 (32 * 8 + ST_TP_DUMMY_BYTE) w))
    with (reply_ret (spi_device (spi_log w) [ST_TP_CMD_READ_ALL_EVENTS]
                       (32 * 8 + ST_TP_DUMMY_BYTE))).
  unfold EC_SUCCESS.
  destruct (reply_ret (spi_device (spi_log w) [ST_TP_CMD_READ_ALL_EVENTS]
                         (32 * 8 + ST_TP_DUMMY_BYTE)) =? 0) eqn:E;
    cbn [negb fst snd]; eqb_hyps.
  - destruct (read_all_events_loop_spec 32 0 w1)
      as (Hn & _ & _ & Hexam & _).
    change (Z.of_nat 32) with 32 in *.
    repeat split; try lia.
    eexists. split; [exact Hexam|].
    apply Forall_forall. intros i Hi. apply zseq_in_range in Hi. lia.
  - repeat split; try lia.
    exists []. split; [symmetry; apply app_nil_r | constructor].
Qed.

(** ** [st_tp_load_host_data] *)

Lemma poll_header_log (w : world) :
  spi_log (poll_header spi_device w) = spi_log w ++ [host_data_header_frame].
Proof. reflexivity. Qed.

Lemma load_host_data_poll_step retry mem_id count w :
  load_host_data_poll spi_device (S retry) mem_id count
    (sizeof_data_header + ST_TP_DUMMY_BYTE) w =
  if host_data_ready mem_id count (poll_header spi_device w)
  then (EC_SUCCESS, poll_header spi_device w)
  else load_host_data_poll spi_device retry mem_id count
         (sizeof_data_header + ST_TP_DUMMY_BYTE)
         (poll_header_and_sleep spi_device w).
Proof.
  cbn [load_host_data_poll]. unfold bind at 1.
  unfold poll_header_and_sleep, poll_header.
  destruct (st_tp_read_host_data_memory spi_device 0
              (sizeof_data_header + ST_TP_DUMMY_BYTE) w) as [r w1].
  cbn [snd]. destruct (host_data_ready mem_id count w1); reflexivity.
Qed.

(** The polling loop ends with success at the first header that is
    ready, and with a timeout after [retry] headers that are not. *)
Lemma load_host_data_poll_spec (retry : nat) (mem_id count : Z) :
  forall w : world,
  let r := fst (load_host_data_poll spi_device retry mem_id count
                  (sizeof_data_header + ST_TP_DUMMY_BYTE) w) in
  let w' := snd (load_host_data_poll spi_device retry mem_id count
                   (sizeof_data_header + ST_TP_DUMMY_BYTE) w) in
  let polled j :=
    poll_header spi_device (Nat.iter j (poll_header_and_sleep spi_device) w) in
  (exists k, (k < retry)%nat /\
     (forall j, (j < k)%nat -> host_data_ready mem_id count (polled j) = false) /\
     host_data_ready mem_id count (polled k) = true /\
     r = EC_SUCCESS /\ w' = polled k /\
     spi_log w' = spi_log w ++ repeat host_data_header_frame (S k))
  \/
  ((forall j, (j < retry)%nat ->
      host_data_ready mem_id count (polled j) = false) /\
   r = EC_ERROR_TIMEOUT /\
   w' = Nat.iter retry (poll_header_and_sleep spi_device) w /\
   spi_log w' = spi_log w ++ repeat host_data_header_frame retry).
Proof.
  induction retry as [|retry IH]; intros w; cbv zeta.
  - right. simpl. rewrite app_nil_r. repeat split; auto; intros j Hj; lia.
  - rewrite load_host_data_poll_step.
    destruct (host_data_ready mem_id count (poll_header spi_device w)) eqn:Hr.
    + left. exists 0%nat. simpl. repeat split; auto; try lia.
    + specialize (IH (poll_header_and_sleep spi_device w)). cbv zeta in IH.
      assert (Hlog : spi_log (poll_header_and_sleep spi_device w)
                     = spi_log w ++ [host_data_header_frame]) by reflexivity.
      destruct IH as [(k & Hk & Hbad & Hgood & Hret & Hw & Hl)
                     | (Hbad & Hret & Hw & Hl)].
      * left. exists (S k). rewrite !Nat.iter_succ_r.
        repeat split; auto; try lia;
          try (intros j Hj; destruct j as [|j];
               [exact Hr | rewrite Nat.iter_succ_r; apply Hbad; lia]);
          try (rewrite Hl, Hlog, <- app_assoc; reflexivity).
      * right. rewrite Nat.iter_succ_r.
        repeat split; auto;
          try (intros j Hj; destruct j as [|j];
               [exact Hr | rewrite Nat.iter_succ_r; apply Hbad; lia]);
          try (rewrite Hl, Hlog, <- app_assoc; reflexivity).
Qed.

(** C8 (as the code has it): [st_tp_load_host_data(mem_id)] first reads
    the header.  If it shows [mem_id], the call returns success after that
    single transaction.  Otherwise it sends the reload command and
    returns its error if that fails; else it reads the header up to five
    times and returns success at the first header that carries the header
    magic, [mem_id] and a count different from the one first read, and
    [EC_ERROR_TIMEOUT] when none of the five does. *)
Theorem st_tp_load_host_data_spec (mem_id : Z) (w : world) :
  let w1 := poll_header spi_device w in
  let count := data_header_count (rx_union w1) in
  let r2 := fst (spi_transaction spi_device (load_host_data_frame mem_id) 0 w1) in
  let w2 := snd (spi_transaction spi_device (load_host_data_frame mem_id) 0 w1) in
  let polled j :=
    poll_header spi_device (Nat.iter j (poll_header_and_sleep spi_device) w2) in
  let r := fst (st_tp_load_host_data spi_device mem_id w) in
  let w' := snd (st_tp_load_host_data spi_device mem_id w) in
  (data_header_host_data_mem_id (rx_union w1) = mem_id ->
   r = EC_SUCCESS /\ w' = w1 /\
   spi_log w' = spi_log w ++ [host_data_header_frame])
  /\
  (data_header_host_data_mem_id (rx_union w1) <> mem_id ->
   (r2 <> 0 ->
    r = r2 /\ w' = w2 /\
    spi_log w' = spi_log w ++ [host_data_header_frame;
                               load_host_data_frame mem_id])
   /\
   (r2 = 0 ->
    (exists k, (k < 5)%nat /\
       (forall j, (j < k)%nat ->
          host_data_ready mem_id count (polled j) = false) /\
       host_data_ready mem_id count (polled k) = true /\
       r = EC_SUCCESS /\ w' = polled k /\
       spi_log w' = spi_log w ++ [host_data_header_frame;
                                  load_host_data_frame mem_id] ++
                    repeat host_data_header_frame (S k))
    \/
    ((forall j, (j < 5)%nat ->
        host_data_ready mem_id count (polled j) = false) /\
     r = EC_ERROR_TIMEOUT /\
     w' = Nat.iter 5 (poll_header_and_sleep spi_device) w2 /\
     spi_log w' = spi_log w ++ [host_data_header_frame;
                                load_host_data_frame mem_id] ++
                  repeat host_data_header_frame 5))).
Proof.
  cbv zeta.
  assert (U : st_tp_load_host_data spi_device mem_id w =
              let w1 := poll_header spi_device w in
              if data_header_host_data_mem_id (rx_union w1) =? mem_id
              then (EC_SUCCESS, w1)
              else
                let rw := spi_transaction spi_device
                            (load_host_data_frame mem_id) 0 w1 in
                if negb (fst rw =? 0) then rw
                else load_host_data_poll spi_device 5 mem_id
                       (data_header_count (rx_union w1))
                       (sizeof_data_header + ST_TP_DUMMY_BYTE) (snd rw)).
  { unfold st_tp_load_host_data, poll_header. unfold bind at 1.
    destruct (st_tp_read_host_data_memory spi_device 0
                (sizeof_data_header + ST_TP_DUMMY_BYTE) w) as [r0 w1].
    cbn [snd]. cbv zeta.
    destruct (data_header_host_data_mem_id (rx_union w1) =? mem_id);
      [reflexivity|].
    unfold bind, pure.
    destruct (spi_transaction spi_device (load_host_data_frame mem_id) 0 w1)
      as [r2 w2].
    cbn [fst snd]. destruct (negb (r2 =? 0)); reflexivity. }
  rewrite U. cbv zeta. clear U.
  set (w1 := poll_header spi_device w).
  assert (L1 : spi_log w1 = spi_log w ++ [host_data_header_frame])
    by reflexivity.
  split.
  - intros Hhit. apply Z.eqb_eq in Hhit. rewrite Hhit. auto.
  - intros Hmiss. apply Z.eqb_neq in Hmiss. rewrite Hmiss.
    set (rw := spi_transaction spi_device (load_host_data_frame mem_id) 0 w1).
    assert (L2 : spi_log (snd rw) =
                 spi_log w ++ [host_data_header_frame;
                               load_host_data_frame mem_id]).
    { change (spi_log (snd rw))
        with (spi_log w1 ++ [load_host_data_frame mem_id]).
      rewrite L1, <- app_assoc. reflexivity. }
    split.
    + intros Hfail. apply Z.eqb_neq in Hfail. rewrite Hfail. cbn [negb].
      auto.
    + intros Hok. rewrite Hok. cbn [Z.eqb negb].
      destruct (load_host_data_poll_spec 5 mem_id
                  (data_header_count (rx_union w1)) (snd rw))
        as [(k & Hk & Hbad & Hgood & Hret & Hw & Hl)
           | (Hbad & Hret & Hw & Hl)].
      * left. exists k. rewrite Hl, L2, <- !app_assoc. auto 10.
      * right. rewrite Hl, L2, <- !app_assoc. auto 10.
Qed.

(** ** The heat map double buffer *)

Lemma keeps_buffers_bind {A B} (m : M A) (k : A -> M B) :
  keeps_buffers m -> (forall a, keeps_buffers (k a)) ->
  keeps_buffers (bind m k).
Proof.
  intros Hm Hk w. unfold bind. specialize (Hm w).
  destruct (m w) as [a w1]. cbn [snd] in Hm.
  destruct (Hk a w1) as (H1 & H2 & H3 & H4).
  destruct Hm as (G1 & G2 & G3 & G4).
  repeat split; congruence.
Qed.

Lemma keeps_buffers_pure {A} (a : A) : keeps_buffers (pure a).
Proof. intros w. repeat split. Qed.

Lemma keeps_buffers_spi_transaction tx rxlen :
  keeps_buffers (spi_transaction spi_device tx rxlen).
Proof. intros w. repeat split. Qed.

Lemma keeps_buffers_cprints m : keeps_buffers (cprints m).
Proof. intros w. repeat split. Qed.

Lemma keeps_buffers_rx_buf_events i : keeps_buffers (rx_buf_events i).
Proof. intros w. repeat split. Qed.

Create HintDb buffers.
#[local] Hint Resolve keeps_buffers_pure keeps_buffers_spi_transaction
  keeps_buffers_cprints keeps_buffers_rx_buf_events : buffers.

Lemma keeps_buffers_read_all_events_loop todo :
  forall i, keeps_buffers (read_all_events_loop todo i).
Proof.
  induction todo as [|todo IH]; intros i; cbn [read_all_events_loop].
  - auto with buffers.
  - apply keeps_buffers_bind; [auto with buffers|]. intros e.
    destruct (negb (event_magic e =? ST_TP_EVENT_MAGIC)); [auto with buffers|].
    destruct (event_evt_id e =? ST_TP_EVENT_ID_ERROR_REPORT); [|apply IH].
    apply keeps_buffers_bind.
    + unfold st_tp_handle_error_report.
      destruct (_ || _); [auto with buffers|].
      apply keeps_buffers_bind; auto with buffers.
    + intros r. destruct (negb (r =? 0)); [auto with buffers | apply IH].
Qed.

Lemma keeps_buffers_read_all_events :
  keeps_buffers (st_tp_read_all_events spi_device).
Proof.
  unfold st_tp_read_all_events. apply keeps_buffers_bind;
    [auto with buffers|].
  intros r. destruct (negb (r =? 0)); [auto with buffers|].
  apply keeps_buffers_read_all_events_loop.
Qed.

Lemma keeps_buffers_hid_report_loop todo :
  forall i fingers n, keeps_buffers (hid_report_loop todo i fingers n).
Proof.
  induction todo as [|todo IH]; intros i fingers n; cbn [hid_report_loop].
  - auto with buffers.
  - apply keeps_buffers_bind; [auto with buffers|]. intros e.
    destruct (_ || _); [|apply IH].
    destruct (st_tp_parse_finger fingers e n). apply IH.
Qed.

Lemma keeps_buffers_write_hid_report :
  keeps_buffers (st_tp_write_hid_report spi_device).
Proof.
  unfold st_tp_write_hid_report, st_tp_read_host_buffer_header.
  apply keeps_buffers_bind; [auto with buffers|]. intros r.
  destruct (negb (r =? 0)); [auto with buffers|].
  apply keeps_buffers_bind.
  { intros w. destruct (negb _); repeat split. }
  intros changed.
  apply keeps_buffers_bind; [apply keeps_buffers_read_all_events|].
  intros num_events. destruct (num_events <? 0); [auto with buffers|].
  apply keeps_buffers_bind; [apply keeps_buffers_hid_report_loop|].
  intros [fingers num_finger].
  destruct (_ && _); [auto with buffers|].
  intros w. repeat split.
Qed.

Lemma st_tp_read_frame_indices (w : world) :
  spi_buffer_index (snd (st_tp_read_frame spi_device w)) = spi_buffer_index w /\
  usb_buffer_index (snd (st_tp_read_frame spi_device w)) = usb_buffer_index w /\
  system_state (snd (st_tp_read_frame spi_device w)) = system_state w /\
  transmit_report_offset (snd (st_tp_read_frame spi_device w))
  = transmit_report_offset w.
Proof.
  unfold st_tp_read_frame, spi_transaction.
  repeat (break_if; cbn [fst snd]); repeat split.
Qed.

Lemma print_frame_indices (w : world) :
  spi_buffer_index (snd (print_frame w)) = spi_buffer_index w /\
  usb_buffer_index (snd (print_frame w)) = usb_buffer_index w /\
  transmit_report_offset (snd (print_frame w)) = transmit_report_offset w.
Proof.
  unfold print_frame. repeat (break_if; cbn [fst snd]); repeat split.
Qed.

(** What [st_tp_read_report] does to the two indices. *)
Lemma st_tp_read_report_indices (w : world) :
  let w' := snd (st_tp_read_report spi_device w) in
  (~ (Z.land (system_state w) SYSTEM_STATE_ENABLE_HEAT_MAP <> 0 /\
      buffer_gap w <= 1 /\
      fst (st_tp_read_frame spi_device w) = EC_SUCCESS) /\
   spi_buffer_index w' = spi_buffer_index w /\
   usb_buffer_index w' = usb_buffer_index w)
  \/
  (Z.land (system_state w) SYSTEM_STATE_ENABLE_HEAT_MAP <> 0 /\
   buffer_gap w <= 1 /\
   fst (st_tp_read_frame spi_device w) = EC_SUCCESS /\
   spi_buffer_index w' = u32 (spi_buffer_index w + 1) /\
   (usb_buffer_index w' = usb_buffer_index w \/
    usb_buffer_index w' = u32 (usb_buffer_index w + 1))).
Proof.
  cbv zeta. unfold st_tp_read_report.
  destruct (negb (Z.land (system_state w) SYSTEM_STATE_ENABLE_HEAT_MAP =? 0))
    eqn:Hheat.
  - unfold bind, heat_map_capture, st_tp_send_ack, hook_call_deferred,
      modify, spi_transaction at 1 2. fold (buffer_gap w).
    destruct (buffer_gap w <=? 1) eqn:Hgap.
    + destruct (st_tp_read_frame_indices w) as (F1 & F2 & F3 & _).
      destruct (st_tp_read_frame spi_device w) as [r w1]. cbn [fst snd] in *.
      destruct (r =? EC_SUCCESS) eqn:Hr.
      * right. eqb_hyps. apply Z.leb_le in Hgap.
        split; [assumption|]. split; [assumption|]. split; [assumption|].
        cbn [system_state set_spi_buffer_index].
        destruct (negb (Z.land (system_state w1) SYSTEM_STATE_DEBUG_MODE =? 0)).
        -- destruct (print_frame_indices
                       (set_spi_buffer_index (u32 (spi_buffer_index w1 + 1)) w1))
             as (P1 & P2 & _).
           destruct (print_frame
                       (set_spi_buffer_index (u32 (spi_buffer_index w1 + 1)) w1))
             as [[] w3].
           cbn [fst snd] in *. rewrite <- F1, <- F2.
           destruct (_ >? _); cbn; rewrite ?P1, ?P2; auto.
        -- rewrite <- F1, <- F2. destruct (_ >? _); cbn; auto.
      * left. eqb_hyps.
        split; [intros (_ & _ & C); contradiction|].
        destruct (_ >? _); cbn; auto.
    + left. apply Z.leb_gt in Hgap.
      split; [intros (_ & C & _); lia|].
      destruct (_ >? _); cbn; auto.
  - left. eqb_hyps.
    split; [intros (C & _); contradiction|].
    assert (K : keeps_buffers (bind (st_tp_write_hid_report spi_device)
                                 (fun _ => st_tp_send_ack spi_device))).
    { apply keeps_buffers_bind; [apply keeps_buffers_write_hid_report|].
      intros _. apply keeps_buffers_spi_transaction. }
    destruct (K w) as (K1 & K2 & _). auto.
Qed.

Lemma st_tp_read_report_offset (w : world) :
  transmit_report_offset (snd (st_tp_read_report spi_device w))
  = transmit_report_offset w.
Proof.
  unfold st_tp_read_report.
  destruct (negb (Z.land (system_state w) SYSTEM_STATE_ENABLE_HEAT_MAP =? 0)).
  - unfold bind, heat_map_capture, st_tp_send_ack, hook_call_deferred,
      modify, spi_transaction at 1.
    destruct (_ <=? 1).
    + destruct (st_tp_read_frame_indices w) as (_ & _ & _ & F).
      destruct (st_tp_read_frame spi_device w) as [r w1]. cbn [fst snd] in *.
      destruct (r =? EC_SUCCESS).
      * cbn [system_state set_spi_buffer_index].
        destruct (negb (Z.land (system_state w1) SYSTEM_STATE_DEBUG_MODE =? 0)).
        -- destruct (print_frame_indices
                       (set_spi_buffer_index (u32 (spi_buffer_index w1 + 1)) w1))
             as (_ & _ & P).
           destruct (print_frame
                       (set_spi_buffer_index (u32 (spi_buffer_index w1 + 1)) w1))
             as [[] w3].
           cbn [fst snd] in *. rewrite <- F.
           destruct (_ >? _); cbn; rewrite ?P; auto.
        -- rewrite <- F. destruct (_ >? _); cbn; auto.
      * destruct (_ >? _); cbn; auto.
    + destruct (_ >? _); cbn; auto.
  - assert (K : keeps_buffers (bind (st_tp_write_hid_report spi_device)
                                 (fun _ => st_tp_send_ack spi_device))).
    { apply keeps_buffers_bind; [apply keeps_buffers_write_hid_report|].
      intros _. apply keeps_buffers_spi_transaction. }
    destruct (K w) as (_ & _ & _ & K4). exact K4.
Qed.

Lemma u32_range x : 0 <= u32 x < 4294967296.
Proof. unfold u32. apply Z.mod_pos_bound. lia. Qed.

Lemma u32_small x : 0 <= x < 4294967296 -> u32 x = x.
Proof. unfold u32. apply Z.mod_small. Qed.

Lemma gap_after_capture x y :
  u32 (u32 (x + 1) - y) = u32 (u32 (x - y) + 1).
Proof.
  unfold u32. rewrite Zminus_mod_idemp_l, Zplus_mod_idemp_l.
  f_equal. lia.
Qed.

Lemma gap_after_capture_and_print x y :
  u32 (u32 (x + 1) - u32 (y + 1)) = u32 (x - y).
Proof.
  unfold u32. rewrite Zminus_mod_idemp_l, Zminus_mod_idemp_r.
  f_equal. lia.
Qed.

Lemma gap_after_send x y :
  u32 (x - u32 (y + 1)) = u32 (u32 (x - y) - 1).
Proof.
  unfold u32. rewrite Zminus_mod_idemp_l, Zminus_mod_idemp_r.
  f_equal. lia.
Qed.

(** The gap after [st_tp_read_report]: unchanged, or one more when it was
    at most one. *)
Lemma st_tp_read_report_gap (w : world) :
  let w' := snd (st_tp_read_report spi_device w) in
  buffer_gap w' = buffer_gap w \/
  (buffer_gap w <= 1 /\ buffer_gap w' = buffer_gap w + 1).
Proof.
  cbv zeta.
  destruct (st_tp_read_report_indices w)
    as [(_ & H1 & H2) | (_ & Hgap & _ & H1 & [H2 | H2])];
    unfold buffer_gap in *; rewrite H1, H2.
  - auto.
  - right. split; [assumption|].
    rewrite gap_after_capture. apply u32_small.
    pose proof (u32_range (spi_buffer_index w - usb_buffer_index w)). lia.
  - left. apply gap_after_capture_and_print.
Qed.

(** With the gap above one, [st_tp_read_report] in heat-map mode only
    acknowledges. *)
Lemma st_tp_read_report_skip (w : world) :
  let w' := snd (st_tp_read_report spi_device w) in
  Z.land (system_state w) SYSTEM_STATE_ENABLE_HEAT_MAP <> 0 ->
  1 < buffer_gap w ->
  spi_buffer_index w' = spi_buffer_index w /\
  usb_buffer_index w' = usb_buffer_index w /\
  usb_packet_frame w' = usb_packet_frame w /\
  spi_log w' = spi_log w ++ [[ST_TP_CMD_SPI_HOST_BUFFER_ACK]].
Proof.
  cbv zeta. intros Hheat Hgap. apply Z.eqb_neq in Hheat.
  unfold st_tp_read_report. rewrite Hheat. cbn [negb].
  unfold bind, heat_map_capture. fold (buffer_gap w).
  apply Z.leb_gt in Hgap. rewrite Hgap.
  destruct (spi_buffer_index w >? usb_buffer_index w);
    cbn; repeat split.
Qed.

Lemma print_frame_world (w : world) :
  exists c, print_frame w = (tt, set_console c w).
Proof.
  unfold print_frame. repeat break_if;
    solve [ eexists; reflexivity
          | exists (console w); destruct w; reflexivity ].
Qed.

(** A capture that is not skipped: the frame read runs, with everything
    it does to the bus, the receive buffer and the frame buffers, and
    the acknowledge follows. *)
Lemma st_tp_read_report_capture (w : world) :
  let w' := snd (st_tp_read_report spi_device w) in
  let rf := st_tp_read_frame spi_device w in
  Z.land (system_state w) SYSTEM_STATE_ENABLE_HEAT_MAP <> 0 ->
  buffer_gap w <= 1 ->
  spi_log w' = spi_log (snd rf) ++ [[ST_TP_CMD_SPI_HOST_BUFFER_ACK]] /\
  usb_packet_frame w' = usb_packet_frame (snd rf) /\
  rx_buf w' = rx_buf (snd rf) /\
  (fst rf = EC_SUCCESS ->
   spi_buffer_index w' = u32 (spi_buffer_index w + 1)) /\
  (fst rf <> EC_SUCCESS -> spi_buffer_index w' = spi_buffer_index w).
Proof.
  cbv zeta. intros Hheat Hgap.
  destruct (st_tp_read_frame_indices w) as (I1 & _).
  unfold st_tp_read_report, bind, heat_map_capture.
  apply Z.eqb_neq in Hheat. rewrite Hheat. cbn [negb].
  unfold buffer_gap in Hgap. apply Z.leb_le in Hgap. rewrite Hgap.
  destruct (st_tp_read_frame spi_device w) as [r w1]. cbn [fst snd] in *.
  unfold st_tp_send_ack, hook_call_deferred, modify, spi_transaction.
  destruct (Z.eqb_spec r EC_SUCCESS) as [Hr | Hr].
  - set (w2 := set_spi_buffer_index (u32 (spi_buffer_index w1 + 1)) w1).
    destruct (print_frame_world w2) as (c & Pw).
    destruct (negb (Z.land (system_state w2) SYSTEM_STATE_DEBUG_MODE =? 0));
      [rewrite Pw|]; repeat break_if; cbn; rewrite I1;
      repeat split; auto; intros; contradiction.
  - repeat break_if; cbn; repeat split; auto; intros; contradiction.
Qed.

(** What a frame read leaves behind on a touchpad whose firmware release
    the driver knows. *)
Lemma st_tp_read_frame_known (w : world) :
  let rf := st_tp_read_frame spi_device w in
  0 <= get_heat_map_addr w ->
  spi_log (snd rf) = spi_log w ++ [read_frame_command w] /\
  (reply_ret (spi_device (spi_log w) (read_frame_command w)
                (sizeof_heat_map + ST_TP_DUMMY_BYTE)) = EC_SUCCESS ->
   usb_packet_frame (snd rf) (Z.land (spi_buffer_index w) 1)
   = map (fun i => u8 (scale_pixel
                         (heat_map_frame (rx_union (snd rf)) (i * 2))
                         (heat_map_frame (rx_union (snd rf)) (i * 2 + 1))))
         (zrange (ST_TOUCH_COLS * ST_TOUCH_ROWS))).
Proof.
  cbv zeta. intros Haddr.
  unfold st_tp_read_frame, read_frame_command.
  destruct (Z.ltb_spec (get_heat_map_addr w) 0) as [N | _]; [lia|].
  unfold spi_transaction.
  destruct (Z.eqb_spec
              (reply_ret
                 (spi_device (spi_log w)
                    [ST_TP_CMD_READ_SPI_HOST_BUFFER;
                     Z.land (Z.shiftr (get_heat_map_addr w) 8) 255;
                     Z.land (Z.shiftr (get_heat_map_addr w) 0) 255]
                    (sizeof_heat_map + ST_TP_DUMMY_BYTE))) EC_SUCCESS)
    as [Hr | Hr].
  - break_if; cbn [fst snd spi_log usb_packet_frame spi_buffer_index
                   set_usb_packet_frame set_rx_buf set_spi_log];
      (split; [reflexivity|]); intros _; rewrite Z.eqb_refl; reflexivity.
  - cbn [fst snd spi_log set_rx_buf set_spi_log].
    split; [reflexivity|]. intros H. contradiction.
Qed.

(** C2 (as the code has it): [st_tp_read_report] never takes the write
    index more than two past the read index.  With heat-map mode on, a
    capture arriving when the gap is already two (write index 6, read
    index 4) is skipped: no frame is read, neither index nor frame buffer
    changes and only the acknowledge goes on the bus.  A capture arriving
    when the gap is at most one (write index 5, read index 4) is
    performed: [st_tp_read_frame] runs, so on a known firmware release
    its read command goes on the bus before the acknowledge and, when
    the transaction succeeds, the slot [spi_buffer_index & 1] receives
    the scaled pixels of the frame just read; the write index advances
    exactly when the frame read returns success. *)
Theorem st_tp_read_report_double_buffer (w : world) :
  let w' := snd (st_tp_read_report spi_device w) in
  (buffer_gap w <= 2 -> buffer_gap w' <= 2)
  /\
  (Z.land (system_state w) SYSTEM_STATE_ENABLE_HEAT_MAP <> 0 ->
   1 < buffer_gap w ->
   spi_buffer_index w' = spi_buffer_index w /\
   usb_buffer_index w' = usb_buffer_index w /\
   usb_packet_frame w' = usb_packet_frame w /\
   spi_log w' = spi_log w ++ [[ST_TP_CMD_SPI_HOST_BUFFER_ACK]])
  /\
  (Z.land (system_state w) SYSTEM_STATE_ENABLE_HEAT_MAP <> 0 ->
   buffer_gap w <= 1 ->
   let rf := st_tp_read_frame spi_device w in
   (fst rf = EC_SUCCESS ->
    spi_buffer_index w' = u32 (spi_buffer_index w + 1)) /\
   (fst rf <> EC_SUCCESS -> spi_buffer_index w' = spi_buffer_index w) /\
   spi_log w' = spi_log (snd rf) ++ [[ST_TP_CMD_SPI_HOST_BUFFER_ACK]] /\
   usb_packet_frame w' = usb_packet_frame (snd rf) /\
   (0 <= get_heat_map_addr w ->
    spi_log w' = spi_log w ++ [read_frame_command w;
                               [ST_TP_CMD_SPI_HOST_BUFFER_ACK]] /\
    (reply_ret (spi_device (spi_log w) (read_frame_command w)
                  (sizeof_heat_map + ST_TP_DUMMY_BYTE)) = EC_SUCCESS ->
     usb_packet_frame w' (Z.land (spi_buffer_index w) 1)
     = map (fun i => u8 (scale_pixel
                           (heat_map_frame (rx_union w') (i * 2))
                           (heat_map_frame (rx_union w') (i * 2 + 1))))
           (zrange (ST_TOUCH_COLS * ST_TOUCH_ROWS))))).
Proof.
  cbv zeta. split; [|split].
  - intros Hgap. destruct (st_tp_read_report_gap w) as [-> | [H1 ->]]; lia.
  - apply st_tp_read_report_skip.
  - intros Hheat Hgap.
    destruct (st_tp_read_report_capture w Hheat Hgap)
      as (L & F & R & S1 & S2).
    split; [exact S1|]. split; [exact S2|].
    split; [exact L|]. split; [exact F|].
    intros Haddr. destruct (st_tp_read_frame_known w Haddr) as (L1 & P1).
    split.
    + rewrite L, L1, <- app_assoc. reflexivity.
    + intros Hok. unfold rx_union. rewrite F, R. exact (P1 Hok).
Qed.

Lemma heatmap_send_packet_indices usb (w : world) :
  let r := fst (heatmap_send_packet usb w) in
  let w' := snd (heatmap_send_packet usb w) in
  spi_buffer_index w' = spi_buffer_index w /\
  (usb_buffer_index w' = usb_buffer_index w \/
   (r = 0 /\ transmit_report_offset w' = 0 /\
    usb_buffer_index w' = u32 (usb_buffer_index w + 1))).
Proof.
  cbv zeta. unfold heatmap_send_packet, cprints, modify.
  repeat (break_if; cbn); auto 6.
Qed.

Lemma buffer_invariant_step s s' :
  buffer_invariant s -> step spi_device s s' -> buffer_invariant s'.
Proof.
  intros (Hspi & Husb & Hgap & Hpc) Hstep.
  destruct Hstep as [w pc | w | usb w | w w' pc E1 E2 E3];
    unfold buffer_invariant, draining in *; cbn [fst snd] in *.
  - (* touchpad interrupt *)
    pose proof (st_tp_read_report_gap w) as G. cbv zeta in G.
    rewrite (st_tp_read_report_offset w).
    pose proof (u32_range (spi_buffer_index w + 1)).
    pose proof (u32_range (usb_buffer_index w + 1)).
    assert (Hrange :
      0 <= spi_buffer_index (snd (st_tp_read_report spi_device w))
        < 4294967296 /\
      0 <= usb_buffer_index (snd (st_tp_read_report spi_device w))
        < 4294967296).
    { destruct (st_tp_read_report_indices w)
        as [(_ & H1 & H2) | (_ & _ & _ & H1 & [H2 | H2])];
        rewrite H1, H2; lia. }
    destruct Hrange as (R1 & R2).
    split; [exact R1|]. split; [exact R2|].
    destruct G as [G | [G1 G]]; rewrite G; split; try lia;
      intros Hs; specialize (Hpc Hs); lia.
  - (* heat map task woken *)
    split; [lia|]. split; [lia|]. split; [lia|].
    intros [Hs | Hoff]; [|apply Hpc; right; exact Hoff].
    unfold heatmap_task_wake in Hs.
    destruct (negb _); [discriminate|].
    destruct (usb_buffer_index w =? spi_buffer_index w) eqn:E;
      [discriminate|].
    apply Z.eqb_neq in E. unfold buffer_gap, u32 in *.
    pose proof (Z.mod_pos_bound (spi_buffer_index w - usb_buffer_index w)
                  4294967296 ltac:(lia)) as B.
    destruct (Z.eq_dec ((spi_buffer_index w - usb_buffer_index w)
                          mod 4294967296) 0) as [Z0|]; [|lia].
    exfalso. apply Z.mod_divide in Z0; [|lia].
    destruct Z0 as [q Hq]. apply E. nia.
  - (* heat map task sending *)
    unfold heatmap_task_send.
    destruct (heatmap_send_packet_indices usb w) as (S1 & S2).
    destruct (heatmap_send_packet usb w) as [r w']. cbn [fst snd] in *.
    specialize (Hpc (or_introl eq_refl)).
    pose proof (u32_range (usb_buffer_index w + 1)).
    unfold buffer_gap in *. rewrite S1.
    destruct S2 as [S2 | (-> & S3 & S2)]; rewrite S2.
    + repeat split; try lia.
    + cbn [Z.eqb]. rewrite gap_after_send.
      rewrite (u32_small (u32 (spi_buffer_index w - usb_buffer_index w) - 1))
        by lia.
      repeat split; try lia.
      intros [Hs | Hoff]; [discriminate | contradiction].
  - (* any other driver code *)
    unfold buffer_gap in *. rewrite E1, E2, E3.
    repeat split; try lia. exact Hpc.
Qed.

Lemma reachable_buffer_invariant s :
  reachable spi_device s -> buffer_invariant s.
Proof.
  induction 1 as [w H1 H2 H3 | s s' _ IH Hstep].
  - unfold buffer_invariant, draining, buffer_gap. cbn [fst snd].
    rewrite H1, H2, H3. cbn. repeat split; try lia.
    intros [Hs | Hoff]; [discriminate | contradiction].
  - eapply buffer_invariant_step; eauto.
Qed.

(** With a gap of exactly one the two tasks work on different slots. *)
Lemma gap_one_slots_differ x y :
  0 <= x < 4294967296 -> 0 <= y < 4294967296 ->
  u32 (x - y) = 1 -> Z.land x 1 <> Z.land y 1.
Proof.
  intros Hx Hy Hgap. unfold u32 in Hgap.
  change 1 with (Z.ones 1) at 1 2. rewrite !Z.land_ones by lia.
  change (2 ^ 1) with 2.
  assert (D : x - y = 1 \/ x - y = 1 - 4294967296).
  { pose proof (Z.div_mod (x - y) 4294967296 ltac:(lia)) as E.
    rewrite Hgap in E.
    assert (Q : (x - y) / 4294967296 = 0 \/ (x - y) / 4294967296 = -1) by lia.
    destruct Q as [Q | Q]; rewrite Q in E; lia. }
  pose proof (Z.mod_pos_bound x 2 ltac:(lia)).
  pose proof (Z.mod_pos_bound y 2 ltac:(lia)).
  pose proof (Z.div_mod x 2 ltac:(lia)).
  pose proof (Z.div_mod y 2 ltac:(lia)).
  intros E. destruct D; lia.
Qed.

(** C3: [st_tp_read_report] attempts a capture (advances
    [spi_buffer_index], changes a frame buffer, or in heat-map mode puts
    anything but the acknowledge on the bus) only when heat-map mode is on
    and [spi_buffer_index - usb_buffer_index <= 1] at that moment;
    consequently in every state the touchpad task and the heat map task
    can reach, [spi_buffer_index - usb_buffer_index <= 2]; and whenever
    the heat map task is in the middle of a frame and a capture may
    happen, the slot the capture writes ([spi_buffer_index & 1]) is not
    the slot being sent ([usb_buffer_index & 1]). *)
Theorem heat_map_capture_gated_and_bounded :
  (forall w,
     let w' := snd (st_tp_read_report spi_device w) in
     spi_buffer_index w' <> spi_buffer_index w \/
     usb_packet_frame w' <> usb_packet_frame w \/
     (Z.land (system_state w) SYSTEM_STATE_ENABLE_HEAT_MAP <> 0 /\
      spi_log w' <> spi_log w ++ [[ST_TP_CMD_SPI_HOST_BUFFER_ACK]]) ->
     Z.land (system_state w) SYSTEM_STATE_ENABLE_HEAT_MAP <> 0 /\
     buffer_gap w <= 1)
  /\
  (forall s, reachable spi_device s -> buffer_gap (fst s) <= 2)
  /\
  (forall s, reachable spi_device s -> draining s ->
     buffer_gap (fst s) <= 1 ->
     Z.land (spi_buffer_index (fst s)) 1
     <> Z.land (usb_buffer_index (fst s)) 1).
Proof.
  split; [|split].
  - intros w. cbv zeta. intros Hchanged.
    destruct (Z.eq_dec (Z.land (system_state w) SYSTEM_STATE_ENABLE_HEAT_MAP) 0)
      as [Hoff | Hon].
    + exfalso.
      assert (K : keeps_buffers (bind (st_tp_write_hid_report spi_device)
                                   (fun _ => st_tp_send_ack spi_device))).
      { apply keeps_buffers_bind; [apply keeps_buffers_write_hid_report|].
        intros _. apply keeps_buffers_spi_transaction. }
      destruct (K w) as (K1 & _ & K3 & _).
      unfold st_tp_read_report in Hchanged. rewrite Hoff in Hchanged.
      cbn [Z.eqb negb] in Hchanged.
      destruct Hchanged as [C | [C | [C _]]]; contradiction.
    + split; [assumption|].
      destruct (Z_le_gt_dec (buffer_gap w) 1) as [Hle | Hgt]; [assumption|].
      exfalso.
      destruct (st_tp_read_report_skip w Hon ltac:(lia))
        as (S1 & _ & S3 & S4).
      destruct Hchanged as [C | [C | [_ C]]]; contradiction.
  - intros s Hs. apply reachable_buffer_invariant in Hs.
    destruct Hs as (_ & _ & H & _). exact H.
  - intros s Hs Hdrain Hgap. apply reachable_buffer_invariant in Hs.
    destruct Hs as (Hspi & Husb & _ & Hlow).
    specialize (Hlow Hdrain).
    apply gap_one_slots_differ; try assumption.
    unfold buffer_gap in *. lia.
Qed.

(** ** Firmware update *)

Lemma wait_for_flash_ready_loop_log (retry : nat) (type : Z) :
  forall w : world,
  exists polls, (polls <= retry)%nat /\
    spi_log (snd (wait_for_flash_ready_loop spi_device retry type w))
    = spi_log w ++ repeat (flash_ready_frame type) polls.
Proof.
  induction retry as [|retry IH]; intros w.
  - exists 0%nat. simpl. rewrite app_nil_r. auto.
  - cbn [wait_for_flash_ready_loop]. unfold bind at 1.
    destruct (spi_transaction spi_device (flash_ready_frame type) 2 w)
      as [r w1] eqn:E.
    assert (L : spi_log w1 = spi_log w ++ [flash_ready_frame type]).
    { unfold spi_transaction in E. inversion E. reflexivity. }
    destruct ((r =? EC_SUCCESS) && (Z.land (nth 0 (rx_union w1) 0) 128 =? 0)).
    + exists 1%nat. split; [lia|]. exact L.
    + unfold bind, msleep, modify.
      destruct (IH (set_slept_ms (slept_ms w1 + 50) w1)) as (k & Hk & Hl).
      exists (S k). split; [lia|].
      rewrite Hl. cbn [spi_log set_slept_ms]. rewrite L, <- app_assoc.
      reflexivity.
Qed.

Lemma st_tp_start_flash_dma_log (w : world) :
  fst (st_tp_start_flash_dma spi_device w) = 0 ->
  exists polls, (polls <= 200)%nat /\
    spi_log (snd (st_tp_start_flash_dma spi_device w))
    = spi_log w ++ flash_dma_frames polls.
Proof.
  unfold st_tp_start_flash_dma, bind, write_hwreg_cmd8, wait_for_flash_ready.
  destruct (spi_transaction spi_device
              ([ST_TP_CMD_WRITE_HW_REG] ++ be32 536871025 ++ [192]) 0 w)
    as [r w1] eqn:E.
  assert (L : spi_log w1 = spi_log w ++
                [[ST_TP_CMD_WRITE_HW_REG] ++ be32 536871025 ++ [192]]).
  { unfold spi_transaction in E. inversion E. reflexivity. }
  destruct (negb (r =? 0)) eqn:Hr.
  - unfold pure. cbn [fst]. intros ->. discriminate.
  - intros _.
    destruct (wait_for_flash_ready_loop_log 200 113 w1) as (k & Hk & Hl).
    exists k. split; [assumption|].
    rewrite Hl, L, <- app_assoc. reflexivity.
Qed.

Section FlashLayout.

Hypothesis chunk_positive : 0 < ST_TP_DMA_CHUNK_SIZE.
Hypothesis chunk_divides_buffer :
  (ST_TP_DMA_CHUNK_SIZE | ST_TP_FLASH_BUFFER_SIZE).
Hypothesis buffer_range : 0 < ST_TP_FLASH_BUFFER_SIZE < 4294967296.

Lemma next_chunk_fits fbs :
  0 <= fbs < ST_TP_FLASH_BUFFER_SIZE -> (ST_TP_DMA_CHUNK_SIZE | fbs) ->
  fbs + ST_TP_DMA_CHUNK_SIZE <= ST_TP_FLASH_BUFFER_SIZE.
Proof.
  intros Hf [a Ha]. destruct chunk_divides_buffer as [b Hb].
  assert (Hab : a < b) by nia.
  assert (Hstep : (a + 1) * ST_TP_DMA_CHUNK_SIZE <= b * ST_TP_DMA_CHUNK_SIZE)
    by (apply Z.mul_le_mono_nonneg_r; lia).
  lia.
Qed.

(** The inner loop fills one flash buffer, or sends what is left. *)
Lemma write_flash_chunks_spec (fuel : nat) :
  forall (data : list Z) (tail head addr fbs : Z) (w : world),
  head < tail ->
  0 <= fbs <= ST_TP_FLASH_BUFFER_SIZE ->
  (ST_TP_DMA_CHUNK_SIZE | fbs) ->
  (Z.to_nat (tail - head) < fuel)%nat ->
  exists r head' fbs' w' sizes,
    write_flash_chunks spi_device fuel data tail head addr fbs w
      = Some (r, head', fbs', w') /\
    spi_log w' = spi_log w ++ chunk_frames data head addr sizes /\
    Forall (fun c => 0 < c <= ST_TP_DMA_CHUNK_SIZE) sizes /\
    (r = 0 ->
     head' = head + list_sum sizes /\
     fbs' = fbs + list_sum sizes /\
     fbs' = Z.min ST_TP_FLASH_BUFFER_SIZE (fbs + (tail - head))).
Proof.
  induction fuel as [|fuel IH]; intros data tail head addr fbs w
    Hhead Hfbs Hdiv Hfuel; [lia|].
  cbn [write_flash_chunks].
  destruct (fbs <? ST_TP_FLASH_BUFFER_SIZE) eqn:Hlt.
  - apply Z.ltb_lt in Hlt.
    pose proof (next_chunk_fits fbs ltac:(lia) Hdiv) as Hfit.
    set (c := Z.min ST_TP_DMA_CHUNK_SIZE (tail - head)).
    assert (Hc : 0 < c <= ST_TP_DMA_CHUNK_SIZE) by (unfold c; lia).
    rewrite (u32_small c) by lia.
    unfold st_tp_write_one_chunk, spi_transaction at 1.
    set (w1 := set_rx_buf _ _).
    assert (L1 : spi_log w1 = spi_log w ++ [chunk_frame data head addr c])
      by reflexivity.
    destruct (negb (reply_ret _ =? 0)) eqn:Hr.
    + exists (reply_ret (spi_device (spi_log w)
                           (chunk_frame data head addr c) 0)),
        head, fbs, w1, [c].
      split; [reflexivity|]. split; [exact L1|].
      split; [constructor; [exact Hc | constructor]|].
      intros E. rewrite E in Hr. discriminate.
    + rewrite (u32_small (fbs + c)) by lia.
      destruct (head + c >=? tail) eqn:Hend.
      * exists 0, (head + c), (fbs + c), w1, [c].
        apply Z.geb_le in Hend.
        split; [reflexivity|]. split; [exact L1|].
        split; [constructor; [exact Hc | constructor]|].
        intros _. unfold list_sum. cbn [fold_right]. lia.
      * assert (Hmore : head + c < tail).
        { destruct (Z.geb_spec (head + c) tail); [discriminate | lia]. }
        assert (Hfull : c = ST_TP_DMA_CHUNK_SIZE) by (unfold c in *; lia).
        destruct (IH data tail (head + c) (u32 (addr + c)) (fbs + c) w1)
          as (r & head' & fbs' & w' & sizes & E & L & F & R);
          try lia.
        { rewrite Hfull. apply Z.divide_add_r; [assumption|].
          apply Z.divide_refl. }
        exists r, head', fbs', w', (c :: sizes).
        split; [exact E|]. split.
        { rewrite L, L1, <- app_assoc. reflexivity. }
        split; [constructor; assumption|].
        intros Hr0. destruct (R Hr0) as (R1 & R2 & R3).
        unfold list_sum in *. cbn [fold_right]. lia.
  - apply Z.ltb_ge in Hlt.
    exists 0, head, fbs, w, [].
    unfold list_sum. cbn [chunk_frames fold_right]. rewrite app_nil_r.
    split; [reflexivity|]. split; [reflexivity|]. split; [constructor|].
    intros _. lia.
Qed.

(** The outer loop sends the data group by group. *)
Lemma write_flash_groups_spec (fuel : nat) :
  forall (data : list Z) (tail offset head : Z) (w : world),
  (Z.to_nat (tail - head) < fuel)%nat ->
  exists r w',
    write_flash_groups spi_device fuel data tail offset head w
      = Some (r, w') /\
    (r = 0 ->
     exists frames,
       spi_log w' = spi_log w ++ frames /\
       flash_write_trace data tail offset head frames).
Proof.
  induction fuel as [|fuel IH]; intros data tail offset head w Hfuel; [lia|].
  cbn [write_flash_groups].
  destruct (head <? tail) eqn:Hlt.
  - apply Z.ltb_lt in Hlt.
    destruct (write_flash_chunks_spec (S fuel) data tail head 1048576 0 w)
      as (r1 & head' & fbs' & w1 & sizes & E & L & F & R);
      try lia; [apply Z.divide_0_r|].
    rewrite E.
    destruct (negb (r1 =? 0)) eqn:Hr1.
    { exists r1, w1. split; [reflexivity|].
      intros ->. discriminate. }
    eqb_hyps. subst r1. destruct (R eq_refl) as (R1 & R2 & R3).
    rewrite Z.add_0_l in R2, R3.
    unfold spi_transaction at 1.
    set (w2 := set_rx_buf _ _).
    assert (L2 : spi_log w2 = spi_log w1 ++
              [flash_dma_config_frame offset (u32 (fbs' / 4 - 1))])
      by reflexivity.
    destruct (negb (reply_ret _ =? 0)) eqn:Hr2.
    { eexists _, w2. split; [reflexivity|].
      intros E0. rewrite E0 in Hr2. discriminate. }
    pose proof (st_tp_start_flash_dma_log w2) as D.
    destruct (st_tp_start_flash_dma spi_device w2) as [r3 w3].
    cbn [fst snd] in D.
    destruct (negb (r3 =? 0)) eqn:Hr3.
    { exists r3, w3. split; [reflexivity|].
      intros ->. discriminate. }
    eqb_hyps. destruct (D Hr3) as (polls & Hpolls & L3).
    destruct (IH data tail (offset + Z.quot ST_TP_FLASH_BUFFER_SIZE 4)
                head' w3) as (r & w' & E4 & T); [lia|].
    exists r, w'. split; [exact E4|].
    intros Hr0. destruct (T Hr0) as (rest & L4 & T4).
    exists (chunk_frames data head 1048576 sizes ++
            flash_dma_config_frame offset (u32 (list_sum sizes / 4 - 1)) ::
            flash_dma_frames polls ++ rest).
    split.
    + rewrite L4, L3, L2, L, R2, <- !app_assoc. reflexivity.
    + apply flash_trace_group; auto; try lia.
      rewrite <- R1. exact T4.
  - apply Z.ltb_ge in Hlt. exists EC_SUCCESS, w.
    split; [reflexivity|]. intros _. exists []. rewrite app_nil_r.
    split; [reflexivity|]. constructor. assumption.
Qed.

End FlashLayout.

Lemma extends_log_bind {A B} (m : M A) (k : A -> M B) :
  extends_log m -> (forall a, extends_log (k a)) -> extends_log (bind m k).
Proof.
  intros Hm Hk w. unfold bind. destruct (Hm w) as (f1 & H1).
  destruct (m w) as [a w1]. cbn [snd] in H1.
  destruct (Hk a w1) as (f2 & H2).
  exists (f1 ++ f2). rewrite H2, H1, app_assoc. reflexivity.
Qed.

Lemma extends_log_pure {A} (a : A) : extends_log (pure a).
Proof. intros w. exists []. symmetry. apply app_nil_r. Qed.

Lemma extends_log_modify f :
  (forall w, spi_log (f w) = spi_log w) -> extends_log (modify f).
Proof. intros H w. exists []. cbn. rewrite H. symmetry. apply app_nil_r. Qed.

Lemma extends_log_spi_transaction tx rxlen :
  extends_log (spi_transaction spi_device tx rxlen).
Proof. intros w. exists [tx]. reflexivity. Qed.

Lemma extends_log_cprints m : extends_log (cprints m).
Proof. apply extends_log_modify. reflexivity. Qed.

Lemma extends_log_msleep ms : extends_log (msleep ms).
Proof. apply extends_log_modify. reflexivity. Qed.

Lemma extends_log_rx_buf_events i : extends_log (rx_buf_events i).
Proof. intros w. exists []. symmetry. apply app_nil_r. Qed.

Create HintDb buslog.
#[local] Hint Resolve extends_log_pure extends_log_spi_transaction
  extends_log_cprints extends_log_msleep extends_log_rx_buf_events : buslog.

Lemma extends_log_update_system_state new_state mask :
  extends_log (st_tp_update_system_state spi_device new_state mask).
Proof.
  intros w. unfold st_tp_update_system_state.
  generalize (set_bits new_state (system_state w) (Z.lnot mask)) as n.
  intros n. revert w.
  change (extends_log
            (bind (update_debug_mode n) (fun _ =>
             bind (update_feature_select spi_device n) (fun rn =>
             if negb (fst rn =? 0) then pure (fst rn) else
             bind (update_active_mode spi_device n) (fun r =>
             if negb (r =? 0) then pure r else
             update_locked_scan_mode spi_device (snd rn)))))).
  apply extends_log_bind.
  { intros w. exists []. unfold update_debug_mode.
    destruct (negb _); cbn; symmetry; apply app_nil_r. }
  intros _. apply extends_log_bind.
  { intros w. unfold update_feature_select, spi_transaction.
    repeat (break_if; cbn [fst snd spi_log set_system_state set_rx_buf
                           set_spi_log]);
      solve [ eexists; reflexivity
            | exists []; symmetry; apply app_nil_r ]. }
  intros rn. destruct (negb (fst rn =? 0)); [auto with buslog|].
  apply extends_log_bind.
  { intros w. unfold update_active_mode, spi_transaction, cprints, modify.
    repeat (break_if; cbn [fst snd spi_log set_system_state set_rx_buf
                           set_spi_log set_console]);
      solve [ eexists; reflexivity
            | exists []; symmetry; apply app_nil_r ]. }
  intros r. destruct (negb (r =? 0)); [auto with buslog|].
  unfold update_locked_scan_mode. destruct (negb _); auto with buslog.
Qed.

Lemma extends_log_enable_interrupt enable :
  extends_log (st_tp_enable_interrupt spi_device enable).
Proof.
  unfold st_tp_enable_interrupt, gpio_set_touchpad_int.
  repeat (apply extends_log_bind; [|intros ?]);
    try (destruct (enable =? 0));
    auto using extends_log_modify with buslog.
Qed.

Lemma extends_log_stop_scan : extends_log (st_tp_stop_scan spi_device).
Proof.
  unfold st_tp_stop_scan.
  apply extends_log_bind; [apply extends_log_update_system_state|].
  intros r. apply extends_log_bind; [apply extends_log_enable_interrupt|].
  auto with buslog.
Qed.

Lemma extends_log_wait_for_flash_ready type :
  extends_log (wait_for_flash_ready spi_device type).
Proof.
  intros w. destruct (wait_for_flash_ready_loop_log 200 type w) as (k & _ & H).
  eexists. exact H.
Qed.

Lemma extends_log_erase_flash : extends_log (erase_flash spi_device).
Proof.
  unfold erase_flash, write_hwreg_cmd8, write_hwreg_cmd32.
  apply extends_log_bind; [auto with buslog|]. intros r.
  destruct (negb _); [auto with buslog|].
  apply extends_log_bind; [auto with buslog|]. intros r0.
  destruct (negb _); [auto with buslog|].
  apply extends_log_bind; [auto with buslog|]. intros r1.
  destruct (negb _); [auto with buslog|].
  apply extends_log_wait_for_flash_ready.
Qed.

Lemma extends_log_prepare_for_update :
  extends_log (st_tp_prepare_for_update spi_device).
Proof.
  unfold st_tp_prepare_for_update, write_hwreg_cmd8.
  apply extends_log_bind; [auto with buslog|]. intros _.
  apply extends_log_bind; [auto with buslog|]. intros _.
  apply extends_log_bind; [auto with buslog|]. intros _.
  apply extends_log_bind; [apply extends_log_erase_flash|]. intros _.
  auto with buslog.
Qed.

Lemma st_tp_prepare_for_update_ret (w : world) :
  fst (st_tp_prepare_for_update spi_device w) = EC_SUCCESS.
Proof.
  unfold st_tp_prepare_for_update, bind, pure.
  repeat match goal with
         | |- context [let (_, _) := ?m in _] => destruct m
         end.
  reflexivity.
Qed.

Lemma extends_log_read_all_events_loop todo :
  forall i, extends_log (read_all_events_loop todo i).
Proof.
  intros i w. destruct (read_all_events_loop_spec todo i w)
    as (_ & _ & _ & _ & _ & _ & H).
  exists []. rewrite H. symmetry. apply app_nil_r.
Qed.

Lemma extends_log_read_all_events :
  extends_log (st_tp_read_all_events spi_device).
Proof.
  unfold st_tp_read_all_events.
  apply extends_log_bind; [auto with buslog|]. intros r.
  destruct (negb _); [auto with buslog|].
  apply extends_log_read_all_events_loop.
Qed.

Lemma extends_log_find_controller_ready todo :
  forall i, extends_log (find_controller_ready todo i).
Proof.
  induction todo as [|todo IH]; intros i; cbn [find_controller_ready].
  - auto with buslog.
  - apply extends_log_bind; [auto with buslog|]. intros e.
    destruct (_ =? _); [auto with buslog | apply IH].
Qed.

Lemma extends_log_reset_loop retry :
  extends_log (st_tp_reset_loop spi_device retry).
Proof.
  induction retry as [|retry IH]; cbn [st_tp_reset_loop].
  - apply extends_log_bind; auto with buslog.
  - apply extends_log_bind; [apply extends_log_read_all_events|].
    intros n. destruct (n <? 0); [auto with buslog|].
    apply extends_log_bind; [apply extends_log_find_controller_ready|].
    intros [|].
    + apply extends_log_bind; auto with buslog.
    + apply extends_log_bind; auto with buslog.
Qed.

Lemma extends_log_full_initialize_start :
  extends_log (st_tp_full_initialize_start spi_device).
Proof.
  unfold st_tp_full_initialize_start, st_tp_reset, board_touchpad_reset,
    hook_call_deferred.
  apply extends_log_bind; [apply extends_log_stop_scan|]. intros _.
  apply extends_log_bind.
  { apply extends_log_bind; [apply extends_log_modify; reflexivity|].
    intros _. apply extends_log_reset_loop. }
  intros r. destruct (negb _); [auto with buslog|].
  apply extends_log_bind; [auto with buslog|]. intros _.
  apply extends_log_bind; [auto with buslog|]. intros _.
  apply extends_log_modify. reflexivity.
Qed.

(** C4 (as the code has it): [touchpad_update_write(offset, size, data)]
    with a chunk-aligned [offset] always returns.  When [offset] itself
    lies in the calibration range, from [ST_TP_FLASH_OFFSET_CX] up to
    [ST_TP_FLASH_OFFSET_CONFIG], it returns success without writing
    flash; for a non-zero [offset] nothing at all goes on the bus.  The
    test looks at [offset] only.  When [offset] lies outside the range
    and the call returns success, the data went out in chunks of at most
    [ST_TP_DMA_CHUNK_SIZE] bytes, grouped so that each DMA configuration
    command follows chunks adding up to [ST_TP_FLASH_BUFFER_SIZE] bytes,
    or to the bytes left for the last group, and names the word offset
    and word count of its group. *)
Theorem touchpad_update_write_flash (fuel : nat) (offset size : Z)
    (data : list Z) (w : world) :
  0 < ST_TP_DMA_CHUNK_SIZE ->
  (ST_TP_DMA_CHUNK_SIZE | ST_TP_FLASH_BUFFER_SIZE) ->
  0 < ST_TP_FLASH_BUFFER_SIZE < 4294967296 ->
  Z.rem offset ST_TP_DMA_CHUNK_SIZE = 0 ->
  (Z.to_nat size < fuel)%nat ->
  exists r w',
    touchpad_update_write spi_device fuel offset size data w = Some (r, w') /\
    (ST_TP_FLASH_OFFSET_CX <= offset < ST_TP_FLASH_OFFSET_CONFIG ->
     r = EC_SUCCESS /\ (offset <> 0 -> spi_log w' = spi_log w)) /\
    (~ (ST_TP_FLASH_OFFSET_CX <= offset < ST_TP_FLASH_OFFSET_CONFIG) ->
     r = EC_SUCCESS ->
     exists pre frames rest,
       spi_log w' = spi_log w ++ pre ++ frames ++ rest /\
       flash_write_trace data size (Z.shiftr offset 2) 0 frames /\
       (offset <> 0 -> pre = []) /\
       (offset + size <> CONFIG_TOUCHPAD_VIRTUAL_SIZE -> rest = [])).
Proof.
  intros Hchunk Hdiv Hbuf Halign Hfuel.
  unfold touchpad_update_write, cprints, modify.
  set (w0 := set_console (console w ++ [MsgUpdateWrite offset size]) w).
  assert (L0 : spi_log w0 = spi_log w) by reflexivity.
  (* the block run for offset 0 *)
  assert (P : exists wp pre,
             (if offset =? 0
              then bind (st_tp_stop_scan spi_device)
                     (fun _ => st_tp_prepare_for_update spi_device) w0
              else (0, w0)) = (0, wp) /\
             spi_log wp = spi_log w ++ pre /\
             (offset <> 0 -> pre = [])).
  { destruct (offset =? 0) eqn:Hz.
    - assert (X : extends_log (bind (st_tp_stop_scan spi_device)
                     (fun _ => st_tp_prepare_for_update spi_device))).
      { apply extends_log_bind; [apply extends_log_stop_scan|].
        intros _. apply extends_log_prepare_for_update. }
      destruct (X w0) as (pre & Hpre).
      assert (R : fst (bind (st_tp_stop_scan spi_device)
                     (fun _ => st_tp_prepare_for_update spi_device) w0) = 0).
      { unfold bind. destruct (st_tp_stop_scan spi_device w0) as [r1 w1].
        apply st_tp_prepare_for_update_ret. }
      destruct (bind (st_tp_stop_scan spi_device)
                  (fun _ => st_tp_prepare_for_update spi_device) w0)
        as [r wp].
      cbn [fst snd] in *. subst r. exists wp, pre.
      apply Z.eqb_eq in Hz. repeat split; auto. congruence.
    - exists w0, []. rewrite app_nil_r. auto. }
  destruct P as (wp & pre & -> & Lp & Hpre).
  cbn [Z.eqb negb]. rewrite Halign. cbn [Z.eqb negb].
  destruct ((offset >=? ST_TP_FLASH_OFFSET_CX) &&
            (offset <? ST_TP_FLASH_OFFSET_CONFIG)) eqn:Hrange.
  - (* don't update CX section *)
    exists EC_SUCCESS, wp. split; [reflexivity|].
    apply andb_true_iff in Hrange. destruct Hrange as [H1 H2].
    apply Z.geb_le in H1. apply Z.ltb_lt in H2.
    split.
    + intros _. split; [reflexivity|]. intros Hnz.
      rewrite Lp, (Hpre Hnz). apply app_nil_r.
    + intros Hout. exfalso. apply Hout. lia.
  - assert (Hout : ~ (ST_TP_FLASH_OFFSET_CX <= offset
                      < ST_TP_FLASH_OFFSET_CONFIG)).
    { intros [H1 H2]. apply Z.geb_le in H1. apply Z.ltb_lt in H2.
      rewrite H1, H2 in Hrange. discriminate. }
    unfold st_tp_write_flash.
    destruct (write_flash_groups_spec Hchunk Hdiv Hbuf fuel data size
                (Z.shiftr offset 2) 0 wp) as (r & w1 & E & T).
    { rewrite Z.sub_0_r. exact Hfuel. }
    rewrite E.
    destruct (negb (r =? 0)) eqn:Hr.
    + exists r, w1. split; [reflexivity|]. split; [intros; contradiction|].
      intros _ ->. discriminate.
    + eqb_hyps. destruct (T Hr) as (frames & Lf & Tf).
      destruct (offset + size =? CONFIG_TOUCHPAD_VIRTUAL_SIZE) eqn:Hend.
      * assert (X : extends_log (bind (cprints MsgEndUpdate)
                       (fun _ => st_tp_full_initialize_start spi_device))).
        { apply extends_log_bind; [apply extends_log_cprints|].
          intros _. apply extends_log_full_initialize_start. }
        destruct (X w1) as (rest & Lr). unfold cprints, modify in Lr.
        eexists EC_SUCCESS, _. split; [reflexivity|].
        split; [intros; contradiction|]. intros _ _.
        exists pre, frames, rest.
        split; [rewrite Lr, Lf, Lp, <- !app_assoc; reflexivity|].
        split; [exact Tf|]. split; [exact Hpre|].
        intros Hne. apply Z.eqb_eq in Hend. contradiction.
      * exists EC_SUCCESS, w1. split; [reflexivity|].
        split; [intros; contradiction|]. intros _ _.
        exists pre, frames, [].
        split; [rewrite Lf, Lp, app_nil_r, <- !app_assoc; reflexivity|].
        split; [exact Tf|]. split; [exact Hpre|]. reflexivity.
Qed.


(** ** More about [st_tp_update_system_state] and the scan switches *)

(** A single-bit mask tests that bit. *)
Lemma land_bit_nonzero (a n : Z) :
  0 <= n -> (Z.land a (Z.shiftl 1 n) <> 0 <-> Z.testbit a n = true).
Proof.
  intros Hn. rewrite Z.shiftl_1_l. split.
  - intros H. destruct (Z.testbit a n) eqn:E; [reflexivity|].
    exfalso. apply H. apply Z.bits_inj'. intros i Hi.
    rewrite Z.land_spec, Z.pow2_bits_eqb, Z.bits_0 by assumption.
    destruct (Z.eqb_spec n i) as [-> | Hne].
    + rewrite E. reflexivity.
    + apply andb_false_r.
  - intros H E. apply (f_equal (fun x => Z.testbit x n)) in E.
    rewrite Z.land_spec, Z.pow2_bits_eqb, Z.bits_0, H, Z.eqb_refl in E
      by assumption.
    discriminate.
Qed.

(** The state a call leaves: the three groups in turn, each either
    committed from the target or left alone. *)
Lemma st_tp_update_system_state_shape (new_state mask : Z) (w : world) :
  let n := set_bits new_state (system_state w) (Z.lnot mask) in
  exists b1 b6 b8 : bool,
    system_state (snd (st_tp_update_system_state spi_device new_state mask w))
    = (let s1 := if b1 then set_bits (system_state w) n 1
                 else system_state w in
       let s6 := if b6 then set_bits s1 n 6 else s1 in
       if b8 then set_bits s6 n 8 else s6) /\
    (b1 = false -> Z.land n 1 = Z.land (system_state w) 1).
Proof.
  cbv zeta.
  unfold st_tp_update_system_state, update_debug_mode, update_feature_select,
    update_active_mode, update_locked_scan_mode, bind, pure, cprints, modify,
    spi_transaction.
  generalize (set_bits new_state (system_state w) (Z.lnot mask)) as n.
  intros n. state_constants.
  destruct (negb (Z.land n 1 =? Z.land (system_state w) 1)) eqn:E1;
    [exists true | exists false];
    repeat (break_if; cbn [fst snd system_state set_system_state set_rx_buf
                           set_spi_log set_console]);
    first [ exists true, true; split; [reflexivity|]
          | exists true, false; split; [reflexivity|]
          | exists false, true; split; [reflexivity|]
          | exists false, false; split; [reflexivity|] ];
    intros; eqb_hyps; congruence.
Qed.

(** X1: whatever [new_state] and [mask] are, and whether the call
    succeeds or fails, [st_tp_update_system_state] changes no bit of
    [system_state] other than the debug, heat-map, dome-switch and
    active-mode bits (so never [SYSTEM_STATE_DOME_SWITCH_LEVEL]); the debug
    bit always ends at its target, and the heat-map/dome-switch pair and
    the active-mode bit each end either at their target or as they were. *)
Theorem st_tp_update_system_state_groups (new_state mask : Z) (w : world) :
  let target := set_bits new_state (system_state w) (Z.lnot mask) in
  let s := system_state w in
  let s' := system_state
              (snd (st_tp_update_system_state spi_device new_state mask w)) in
  let feature := Z.lor SYSTEM_STATE_ENABLE_HEAT_MAP
                       SYSTEM_STATE_ENABLE_DOME_SWITCH in
  Z.land s' (Z.lnot (Z.lor (Z.lor SYSTEM_STATE_DEBUG_MODE feature)
                           SYSTEM_STATE_ACTIVE_MODE))
  = Z.land s (Z.lnot (Z.lor (Z.lor SYSTEM_STATE_DEBUG_MODE feature)
                            SYSTEM_STATE_ACTIVE_MODE)) /\
  Z.land s' SYSTEM_STATE_DOME_SWITCH_LEVEL
  = Z.land s SYSTEM_STATE_DOME_SWITCH_LEVEL /\
  Z.land s' SYSTEM_STATE_DEBUG_MODE = Z.land target SYSTEM_STATE_DEBUG_MODE /\
  (Z.land s' feature = Z.land target feature \/
   Z.land s' feature = Z.land s feature) /\
  (Z.land s' SYSTEM_STATE_ACTIVE_MODE = Z.land target SYSTEM_STATE_ACTIVE_MODE \/
   Z.land s' SYSTEM_STATE_ACTIVE_MODE = Z.land s SYSTEM_STATE_ACTIVE_MODE).
Proof.
  cbv zeta.
  destruct (st_tp_update_system_state_shape new_state mask w)
    as (b1 & b6 & b8 & -> & H1).
  cbv zeta in *.
  generalize dependent (set_bits new_state (system_state w) (Z.lnot mask)).
  intros n H1. state_constants.
  change SYSTEM_STATE_DOME_SWITCH_LEVEL with 16.
  change (Z.lor (Z.lor 1 6) 8) with 15.
  assert (D16 : Z.land 1 6 = 0) by reflexivity.
  assert (D18 : Z.land 1 8 = 0) by reflexivity.
  assert (D68 : Z.land 6 8 = 0) by reflexivity.
  assert (D1f : Z.land 1 (Z.lnot 15) = 0) by reflexivity.
  assert (D6f : Z.land 6 (Z.lnot 15) = 0) by reflexivity.
  assert (D8f : Z.land 8 (Z.lnot 15) = 0) by reflexivity.
  assert (D1g : Z.land 1 16 = 0) by reflexivity.
  assert (D6g : Z.land 6 16 = 0) by reflexivity.
  assert (D8g : Z.land 8 16 = 0) by reflexivity.
  split; [|split; [|split; [|split]]].
  - destruct b1, b6, b8;
      rewrite ?(fun l r m => set_bits_disjoint l r m (Z.lnot 15)) by assumption;
      reflexivity.
  - destruct b1, b6, b8;
      rewrite ?(fun l r m => set_bits_disjoint l r m 16) by assumption;
      reflexivity.
  - assert (S1 : forall l, Z.land (set_bits l n 6) 1 = Z.land l 1)
      by (intros; apply set_bits_disjoint; reflexivity).
    assert (S2 : forall l, Z.land (set_bits l n 8) 1 = Z.land l 1)
      by (intros; apply set_bits_disjoint; reflexivity).
    destruct b1; [|specialize (H1 eq_refl)]; destruct b6, b8;
      repeat first [rewrite S1 | rewrite S2];
      rewrite ?set_bits_inside; auto.
  - assert (S2 : forall l, Z.land (set_bits l n 8) 6 = Z.land l 6)
      by (intros; apply set_bits_disjoint; reflexivity).
    assert (S1 : forall l, Z.land (set_bits l n 1) 6 = Z.land l 6)
      by (intros; apply set_bits_disjoint; reflexivity).
    destruct b1, b6, b8; rewrite ?S2, ?set_bits_inside, ?S1; auto.
  - assert (S6 : forall l, Z.land (set_bits l n 6) 8 = Z.land l 8)
      by (intros; apply set_bits_disjoint; reflexivity).
    assert (S1 : forall l, Z.land (set_bits l n 1) 8 = Z.land l 8)
      by (intros; apply set_bits_disjoint; reflexivity).
    destruct b1, b6, b8; rewrite ?set_bits_inside, ?S6, ?S1; auto.
Qed.

Ltac last_frame_is prev f :=
  solve
    [ exists prev, f;
      (split; [rewrite <- ?app_assoc; reflexivity|]);
      (split; [rewrite <- ?app_assoc, ?app_nil_r; reflexivity|]);
      first
        [ left; split; [reflexivity|];
          rewrite ?set_bits_disjoint by reflexivity; reflexivity
        | right; left; split; [reflexivity|];
          rewrite ?set_bits_disjoint by reflexivity; reflexivity
        | right; right; reflexivity ] ].

(** X2: when [st_tp_update_system_state] returns an error, that error is
    the return code of the last frame it sent and nothing is sent after
    it.  The failing frame is the feature select, and then the heat map
    and dome switch bits are left as they were; or the active scan mode
    command, and then the active bit is left as it was; or the locked
    scan mode command. *)
Theorem st_tp_update_system_state_failure (new_state mask : Z) (w : world) :
  let target := set_bits new_state (system_state w) (Z.lnot mask) in
  let r := fst (st_tp_update_system_state spi_device new_state mask w) in
  let w' := snd (st_tp_update_system_state spi_device new_state mask w) in
  let feature := Z.lor SYSTEM_STATE_ENABLE_HEAT_MAP
                       SYSTEM_STATE_ENABLE_DOME_SWITCH in
  r <> EC_SUCCESS ->
  exists prev f,
    spi_log w' = spi_log w ++ prev ++ [f] /\
    r = reply_ret (spi_device (spi_log w ++ prev) f 0) /\
    ((f = feature_select_frame target /\
      Z.land (system_state w') feature = Z.land (system_state w) feature)
     \/ (f = scan_mode_active_frame target /\
         Z.land (system_state w') SYSTEM_STATE_ACTIVE_MODE
         = Z.land (system_state w) SYSTEM_STATE_ACTIVE_MODE)
     \/ f = scan_mode_locked_frame).
Proof.
  cbv zeta.
  unfold st_tp_update_system_state, update_debug_mode, update_feature_select,
    update_active_mode, update_locked_scan_mode, bind, pure, cprints, modify,
    spi_transaction, EC_SUCCESS.
  generalize (set_bits new_state (system_state w) (Z.lnot mask)) as n.
  intros n. state_constants.
  repeat (break_if; cbn [fst snd system_state set_system_state set_rx_buf
                         set_spi_log set_console spi_log]);
    intros Hr; eqb_hyps; try congruence;
    first
      [ last_frame_is (@nil (list Z)) (feature_select_frame n)
      | last_frame_is (@nil (list Z)) (scan_mode_active_frame n)
      | last_frame_is [feature_select_frame n] (scan_mode_active_frame n)
      | last_frame_is (@nil (list Z)) scan_mode_locked_frame
      | last_frame_is [feature_select_frame n] scan_mode_locked_frame
      | last_frame_is [scan_mode_active_frame n] scan_mode_locked_frame
      | last_frame_is [feature_select_frame n; scan_mode_active_frame n]
          scan_mode_locked_frame ].
Qed.

(** X3: [st_tp_stop_scan] always ends with the touchpad interrupt
    disabled and the interrupt-off command as the last frame on the bus,
    also when leaving active mode failed.  When the driver was not in
    active mode that is the only frame; otherwise the active-mode command
    goes first, its return code is the result, and the active bit is
    cleared exactly when it succeeded. *)
Theorem st_tp_stop_scan_spec (w : world) :
  let r := fst (st_tp_stop_scan spi_device w) in
  let w' := snd (st_tp_stop_scan spi_device w) in
  let disable := [ST_TP_CMD_WRITE_SYSTEM_COMMAND; 1; 0] in
  touchpad_int_enabled w' = false /\
  (Z.land (system_state w) SYSTEM_STATE_ACTIVE_MODE = 0 ->
   r = EC_SUCCESS /\ system_state w' = system_state w /\
   spi_log w' = spi_log w ++ [disable]) /\
  (Z.land (system_state w) SYSTEM_STATE_ACTIVE_MODE <> 0 ->
   spi_log w' = spi_log w ++ [scan_mode_active_frame 0; disable] /\
   r = reply_ret (spi_device (spi_log w) (scan_mode_active_frame 0) 0) /\
   (r = 0 ->
    system_state w'
    = Z.land (system_state w) (Z.lnot SYSTEM_STATE_ACTIVE_MODE)) /\
   (r <> 0 -> system_state w' = system_state w)).
Proof.
  cbv zeta. unfold st_tp_stop_scan, bind, st_tp_update_system_state.
  state_constants.
  set (n := set_bits 0 (system_state w) (Z.lnot 8)).
  assert (N1 : Z.land n 1 = Z.land (system_state w) 1).
  { subst n. assert (D : Z.land 8 1 = 0) by reflexivity. bitblast. }
  assert (N6 : Z.land n 6 = Z.land (system_state w) 6).
  { subst n. assert (D : Z.land 8 6 = 0) by reflexivity. bitblast. }
  assert (N8 : Z.land n 8 = 0).
  { subst n. bitblast. }
  assert (F : scan_mode_active_frame n = scan_mode_active_frame 0).
  { unfold scan_mode_active_frame. state_constants. rewrite N8. reflexivity. }
  assert (C : set_bits (system_state w) n 8 = Z.land (system_state w) (Z.lnot 8)).
  { subst n. bitblast. }
  unfold bind. rewrite (update_debug_mode_noop n w N1).
  rewrite (update_feature_select_noop n w N6).
  cbn [fst snd Z.eqb negb EC_SUCCESS].
  unfold update_active_mode, update_locked_scan_mode, st_tp_enable_interrupt,
    gpio_set_touchpad_int, bind, pure, cprints, modify, spi_transaction.
  state_constants. rewrite N8, F.
  destruct (Z.eqb_spec 0 (Z.land (system_state w) 8)) as [E | E];
    cbn [negb fst snd Z.eqb spi_log set_spi_log set_rx_buf set_console
         set_system_state set_touchpad_int_enabled touchpad_int_enabled
         system_state].
  - split; [reflexivity|]. split.
    + intros _. auto.
    + intros H. exfalso. apply H. auto.
  - destruct (negb (reply_ret (spi_device (spi_log w)
                                 (scan_mode_active_frame 0) 0) =? 0)) eqn:R;
      cbn [negb fst snd Z.eqb spi_log set_spi_log set_rx_buf set_console
           set_system_state set_touchpad_int_enabled touchpad_int_enabled
           system_state]; rewrite ?R;
      cbn [negb fst snd Z.eqb spi_log set_spi_log set_rx_buf set_console
           set_system_state set_touchpad_int_enabled touchpad_int_enabled
           system_state EC_SUCCESS]; eqb_hyps;
      (split; [reflexivity|]); (split; [intros H; exfalso; apply E; auto|]);
      intros _; rewrite <- app_assoc.
    + repeat split; auto. intros H. contradiction.
    + repeat split; auto. intros H. unfold EC_SUCCESS in H. contradiction.
Qed.

(** X4: [st_tp_start_scan] returns the result of the state update.  When
    the update fails nothing more happens: no acknowledge, no interrupt
    command, interrupt left as it was.  When it succeeds the driver is in
    active mode with the dome switch on, the acknowledge and the
    interrupt-on command are the last two frames, and the touchpad
    interrupt is enabled. *)
Theorem st_tp_start_scan_spec (w : world) :
  let wanted := Z.lor SYSTEM_STATE_ACTIVE_MODE
                      SYSTEM_STATE_ENABLE_DOME_SWITCH in
  let u := st_tp_update_system_state spi_device wanted wanted w in
  let r := fst (st_tp_start_scan spi_device w) in
  let w' := snd (st_tp_start_scan spi_device w) in
  r = fst u /\
  (r <> EC_SUCCESS -> w' = snd u) /\
  (r = EC_SUCCESS ->
   touchpad_int_enabled w' = true /\
   spi_log w' = spi_log (snd u) ++
                [[ST_TP_CMD_SPI_HOST_BUFFER_ACK];
                 [ST_TP_CMD_WRITE_SYSTEM_COMMAND; 1; 1]] /\
   Z.land (system_state w') SYSTEM_STATE_ACTIVE_MODE <> 0 /\
   Z.land (system_state w') SYSTEM_STATE_ENABLE_DOME_SWITCH <> 0).
Proof.
  cbv zeta. unfold st_tp_start_scan, bind.
  destruct (st_tp_update_system_state spi_device
              (Z.lor SYSTEM_STATE_ACTIVE_MODE SYSTEM_STATE_ENABLE_DOME_SWITCH)
              (Z.lor SYSTEM_STATE_ACTIVE_MODE SYSTEM_STATE_ENABLE_DOME_SWITCH)
              w) as [r w1] eqn:U.
  cbn [fst snd]. unfold EC_SUCCESS.
  destruct (negb (r =? 0)) eqn:R; eqb_hyps.
  - unfold pure. cbn [fst snd]. split; [reflexivity|].
    split; [reflexivity | intros; contradiction].
  - unfold st_tp_send_ack, st_tp_enable_interrupt, gpio_set_touchpad_int,
      bind, pure, modify, spi_transaction.
    cbn [fst snd Z.eqb spi_log set_spi_log set_rx_buf
         set_touchpad_int_enabled touchpad_int_enabled system_state].
    split; [reflexivity|]. split; [intros; contradiction|]. intros _.
    split; [reflexivity|]. split; [rewrite <- app_assoc; reflexivity|].
    pose proof (st_tp_update_system_state_commits _ _ _ _ _ 6 U R
                  ltac:(auto)) as C6.
    pose proof (st_tp_update_system_state_commits _ _ _ _ _ 8 U R
                  ltac:(auto)) as C8.
    state_constants. change (Z.lor 8 4) with 12 in *.
    assert (T8 : Z.land (set_bits 12 (system_state w) (Z.lnot 12)) 8 = 8).
    { assert (D : Z.land 12 8 = 8) by reflexivity. bitblast. }
    assert (T4 : Z.land (set_bits 12 (system_state w) (Z.lnot 12)) 4 = 4).
    { assert (D : Z.land 12 4 = 4) by reflexivity. bitblast. }
    assert (S4 : Z.land (system_state w1) 4 = 4).
    { assert (H : forall x, Z.land x 4 = Z.land (Z.land x 6) 4)
        by (intros x; rewrite <- Z.land_assoc; reflexivity).
      rewrite H, C6, <- H. exact T4. }
    rewrite C8, T8, S4. split; discriminate.
Qed.

(** ** HID reports *)

Lemma list_set_length {A} (x : A) (l : list A) :
  forall i, length (list_set i x l) = length l.
Proof.
  induction l as [|h t IH]; intros [|i]; simpl; auto.
Qed.

Lemma nth_list_set_other {A} (x d : A) (l : list A) :
  forall i j, i <> j -> nth j (list_set i x l) d = nth j l d.
Proof.
  induction l as [|h t IH]; intros [|i] [|j] H; simpl; auto;
    congruence.
Qed.

Lemma nth_list_set_same {A} (x d : A) (l : list A) :
  forall i, (i < length l)%nat -> nth i (list_set i x l) d = x.
Proof.
  induction l as [|h t IH]; intros [|i] H; simpl in *; try lia; auto.
  apply IH. lia.
Qed.

Lemma int_to_size_t_nonneg (i : Z) : 0 <= i -> int_to_size_t i = i.
Proof.
  intros H. unfold int_to_size_t. destruct (Z.ltb_spec i 0); [lia|reflexivity].
Qed.

Lemma bit_field_range (width x : Z) :
  0 <= width -> 0 <= bit_field width x < 2 ^ width.
Proof.
  intros H. unfold bit_field. apply Z.mod_pos_bound.
  apply Z.pow_pos_nonneg; lia.
Qed.

Lemma bit_field_small (width x : Z) :
  0 <= x < 2 ^ width -> bit_field width x = x.
Proof. intros H. unfold bit_field. apply Z.mod_small. exact H. Qed.

(** X5: [st_tp_parse_finger], called with a non-negative index, returns
    that index or the next one and never an index past the finger array;
    the array keeps its length and only slot [i] can change.  The index
    stays when the array is full or the event is not a finger, and then
    the report is untouched. *)
Theorem st_tp_parse_finger_bounds (fingers : list finger_t)
    (event : list Z) (i : Z) :
  0 <= i ->
  let fingers' := fst (st_tp_parse_finger fingers event i) in
  let i' := snd (st_tp_parse_finger fingers event i) in
  (i' = i \/ i' = i + 1) /\
  i' <= Z.max i MAX_FINGERS /\
  length fingers' = length fingers /\
  (forall j d, j <> Z.to_nat i -> nth j fingers' d = nth j fingers d) /\
  (i' = i <->
   MAX_FINGERS <= i \/
   event_finger_touch_type event = ST_TP_TOUCH_TYPE_INVALID) /\
  (i' = i -> fingers' = fingers).
Proof.
  intros Hi. cbv zeta. unfold st_tp_parse_finger.
  rewrite (int_to_size_t_nonneg i Hi).
  destruct (Z.geb_spec i MAX_FINGERS) as [G | G]; cbn [fst snd].
  { repeat split; auto; try lia. }
  destruct (Z.eqb_spec (event_finger_touch_type event)
              ST_TP_TOUCH_TYPE_INVALID) as [T | T]; cbn [fst snd].
  { repeat split; auto; try lia. }
  split; [auto|]. split; [lia|].
  split.
  { repeat break_if; auto using list_set_length. }
  split.
  { intros j d Hj.
    repeat break_if; auto using nth_list_set_other. }
  split; [|intros; lia].
  split; [intros; lia|]. intros [H | H]; [lia | contradiction].
Qed.

Lemma zero_finger_fits : finger_fits zero_finger.
Proof. unfold finger_fits. simpl. repeat split; auto; lia. Qed.

Lemma report_well_formed_set (fingers : list finger_t) (n : Z)
    (f : finger_t) :
  report_well_formed fingers n -> n < MAX_FINGERS -> finger_fits f ->
  report_well_formed (list_set (Z.to_nat n) f fingers) (n + 1).
Proof.
  intros (Hn & Hlen & Hzero & Hset) Hlt Hf.
  split; [lia|]. split; [rewrite list_set_length; exact Hlen|].
  split.
  - intros j Hj. rewrite nth_list_set_other by lia. apply Hzero. lia.
  - intros j Hj.
    destruct (Z.eq_dec j n) as [-> | Hne].
    + rewrite nth_list_set_same by lia. exact Hf.
    + rewrite nth_list_set_other by lia. apply Hset. lia.
Qed.

Lemma report_well_formed_skip (fingers : list finger_t) (n : Z) :
  report_well_formed fingers n -> n < MAX_FINGERS ->
  report_well_formed fingers (n + 1).
Proof.
  intros (Hn & Hlen & Hzero & Hset) Hlt.
  split; [lia|]. split; [exact Hlen|].
  split.
  - intros j Hj. apply Hzero. lia.
  - intros j Hj.
    destruct (Z.eq_dec j n) as [-> | Hne].
    + rewrite Hzero by lia. apply zero_finger_fits.
    + apply Hset. lia.
Qed.

Lemma st_tp_parse_finger_well_formed (fingers : list finger_t)
    (event : list Z) (n : Z) :
  report_well_formed fingers n ->
  report_well_formed (fst (st_tp_parse_finger fingers event n))
                     (snd (st_tp_parse_finger fingers event n)).
Proof.
  intros Inv. unfold st_tp_parse_finger.
  rewrite (int_to_size_t_nonneg n) by (destruct Inv as ((H & _) & _); exact H).
  destruct (Z.geb_spec n MAX_FINGERS) as [G | G]; cbn [fst snd]; auto.
  destruct (event_finger_touch_type event =? ST_TP_TOUCH_TYPE_INVALID);
    cbn [fst snd]; auto.
  assert (Z : nth (Z.to_nat n) fingers zero_finger = zero_finger).
  { destruct Inv as (_ & _ & Hzero & _). apply Hzero. lia. }
  repeat break_if.
  - apply report_well_formed_set; auto.
    unfold finger_fits. cbn [finger_tip finger_inrange finger_pressure
                             finger_width finger_height].
    split; [reflexivity|]. split; [auto|].
    split; [exact (bit_field_range 10 _ ltac:(lia))|].
    split; exact (bit_field_range 12 _ ltac:(lia)).
  - apply report_well_formed_set; auto. rewrite Z.
    unfold finger_fits. simpl. repeat split; auto; lia.
  - apply report_well_formed_skip; auto.
Qed.

(** The event loop of [st_tp_write_hid_report] looks at records
    [i .. i + todo - 1], changes nothing else, and keeps the report well
    formed. *)
Lemma hid_report_loop_spec (todo : nat) :
  forall (i : Z) (fingers : list finger_t) (n : Z) (w : world),
  report_well_formed fingers n ->
  let res := hid_report_loop todo i fingers n w in
  report_well_formed (fst (fst res)) (snd (fst res)) /\
  snd res = set_events_examined (events_examined w ++ zseq i todo) w.
Proof.
  induction todo as [|todo IH]; intros i fingers n w Inv; cbv zeta.
  - simpl. unfold pure. cbn [fst snd]. split; [exact Inv|].
    rewrite app_nil_r. destruct w; reflexivity.
  - cbn [hid_report_loop zseq]. unfold bind, rx_buf_events.
    set (w0 := set_events_examined (events_examined w ++ [i]) w).
    assert (W : forall f m,
               snd (hid_report_loop todo (i + 1) f m w0)
               = set_events_examined
                   (events_examined w0 ++ zseq (i + 1) todo) w0 ->
               snd (hid_report_loop todo (i + 1) f m w0)
               = set_events_examined
                   (events_examined w ++ i :: zseq (i + 1) todo) w).
    { intros f m ->. subst w0. cbn [events_examined set_events_examined].
      rewrite <- app_assoc. reflexivity. }
    break_if.
    + pose proof (st_tp_parse_finger_well_formed fingers
                    (slice (8 * i) 8 (rx_union w)) n Inv) as Inv'.
      destruct (st_tp_parse_finger fingers (slice (8 * i) 8 (rx_union w)) n)
        as [fingers' n'].
      cbn [fst snd] in Inv'.
      destruct (IH (i + 1) fingers' n' w0 Inv') as (I1 & I2).
      split; [exact I1 | apply W; exact I2].
    + destruct (IH (i + 1) fingers n w0 Inv) as (I1 & I2).
      split; [exact I1 | apply W; exact I2].
Qed.

(** [st_tp_read_all_events] touches the bus, [rx_buf], the console and
    the list of examined records, nothing else. *)
Lemma read_all_events_loop_world (todo : nat) : forall (i : Z) (w : world),
  exists c e,
    snd (read_all_events_loop todo i w)
    = set_console c (set_events_examined e w).
Proof.
  induction todo as [|todo IH]; intros i w.
  - exists (console w), (events_examined w). destruct w; reflexivity.
  - rewrite read_all_events_loop_step. cbv zeta.
    repeat break_if.
    + destruct (IH (i + 1)
                  (set_console
                     (console (set_events_examined
                                 (events_examined w ++ [i]) w) ++
                      [error_report_msg (event_at w i)])
                     (set_events_examined (events_examined w ++ [i]) w)))
        as (c & e & ->).
      exists c, e. reflexivity.
    + destruct (IH (i + 1)
                  (set_events_examined (events_examined w ++ [i]) w))
        as (c & e & ->).
      exists c, e. reflexivity.
    + exists (console w), (events_examined w ++ [i]). reflexivity.
Qed.

Lemma st_tp_read_all_events_world (w : world) :
  exists c e,
    snd (st_tp_read_all_events spi_device w)
    = set_console c
        (set_events_examined e
           (snd (spi_transaction spi_device [ST_TP_CMD_READ_ALL_EVENTS]
                   (32 * 8 + ST_TP_DUMMY_BYTE) w))).
Proof.
  rewrite st_tp_read_all_events_unfold. cbv zeta.
  break_if.
  - exists (console w), (events_examined w). reflexivity.
  - apply read_all_events_loop_world.
Qed.

(** The event loop changes nothing but the list of examined records. *)
Lemma hid_report_loop_world (todo : nat) :
  forall (i : Z) (fingers : list finger_t) (n : Z) (w : world),
  snd (hid_report_loop todo i fingers n w)
  = set_events_examined (events_examined w ++ zseq i todo) w.
Proof.
  induction todo as [|todo IH]; intros i fingers n w.
  - simpl. rewrite app_nil_r. destruct w; reflexivity.
  - cbn [hid_report_loop zseq]. unfold bind, rx_buf_events.
    break_if.
    + destruct (st_tp_parse_finger fingers (slice (8 * i) 8 (rx_union w)) n)
        as [fingers' n'].
      rewrite IH. cbn [events_examined set_events_examined].
      rewrite <- app_assoc. reflexivity.
    + rewrite IH. cbn [events_examined set_events_examined].
      rewrite <- app_assoc. reflexivity.
Qed.

Lemma report_well_formed_init :
  0 <= MAX_FINGERS ->
  report_well_formed (repeat zero_finger (Z.to_nat MAX_FINGERS)) 0.
Proof.
  intros H. split; [lia|]. split; [apply repeat_length|].
  split.
  - intros j _. apply nth_repeat.
  - intros j Hj. lia.
Qed.

(** The paths through [st_tp_write_hid_report]. *)
Lemma st_tp_write_hid_report_cases (w : world) :
  let hr := st_tp_read_host_buffer_header spi_device w in
  let w1 := snd hr in
  let chg := negb (Z.land (buffer_header_flags (rx_union w1))
                          ST_TP_BUFFER_HEADER_DOMESWITCH_CHG =? 0) in
  let w2 :=
    if chg
    then set_system_state
           (set_bits (system_state w1)
              (if buffer_header_dome_switch_level (rx_union w1) =? 0
               then SYSTEM_STATE_DOME_SWITCH_LEVEL else 0)
              SYSTEM_STATE_DOME_SWITCH_LEVEL) w1
    else w1 in
  let ev := st_tp_read_all_events spi_device w2 in
  let lp := hid_report_loop (Z.to_nat (fst ev)) 0
              (repeat zero_finger (Z.to_nat MAX_FINGERS)) 0 (snd ev) in
  st_tp_write_hid_report spi_device w =
  if negb (fst hr =? 0) then hr
  else if fst ev <? 0 then (- fst ev, snd ev)
  else if (snd (fst lp) =? 0) && negb chg then (0, snd lp)
  else (0, set_touchpad_reports
             (touchpad_reports (snd lp) ++
              [mkReport 1 (fst (fst lp))
                 (notnot (Z.land (system_state (snd lp))
                                 SYSTEM_STATE_DOME_SWITCH_LEVEL))
                 (bit_field REPORT_COUNT_BITS (snd (fst lp)))
                 (u16 (Z.quot (irq_ts (snd lp))
                              USB_HID_TOUCHPAD_TIMESTAMP_UNIT))])
             (snd lp)).
Proof.
  cbv zeta. unfold st_tp_write_hid_report, bind.
  destruct (st_tp_read_host_buffer_header spi_device w) as [r1 w1].
  cbn [fst snd].
  destruct (negb (r1 =? 0)); [reflexivity|].
  destruct (negb (Z.land (buffer_header_flags (rx_union w1))
                         ST_TP_BUFFER_HEADER_DOMESWITCH_CHG =? 0));
    cbn [fst snd];
    match goal with
    | |- context [st_tp_read_all_events spi_device ?w2] =>
        destruct (st_tp_read_all_events spi_device w2) as [ne w3]
    end;
    cbn [fst snd];
    (destruct (ne <? 0); [reflexivity|]);
    match goal with
    | |- context [hid_report_loop ?a ?b ?c ?d ?e] =>
        destruct (hid_report_loop a b c d e) as [[f nf] w4]
    end;
    cbn [fst snd Z.eqb negb];
    rewrite ?andb_false_r, ?andb_true_r;
    destruct (nf =? 0); reflexivity.
Qed.

(** X6: every HID report [st_tp_write_hid_report] hands to the USB stack
    is well formed, provided the count field is wide enough for
    [MAX_FINGERS]: id 1, a finger count between 0 and [MAX_FINGERS], the
    slots from the count on zeroed, every slot below it with [tip] equal
    to [inrange] and pressure, width and height inside their 10 and 12
    bit fields, the button 0 or 1 and equal to the dome-switch level kept
    in [system_state], and the timestamp the low 16 bits of the interrupt
    time divided by the timestamp unit.  A call sends at most one report,
    and only when it returns 0. *)
Theorem st_tp_write_hid_report_well_formed (w : world) :
  0 <= MAX_FINGERS ->
  MAX_FINGERS < 2 ^ REPORT_COUNT_BITS ->
  let w' := snd (st_tp_write_hid_report spi_device w) in
  touchpad_reports w' = touchpad_reports w \/
  exists r,
    touchpad_reports w' = touchpad_reports w ++ [r] /\
    fst (st_tp_write_hid_report spi_device w) = 0 /\
    report_id r = 1 /\
    report_well_formed (report_finger r) (report_count r) /\
    report_button r
    = notnot (Z.land (system_state w') SYSTEM_STATE_DOME_SWITCH_LEVEL) /\
    (report_button r = 0 \/ report_button r = 1) /\
    report_timestamp r
    = Z.quot (irq_ts w) USB_HID_TOUCHPAD_TIMESTAMP_UNIT mod 65536 /\
    0 <= report_timestamp r < 65536.
Proof.
  intros Hmax Hcount. cbv zeta. rewrite st_tp_write_hid_report_cases.
  cbv zeta.
  set (w1 := snd (st_tp_read_host_buffer_header spi_device w)).
  set (chg := negb (Z.land (buffer_header_flags (rx_union w1))
                           ST_TP_BUFFER_HEADER_DOMESWITCH_CHG =? 0)).
  set (w2 := if chg then _ else w1).
  assert (R2 : touchpad_reports w2 = touchpad_reports w /\
               irq_ts w2 = irq_ts w).
  { subst w2. destruct chg; split; reflexivity. }
  destruct (st_tp_read_all_events_world w2) as (c & e & W3).
  destruct (hid_report_loop_spec
              (Z.to_nat (fst (st_tp_read_all_events spi_device w2))) 0
              (repeat zero_finger (Z.to_nat MAX_FINGERS)) 0
              (snd (st_tp_read_all_events spi_device w2))
              (report_well_formed_init Hmax)) as (I1 & I2).
  set (lp := hid_report_loop _ _ _ _ _) in *.
  destruct R2 as (R2 & T2).
  assert (R4 : touchpad_reports (snd lp) = touchpad_reports w).
  { rewrite I2, W3. cbn. exact R2. }
  assert (T4 : irq_ts (snd lp) = irq_ts w).
  { rewrite I2, W3. cbn. exact T2. }
  assert (C4 : bit_field REPORT_COUNT_BITS (snd (fst lp)) = snd (fst lp)).
  { apply bit_field_small. destruct I1 as (Hn & _). lia. }
  destruct (negb (fst (st_tp_read_host_buffer_header spi_device w) =? 0)).
  { left. reflexivity. }
  destruct (fst (st_tp_read_all_events spi_device w2) <? 0).
  { left. cbn [snd]. rewrite W3. cbn. exact R2. }
  destruct ((snd (fst lp) =? 0) && negb chg).
  { left. exact R4. }
  right. eexists. cbn [fst snd touchpad_reports set_touchpad_reports].
  split; [rewrite R4; reflexivity|].
  split; [reflexivity|]. split; [reflexivity|].
  cbn [report_finger report_count report_button report_timestamp
       system_state].
  rewrite C4, T4.
  split; [exact I1|]. split; [reflexivity|].
  split; [unfold notnot; break_if; auto|].
  split; [reflexivity|].
  unfold u16. apply Z.mod_pos_bound. lia.
Qed.

(** X7: when [st_tp_write_hid_report] returns an error no report is
    sent, and the error is the return code of the transaction that
    failed.  A failed header read ends the call after that one frame with
    [system_state] untouched; a failed event read ends it after the
    second frame. *)
Theorem st_tp_write_hid_report_failure (w : world) :
  let header_frame := [ST_TP_CMD_READ_SPI_HOST_BUFFER; 0; 0] in
  let header_ret :=
    reply_ret (spi_device (spi_log w) header_frame
                 (ST_TP_DUMMY_BYTE + sizeof_buffer_header)) in
  let events_ret :=
    reply_ret (spi_device (spi_log w ++ [header_frame])
                 [ST_TP_CMD_READ_ALL_EVENTS] (32 * 8 + ST_TP_DUMMY_BYTE)) in
  let r := fst (st_tp_write_hid_report spi_device w) in
  let w' := snd (st_tp_write_hid_report spi_device w) in
  r <> 0 ->
  touchpad_reports w' = touchpad_reports w /\
  ((header_ret <> 0 /\ r = header_ret /\
    spi_log w' = spi_log w ++ [header_frame] /\
    system_state w' = system_state w) \/
   (header_ret = 0 /\ events_ret <> 0 /\ r = events_ret /\
    spi_log w' = spi_log w ++ [header_frame; [ST_TP_CMD_READ_ALL_EVENTS]])).
Proof.
  cbv zeta. rewrite st_tp_write_hid_report_cases. cbv zeta.
  set (w1 := snd (st_tp_read_host_buffer_header spi_device w)).
  set (chg := negb (Z.land (buffer_header_flags (rx_union w1))
                           ST_TP_BUFFER_HEADER_DOMESWITCH_CHG =? 0)).
  set (w2 := if chg then _ else w1).
  assert (R2 : touchpad_reports w2 = touchpad_reports w /\
               spi_log w2 = spi_log w ++ [[ST_TP_CMD_READ_SPI_HOST_BUFFER; 0; 0]]).
  { subst w2. destruct chg; split; reflexivity. }
  destruct R2 as (R2 & L2).
  change (fst (st_tp_read_host_buffer_header spi_device w))
    with (reply_ret (spi_device (spi_log w)
                       [ST_TP_CMD_READ_SPI_HOST_BUFFER; 0; 0]
                       (ST_TP_DUMMY_BYTE + sizeof_buffer_header))).
  destruct (negb (reply_ret (spi_device (spi_log w)
                               [ST_TP_CMD_READ_SPI_HOST_BUFFER; 0; 0]
                               (ST_TP_DUMMY_BYTE + sizeof_buffer_header))
                  =? 0)) eqn:H1; eqb_hyps.
  { intros _. split; [reflexivity|]. left. repeat split; auto. }
  rewrite (st_tp_read_all_events_unfold w2). cbv zeta.
  change (fst (spi_transaction spi_device [ST_TP_CMD_READ_ALL_EVENTS]
                 (32 * 8 + ST_TP_DUMMY_BYTE) w2))
    with (reply_ret (spi_device (spi_log w2) [ST_TP_CMD_READ_ALL_EVENTS]
                       (32 * 8 + ST_TP_DUMMY_BYTE))).
  rewrite L2.
  destruct (negb (reply_ret (spi_device
                               (spi_log w ++
                                [[ST_TP_CMD_READ_SPI_HOST_BUFFER; 0; 0]])
                               [ST_TP_CMD_READ_ALL_EVENTS]
                               (32 * 8 + ST_TP_DUMMY_BYTE)) =? 0)) eqn:H2;
    eqb_hyps; cbn [fst snd].
  - destruct (Z.ltb_spec (- reply_ret (spi_device
                               (spi_log w ++
                                [[ST_TP_CMD_READ_SPI_HOST_BUFFER; 0; 0]])
                               [ST_TP_CMD_READ_ALL_EVENTS]
                               (32 * 8 + ST_TP_DUMMY_BYTE))) 0) as [N | N].
    + intros _. cbn [fst snd]. split; [exact R2|]. right.
      split; [exact H1|]. split; [exact H2|].
      split; [apply Z.opp_involutive|].
      change (spi_log (snd (spi_transaction spi_device
                              [ST_TP_CMD_READ_ALL_EVENTS]
                              (32 * 8 + ST_TP_DUMMY_BYTE) w2)))
        with (spi_log w2 ++ [[ST_TP_CMD_READ_ALL_EVENTS]]).
      rewrite L2, <- app_assoc. reflexivity.
    + break_if; cbn [fst]; intros H; contradiction H; reflexivity.
  - pose proof (read_all_events_loop_spec 32 0
                  (snd (spi_transaction spi_device [ST_TP_CMD_READ_ALL_EVENTS]
                          (32 * 8 + ST_TP_DUMMY_BYTE) w2))) as (Hn & _).
    destruct (Z.ltb_spec (fst (read_all_events_loop 32 0
                (snd (spi_transaction spi_device [ST_TP_CMD_READ_ALL_EVENTS]
                        (32 * 8 + ST_TP_DUMMY_BYTE) w2)))) 0) as [N | N];
      [lia|].
    break_if; cbn [fst]; intros H; contradiction H; reflexivity.
Qed.

(** X8: when the call succeeds and the host buffer header flags a
    dome-switch change, a report is always sent, fingers or not.  Its
    button is the inverse of the level the device reports (0 is pressed),
    the same value is kept in the level bit of [system_state], and no
    other bit of [system_state] changes. *)
Theorem st_tp_write_hid_report_dome_switch (w : world) :
  let w1 := snd (st_tp_read_host_buffer_header spi_device w) in
  let pressed := buffer_header_dome_switch_level (rx_union w1) =? 0 in
  let w' := snd (st_tp_write_hid_report spi_device w) in
  fst (st_tp_write_hid_report spi_device w) = 0 ->
  Z.land (buffer_header_flags (rx_union w1))
         ST_TP_BUFFER_HEADER_DOMESWITCH_CHG <> 0 ->
  (exists r,
      touchpad_reports w' = touchpad_reports w ++ [r] /\
      report_button r = if pressed then 1 else 0) /\
  Z.land (system_state w') SYSTEM_STATE_DOME_SWITCH_LEVEL
  = (if pressed then SYSTEM_STATE_DOME_SWITCH_LEVEL else 0) /\
  Z.land (system_state w') (Z.lnot SYSTEM_STATE_DOME_SWITCH_LEVEL)
  = Z.land (system_state w) (Z.lnot SYSTEM_STATE_DOME_SWITCH_LEVEL).
Proof.
  cbv zeta. rewrite st_tp_write_hid_report_cases. cbv zeta.
  set (w1 := snd (st_tp_read_host_buffer_header spi_device w)).
  intros Hret Hflag.
  apply Z.eqb_neq in Hflag. rewrite Hflag in *. cbn [negb andb] in *.
  rewrite andb_false_r in *.
  set (s2 := set_bits (system_state w1)
               (if buffer_header_dome_switch_level (rx_union w1) =? 0
                then SYSTEM_STATE_DOME_SWITCH_LEVEL else 0)
               SYSTEM_STATE_DOME_SWITCH_LEVEL) in *.
  set (w2 := set_system_state s2 w1) in *.
  destruct (st_tp_read_all_events_world w2) as (c & e & W3).
  pose proof (hid_report_loop_world
                (Z.to_nat (fst (st_tp_read_all_events spi_device w2))) 0
                (repeat zero_finger (Z.to_nat MAX_FINGERS)) 0
                (snd (st_tp_read_all_events spi_device w2))) as I2.
  set (lp := hid_report_loop _ _ _ _ _) in *.
  assert (R4 : touchpad_reports (snd lp) = touchpad_reports w).
  { rewrite I2, W3. reflexivity. }
  assert (S4 : system_state (snd lp) = s2).
  { rewrite I2, W3. reflexivity. }
  assert (B : Z.land s2 SYSTEM_STATE_DOME_SWITCH_LEVEL
              = if buffer_header_dome_switch_level (rx_union w1) =? 0
                then SYSTEM_STATE_DOME_SWITCH_LEVEL else 0).
  { subst s2. rewrite set_bits_inside.
    destruct (buffer_header_dome_switch_level (rx_union w1) =? 0);
      reflexivity. }
  destruct (negb (fst (st_tp_read_host_buffer_header spi_device w) =? 0))
    eqn:H1.
  { eqb_hyps. contradiction. }
  destruct (Z.ltb_spec (fst (st_tp_read_all_events spi_device w2)) 0)
    as [N | N].
  { cbn [fst] in Hret. lia. }
  cbn [fst snd touchpad_reports set_touchpad_reports system_state].
  rewrite R4, S4, B. split.
  { eexists. split; [reflexivity|]. cbn [report_button].
    destruct (buffer_header_dome_switch_level (rx_union w1) =? 0);
      reflexivity. }
  split; [reflexivity|].
  subst s2. apply set_bits_outside.
Qed.


Lemma st_tp_read_all_events_ok (w : world) :
  reply_ret (spi_device (spi_log w) [ST_TP_CMD_READ_ALL_EVENTS]
               (32 * 8 + ST_TP_DUMMY_BYTE)) = 0 ->
  0 <= fst (st_tp_read_all_events spi_device w) <= 32 /\
  events_examined (snd (st_tp_read_all_events spi_device w))
  = events_examined w ++
    zrange (Z.min (fst (st_tp_read_all_events spi_device w) + 1) 32) /\
  spi_log (snd (st_tp_read_all_events spi_device w))
  = spi_log w ++ [[ST_TP_CMD_READ_ALL_EVENTS]].
Proof.
  intros Hok.
  rewrite st_tp_read_all_events_unfold. cbv zeta.
  set (w1 := snd (spi_transaction spi_device [ST_TP_CMD_READ_ALL_EVENTS]
                    (32 * 8 + ST_TP_DUMMY_BYTE) w)).
  assert (Hr : fst (spi_transaction spi_device [ST_TP_CMD_READ_ALL_EVENTS]
                      (32 * 8 + ST_TP_DUMMY_BYTE) w) = 0) by exact Hok.
  rewrite Hr. cbn [Z.eqb negb].
  destruct (read_all_events_loop_spec 32 0 w1)
    as (Hn & _ & _ & Hexam & _ & _ & Hlog).
  set (n := fst (read_all_events_loop 32 0 w1)) in *.
  set (w' := snd (read_all_events_loop 32 0 w1)) in *.
  change (Z.of_nat 32) with 32 in *.
  rewrite Z.sub_0_r in *. rewrite Z.add_0_l in *.
  repeat split; auto; try lia.
Qed.

Lemma st_tp_read_all_events_valid (w : world) :
  reply_ret (spi_device (spi_log w) [ST_TP_CMD_READ_ALL_EVENTS]
               (32 * 8 + ST_TP_DUMMY_BYTE)) = 0 ->
  forall j, 0 <= j < fst (st_tp_read_all_events spi_device w) ->
    valid_magic (event_at (snd (st_tp_read_all_events spi_device w)) j)
    = true.
Proof.
  intros Hok.
  rewrite st_tp_read_all_events_unfold. cbv zeta.
  set (w1 := snd (spi_transaction spi_device [ST_TP_CMD_READ_ALL_EVENTS]
                    (32 * 8 + ST_TP_DUMMY_BYTE) w)).
  assert (Hr : fst (spi_transaction spi_device [ST_TP_CMD_READ_ALL_EVENTS]
                      (32 * 8 + ST_TP_DUMMY_BYTE) w) = 0) by exact Hok.
  rewrite Hr. cbn [Z.eqb negb].
  destruct (read_all_events_loop_spec 32 0 w1)
    as (_ & Hvalid & _ & _ & _ & Hrx & _).
  intros j Hj. unfold event_at, rx_union. rewrite Hrx.
  apply Hvalid. exact Hj.
Qed.

Lemma st_tp_read_all_events_failed (w : world) :
  reply_ret (spi_device (spi_log w) [ST_TP_CMD_READ_ALL_EVENTS]
               (32 * 8 + ST_TP_DUMMY_BYTE)) <> 0 ->
  st_tp_read_all_events spi_device w
  = (- reply_ret (spi_device (spi_log w) [ST_TP_CMD_READ_ALL_EVENTS]
                    (32 * 8 + ST_TP_DUMMY_BYTE)),
     snd (spi_transaction spi_device [ST_TP_CMD_READ_ALL_EVENTS]
            (32 * 8 + ST_TP_DUMMY_BYTE) w)).
Proof.
  intros Hbad. rewrite st_tp_read_all_events_unfold. cbv zeta.
  change (fst (spi_transaction spi_device [ST_TP_CMD_READ_ALL_EVENTS]
                 (32 * 8 + ST_TP_DUMMY_BYTE) w))
    with (reply_ret (spi_device (spi_log w) [ST_TP_CMD_READ_ALL_EVENTS]
                       (32 * 8 + ST_TP_DUMMY_BYTE))).
  apply Z.eqb_neq in Hbad. rewrite Hbad. reflexivity.
Qed.

Lemma hid_report_loop_no_pointer (todo : nat) :
  forall (i : Z) (fingers : list finger_t) (n : Z) (w : world),
  (forall j, i <= j < i + Z.of_nat todo ->
             is_pointer_event (event_at w j) = false) ->
  fst (hid_report_loop todo i fingers n w) = (fingers, n).
Proof.
  induction todo as [|todo IH]; intros i fingers n w H.
  - reflexivity.
  - cbn [hid_report_loop]. unfold bind, rx_buf_events.
    pose proof (H i ltac:(lia)) as Hi.
    unfold is_pointer_event, event_at in Hi. rewrite Hi.
    apply IH. intros j Hj. apply (H j). lia.
Qed.

(** X9: no spurious report.  When both transactions succeed, the host
    buffer header flags no dome-switch change and none of the 32 records
    left in [rx_buf] is a pointer event, [st_tp_write_hid_report] returns
    0 without sending a report and without touching [system_state]. *)
Theorem st_tp_write_hid_report_quiet (w : world) :
  let header_frame := [ST_TP_CMD_READ_SPI_HOST_BUFFER; 0; 0] in
  let header_ret :=
    reply_ret (spi_device (spi_log w) header_frame
                 (ST_TP_DUMMY_BYTE + sizeof_buffer_header)) in
  let events_ret :=
    reply_ret (spi_device (spi_log w ++ [header_frame])
                 [ST_TP_CMD_READ_ALL_EVENTS] (32 * 8 + ST_TP_DUMMY_BYTE)) in
  let w1 := snd (st_tp_read_host_buffer_header spi_device w) in
  let w' := snd (st_tp_write_hid_report spi_device w) in
  header_ret = 0 -> events_ret = 0 ->
  Z.land (buffer_header_flags (rx_union w1))
         ST_TP_BUFFER_HEADER_DOMESWITCH_CHG = 0 ->
  (forall j, 0 <= j < 32 -> is_pointer_event (event_at w' j) = false) ->
  fst (st_tp_write_hid_report spi_device w) = 0 /\
  touchpad_reports w' = touchpad_reports w /\
  system_state w' = system_state w /\
  spi_log w' = spi_log w ++ [header_frame; [ST_TP_CMD_READ_ALL_EVENTS]].
Proof.
  cbv zeta. rewrite st_tp_write_hid_report_cases. cbv zeta.
  set (w1 := snd (st_tp_read_host_buffer_header spi_device w)).
  intros H1 H2 Hflag.
  rewrite Hflag. cbn [Z.eqb negb]. rewrite andb_true_r.
  change (fst (st_tp_read_host_buffer_header spi_device w))
    with (reply_ret (spi_device (spi_log w)
                       [ST_TP_CMD_READ_SPI_HOST_BUFFER; 0; 0]
                       (ST_TP_DUMMY_BYTE + sizeof_buffer_header))).
  rewrite H1. cbn [Z.eqb negb].
  assert (P1 : touchpad_reports w1 = touchpad_reports w) by reflexivity.
  assert (S1 : system_state w1 = system_state w) by reflexivity.
  assert (L1 : spi_log w1
               = spi_log w ++ [[ST_TP_CMD_READ_SPI_HOST_BUFFER; 0; 0]])
    by reflexivity.
  clearbody w1.
  destruct (st_tp_read_all_events_world w1) as (c & e & W3).
  destruct (st_tp_read_all_events_ok w1) as (Hn & _ & Hlog).
  { rewrite L1. exact H2. }
  unfold spi_transaction in W3. cbn [snd] in W3.
  remember (st_tp_read_all_events spi_device w1) as ev eqn:Eev.
  clear Eev.
  destruct (Z.ltb_spec (fst ev) 0) as [N | N]; [lia|].
  pose proof (hid_report_loop_world (Z.to_nat (fst ev)) 0
                (repeat zero_finger (Z.to_nat MAX_FINGERS)) 0 (snd ev)) as I2.
  pose proof (hid_report_loop_no_pointer (Z.to_nat (fst ev)) 0
                (repeat zero_finger (Z.to_nat MAX_FINGERS)) 0 (snd ev)) as F.
  remember (hid_report_loop (Z.to_nat (fst ev)) 0
              (repeat zero_finger (Z.to_nat MAX_FINGERS)) 0 (snd ev))
    as lp eqn:Elp.
  clear Elp.
  intros Hquiet.
  assert (E : forall j, 0 <= j < 32 ->
                        is_pointer_event (event_at (snd ev) j) = false).
  { intros j Hj. specialize (Hquiet j Hj).
    destruct (snd (fst lp) =? 0); cbn [snd] in Hquiet;
      rewrite I2 in Hquiet; exact Hquiet. }
  rewrite F by (intros j Hj; apply E; lia).
  cbn [fst snd Z.eqb].
  split; [reflexivity|].
  rewrite I2.
  cbn [touchpad_reports system_state spi_log set_events_examined].
  rewrite Hlog, L1, <- app_assoc. rewrite W3.
  cbn [touchpad_reports system_state spi_log set_events_examined set_console
       set_rx_buf set_spi_log].
  rewrite P1, S1.
  repeat split.
Qed.

(** X10: with the EC convention that error codes are positive,
    [st_tp_write_hid_report] reads only records 0 .. 31 of [rx_buf]: the
    finger loop stays below the count [st_tp_read_all_events] returned. *)
Theorem st_tp_write_hid_report_events_in_bounds (w : world) :
  let header_frame := [ST_TP_CMD_READ_SPI_HOST_BUFFER; 0; 0] in
  let events_ret :=
    reply_ret (spi_device (spi_log w ++ [header_frame])
                 [ST_TP_CMD_READ_ALL_EVENTS] (32 * 8 + ST_TP_DUMMY_BYTE)) in
  let w' := snd (st_tp_write_hid_report spi_device w) in
  0 <= events_ret ->
  exists examined,
    events_examined w' = events_examined w ++ examined /\
    Forall (fun i => 0 <= i < 32) examined.
Proof.
  cbv zeta. rewrite st_tp_write_hid_report_cases. cbv zeta.
  set (w1 := snd (st_tp_read_host_buffer_header spi_device w)).
  set (chg := negb (Z.land (buffer_header_flags (rx_union w1))
                           ST_TP_BUFFER_HEADER_DOMESWITCH_CHG =? 0)).
  set (w2 := if chg then _ else w1).
  intros Hpos.
  assert (L2 : spi_log w2 = spi_log w ++ [[ST_TP_CMD_READ_SPI_HOST_BUFFER; 0; 0]]
               /\ events_examined w2 = events_examined w).
  { subst w2. destruct chg; split; reflexivity. }
  destruct L2 as (L2 & X2).
  clearbody w2.
  destruct (negb (fst (st_tp_read_host_buffer_header spi_device w) =? 0)).
  { exists []. split; [symmetry; apply app_nil_r | constructor]. }
  destruct (Z.eq_dec
              (reply_ret (spi_device (spi_log w2) [ST_TP_CMD_READ_ALL_EVENTS]
                            (32 * 8 + ST_TP_DUMMY_BYTE))) 0) as [H2 | H2].
  - destruct (st_tp_read_all_events_ok w2 H2) as (Hn & Hex & _).
    rewrite X2 in Hex.
    remember (st_tp_read_all_events spi_device w2) as ev eqn:Eev.
    clear Eev.
    destruct (Z.ltb_spec (fst ev) 0) as [N | N]; [lia|].
    pose proof (hid_report_loop_world (Z.to_nat (fst ev)) 0
                  (repeat zero_finger (Z.to_nat MAX_FINGERS)) 0 (snd ev))
      as I2.
    remember (hid_report_loop (Z.to_nat (fst ev)) 0
                (repeat zero_finger (Z.to_nat MAX_FINGERS)) 0 (snd ev))
      as lp eqn:Elp.
    clear Elp.
    assert (X4 : events_examined (snd lp)
                 = events_examined w ++
                   (zrange (Z.min (fst ev + 1) 32) ++
                    zseq 0 (Z.to_nat (fst ev)))).
    { rewrite I2. cbn [events_examined set_events_examined].
      rewrite Hex, <- app_assoc. reflexivity. }
    eexists. split.
    + destruct ((snd (fst lp) =? 0) && negb chg); cbn [snd]; exact X4.
    + apply Forall_forall. intros i Hi. apply in_app_or in Hi.
      unfold zrange in Hi.
      destruct Hi as [Hi | Hi]; apply zseq_in_range in Hi; lia.
  - (* the event read failed *)
    rewrite (st_tp_read_all_events_failed w2 H2). cbn [fst snd].
    rewrite L2 in H2 |- *.
    destruct (Z.ltb_spec (- reply_ret (spi_device
                               (spi_log w ++
                                [[ST_TP_CMD_READ_SPI_HOST_BUFFER; 0; 0]])
                               [ST_TP_CMD_READ_ALL_EVENTS]
                               (32 * 8 + ST_TP_DUMMY_BYTE))) 0) as [N | N];
      [|lia].
    exists []. cbn [snd]. split; [|constructor].
    rewrite app_nil_r. unfold spi_transaction.
    cbn [snd events_examined set_rx_buf set_spi_log]. exact X2.
Qed.

(** ** Heat map frames *)

Lemma zseq_length (start : Z) (len : nat) : length (zseq start len) = len.
Proof.
  revert start. induction len as [|len IH]; intros start; simpl; auto.
Qed.

Lemma s16_small (x : Z) : 0 <= x < 32768 -> s16 x = x.
Proof. intros H. unfold s16. rewrite Z.mod_small; lia. Qed.

Lemma s16_range (x : Z) : -32768 <= s16 x < 32768.
Proof.
  unfold s16. pose proof (Z.mod_pos_bound (x + 32768) 65536 ltac:(lia)). lia.
Qed.

(** A scaled pixel fits a byte and is zero or at least the threshold. *)
Lemma scale_pixel_range (lo hi : Z) :
  0 <= scale_pixel lo hi <= 255 /\
  (scale_pixel lo hi = 0 \/ ST_TP_HEAT_MAP_THRESHOLD <= scale_pixel lo hi).
Proof.
  unfold scale_pixel.
  pose proof (s16_range (Z.lor lo (Z.shiftl hi 8))) as R1.
  set (v1 := s16 (Z.lor lo (Z.shiftl hi 8))) in *.
  rewrite (s16_small (Z.max 0 v1)) by lia.
  assert (R2 : 0 <= Z.shiftr (Z.max 0 v1) (BITS_PER_PIXEL - 8)).
  { apply Z.shiftr_nonneg. lia. }
  rewrite (s16_small (Z.min _ 255)) by lia.
  destruct (Z.ltb_spec (Z.min (Z.shiftr (Z.max 0 v1) (BITS_PER_PIXEL - 8)) 255)
              ST_TP_HEAT_MAP_THRESHOLD); lia.
Qed.

Lemma lor_byte_range (a b : Z) :
  0 <= a < 256 -> 0 <= b < 256 -> 0 <= Z.lor a b < 256.
Proof.
  intros Ha Hb.
  assert (N : 0 <= Z.lor a b) by (apply Z.lor_nonneg; lia).
  split; [exact N|].
  destruct (Z.eq_dec (Z.lor a b) 0) as [-> | Hne]; [lia|].
  change 256 with (2 ^ 8). apply Z.log2_lt_pow2; [lia|].
  rewrite Z.log2_lor by lia.
  destruct (Z.eq_dec a 0) as [-> | Na];
    destruct (Z.eq_dec b 0) as [-> | Nb]; cbn [Z.log2];
    try (pose proof (proj1 (Z.log2_lt_pow2 a 8 ltac:(lia)) ltac:(simpl; lia)));
    try (pose proof (proj1 (Z.log2_lt_pow2 b 8 ltac:(lia)) ltac:(simpl; lia)));
    lia.
Qed.

(** [max_value] is zero exactly when every pixel is. *)
Lemma max_value_zero (pixels : list Z) :
  forall m, 0 <= m < 256 ->
  Forall (fun p => 0 <= p <= 255) pixels ->
  0 <= fold_left (fun m v => u8 (Z.lor m v)) pixels m < 256 /\
  (fold_left (fun m v => u8 (Z.lor m v)) pixels m = 0 <->
   m = 0 /\ Forall (fun p => p = 0) pixels).
Proof.
  induction pixels as [|p rest IH]; intros m Hm Hp; cbn [fold_left].
  - split; [exact Hm|]. split; [intros ->; auto | intros [-> _]; auto].
  - inversion Hp as [|? ? Hp1 Hp2]; subst.
    pose proof (lor_byte_range m p Hm ltac:(lia)) as R.
    assert (U : u8 (Z.lor m p) = Z.lor m p).
    { unfold u8. apply Z.mod_small. exact R. }
    rewrite U. destruct (IH (Z.lor m p) R Hp2) as (I1 & I2).
    split; [exact I1|]. rewrite I2. rewrite Z.lor_eq_0_iff.
    split.
    + intros [[-> ->] Hz]. auto.
    + intros [-> Hz]. inversion Hz; subst. auto.
Qed.

(** X11: a successful read of the heat map leaves in the slot
    [spi_buffer_index & 1] one byte per cell, each between 0 and 255 and
    either 0 or at least [ST_TP_HEAT_MAP_THRESHOLD], and leaves the other
    slot alone.  The result is -1 exactly when every pixel is zero (the
    slot is overwritten all the same) and [EC_SUCCESS] otherwise. *)
Theorem st_tp_read_frame_pixels (w : world) :
  let r := fst (st_tp_read_frame spi_device w) in
  let w' := snd (st_tp_read_frame spi_device w) in
  let slot := Z.land (spi_buffer_index w) 1 in
  let pixels := usb_packet_frame w' slot in
  0 <= get_heat_map_addr w ->
  reply_ret (spi_device (spi_log w) (read_frame_command w)
               (sizeof_heat_map + ST_TP_DUMMY_BYTE)) = EC_SUCCESS ->
  length pixels = Z.to_nat (ST_TOUCH_COLS * ST_TOUCH_ROWS) /\
  Forall (fun p => 0 <= p <= 255 /\
                   (p = 0 \/ ST_TP_HEAT_MAP_THRESHOLD <= p)) pixels /\
  (forall k, k <> slot -> usb_packet_frame w' k = usb_packet_frame w k) /\
  (r = -1 \/ r = EC_SUCCESS) /\
  (r = -1 <-> Forall (fun p => p = 0) pixels) /\
  spi_log w' = spi_log w ++ [read_frame_command w].
Proof.
  cbv zeta. intros Haddr Hok.
  unfold st_tp_read_frame, read_frame_command in *.
  destruct (Z.ltb_spec (get_heat_map_addr w) 0) as [N | _]; [lia|].
  unfold spi_transaction. rewrite Hok. cbn [Z.eqb EC_SUCCESS fst snd].
  cbn [spi_buffer_index set_rx_buf set_spi_log].
  set (w1 := set_rx_buf _ _).
  set (pixels := map _ (zrange (ST_TOUCH_COLS * ST_TOUCH_ROWS))).
  assert (P : Forall (fun p => 0 <= p <= 255 /\
                               (p = 0 \/ ST_TP_HEAT_MAP_THRESHOLD <= p))
                pixels).
  { subst pixels. apply Forall_forall. intros p Hp.
    apply in_map_iff in Hp. destruct Hp as (i & <- & _).
    pose proof (scale_pixel_range
                  (heat_map_frame (rx_union w1) (i * 2))
                  (heat_map_frame (rx_union w1) (i * 2 + 1))) as R.
    unfold u8. rewrite Z.mod_small by lia. exact R. }
  assert (P' : Forall (fun p => 0 <= p <= 255) pixels).
  { eapply Forall_impl; [|exact P]. cbv beta. intros. lia. }
  destruct (max_value_zero pixels 0 ltac:(lia) P') as (_ & M).
  assert (L : length pixels = Z.to_nat (ST_TOUCH_COLS * ST_TOUCH_ROWS)).
  { subst pixels. rewrite length_map. apply zseq_length. }
  destruct (fold_left (fun m v => u8 (Z.lor m v)) pixels 0 =? 0) eqn:E;
    cbn [fst snd usb_packet_frame set_usb_packet_frame spi_log];
    rewrite Z.eqb_refl; eqb_hyps.
  - split; [exact L|]. split; [exact P|].
    split; [intros k Hk; apply Z.eqb_neq in Hk; rewrite Hk; reflexivity|].
    split; [auto|]. split; [|reflexivity].
    split; [intros _; apply M; exact E | auto].
  - split; [exact L|]. split; [exact P|].
    split; [intros k Hk; apply Z.eqb_neq in Hk; rewrite Hk; reflexivity|].
    split; [auto|]. split; [|reflexivity].
    split; [discriminate|]. intros Hz. exfalso. apply E. apply M. auto.
Qed.

Lemma st_tp_read_frame_unknown (w : world) :
  get_heat_map_addr w < 0 -> st_tp_read_frame spi_device w = (EC_SUCCESS, w).
Proof.
  intros H. unfold st_tp_read_frame.
  destruct (Z.ltb_spec (get_heat_map_addr w) 0); [reflexivity | lia].
Qed.

(** X12: with a firmware release the driver does not know (neither 1 nor
    3 and above), [st_tp_read_frame] sends nothing and stores nothing but
    reports [EC_SUCCESS]; so in heat map mode [st_tp_read_report]
    publishes the slot as a new frame, with its old contents: it advances
    [spi_buffer_index] while only the acknowledge went over the bus. *)
Theorem st_tp_read_report_unknown_version (w : world) :
  let w' := snd (st_tp_read_report spi_device w) in
  release_info w < 3 -> release_info w <> 1 ->
  Z.land (system_state w) SYSTEM_STATE_ENABLE_HEAT_MAP <> 0 ->
  buffer_gap w <= 1 ->
  st_tp_read_frame spi_device w = (EC_SUCCESS, w) /\
  spi_buffer_index w' = u32 (spi_buffer_index w + 1) /\
  usb_packet_frame w' = usb_packet_frame w /\
  rx_buf w' = rx_buf w /\
  spi_log w' = spi_log w ++ [[ST_TP_CMD_SPI_HOST_BUFFER_ACK]].
Proof.
  cbv zeta. intros Hrel Hrel1 Hheat Hgap.
  assert (A : get_heat_map_addr w < 0).
  { unfold get_heat_map_addr.
    destruct (Z.geb_spec (release_info w) 3); [lia|].
    destruct (Z.eqb_spec (release_info w) 1); lia. }
  pose proof (st_tp_read_frame_unknown w A) as F.
  split; [exact F|].
  unfold st_tp_read_report, bind, heat_map_capture.
  apply Z.eqb_neq in Hheat. rewrite Hheat. cbn [negb].
  unfold buffer_gap in Hgap. apply Z.leb_le in Hgap. rewrite Hgap.
  rewrite F. cbn [Z.eqb EC_SUCCESS].
  set (w2 := set_spi_buffer_index (u32 (spi_buffer_index w + 1)) w).
  destruct (print_frame_world w2) as (c & Pw).
  unfold st_tp_send_ack, hook_call_deferred, modify, spi_transaction.
  destruct (negb (Z.land (system_state w2) SYSTEM_STATE_DEBUG_MODE =? 0));
    [rewrite Pw|]; repeat break_if; cbn; auto.
Qed.

(** X13: [heatmap_send_packet] keeps [transmit_report_offset] inside the
    packet, provided the USB stack never reports more bytes than it was
    given.  When the header write does not return 2 the result is -1;
    when the data write returns a negative value that value is the
    result; either way neither the offset nor the read index moves.
    Otherwise the result is 0 and the offset advances by exactly what the
    data write returned, unless that completes the packet: then, and
    only then, the offset is reset and [usb_buffer_index] advances by
    one.  The new-frame flag is set exactly for the first packet of a
    frame, and the frame buffers are only read. *)
Theorem heatmap_send_packet_offset
    (usb_isochronous_write_buffer : list Z -> Z -> Z -> Z -> Z) (w : world) :
  let size := sizeof_usb_packet in
  let offset := transmit_report_offset w in
  let packet := 0 :: usb_packet_frame w (Z.land (usb_buffer_index w) 1) in
  let flags := if offset =? 0 then HEADER_FLAGS_NEW_FRAME else 0 in
  let header_sent :=
    usb_isochronous_write_buffer [packet_header_index w; flags] 2 0 0 in
  let sent :=
    usb_isochronous_write_buffer (skipn (Z.to_nat offset) packet)
      (size - offset) 2 1 in
  let r := fst (heatmap_send_packet usb_isochronous_write_buffer w) in
  let w' := snd (heatmap_send_packet usb_isochronous_write_buffer w) in
  0 < size < 4294967296 ->
  0 <= offset < size ->
  (forall data n offset last,
      usb_isochronous_write_buffer data n offset last <= n) ->
  0 <= transmit_report_offset w' < size /\
  (header_sent <> 2 ->
   r = -1 /\ transmit_report_offset w' = offset /\
   usb_buffer_index w' = usb_buffer_index w) /\
  (header_sent = 2 -> sent < 0 ->
   r = sent /\ transmit_report_offset w' = offset /\
   usb_buffer_index w' = usb_buffer_index w) /\
  (header_sent = 2 -> 0 <= sent ->
   r = 0 /\
   ((offset + sent < size /\
     transmit_report_offset w' = offset + sent /\
     usb_buffer_index w' = usb_buffer_index w) \/
    (offset + sent = size /\
     transmit_report_offset w' = 0 /\
     usb_buffer_index w' = u32 (usb_buffer_index w + 1)))) /\
  (r <> 0 ->
   transmit_report_offset w' = offset /\
   usb_buffer_index w' = usb_buffer_index w) /\
  packet_header_flags w' = flags /\
  usb_packet_frame w' = usb_packet_frame w /\
  spi_buffer_index w' = spi_buffer_index w.
Proof.
  cbv zeta. intros Hsize Hoff Husb.
  unfold heatmap_send_packet. cbv zeta.
  cbn [transmit_report_offset set_packet_header_flags].
  rewrite (u32_small (sizeof_usb_packet - transmit_report_offset w)) by lia.
  destruct (Z.gtb_spec (sizeof_usb_packet - transmit_report_offset w) 0)
    as [_ | N]; [|lia].
  set (w1 := if transmit_report_offset w =? 0 then _ else _).
  assert (W1 : transmit_report_offset w1 = transmit_report_offset w /\
               usb_buffer_index w1 = usb_buffer_index w /\
               usb_packet_frame w1 = usb_packet_frame w /\
               spi_buffer_index w1 = spi_buffer_index w /\
               packet_header_index w1 = packet_header_index w /\
               packet_header_flags w1
               = if transmit_report_offset w =? 0
                 then HEADER_FLAGS_NEW_FRAME else 0).
  { subst w1. destruct (transmit_report_offset w =? 0); repeat split. }
  destruct W1 as (T1 & U1 & F1 & S1 & P1 & G1).
  clearbody w1. rewrite P1, G1.
  set (flags := if transmit_report_offset w =? 0
                then HEADER_FLAGS_NEW_FRAME else 0) in *.
  set (header_sent := usb_isochronous_write_buffer
                        [packet_header_index w; flags] 2 0 0).
  destruct (Z.eqb_spec header_sent 2) as [E1 | E1]; cbn [negb fst snd].
  2: { repeat split; try lia; auto; intros; try contradiction;
       try discriminate. }
  rewrite E1.
  cbn [transmit_report_offset usb_buffer_index packet_header_index
       packet_header_flags set_packet_header_index].
  rewrite T1.
  pose proof (Husb (skipn (Z.to_nat (transmit_report_offset w))
                      (0 :: usb_packet_frame w
                              (Z.land (usb_buffer_index w) 1)))
                (sizeof_usb_packet - transmit_report_offset w) 2 1) as Hle.
  set (sent := usb_isochronous_write_buffer _ _ 2 1) in *.
  destruct (Z.ltb_spec sent 0) as [Neg | Pos].
  { unfold cprints, modify. cbn [fst snd transmit_report_offset
      usb_buffer_index packet_header_flags usb_packet_frame spi_buffer_index
      set_console set_packet_header_index].
    repeat split; try lia; auto; intros; try contradiction; lia. }
  cbn [transmit_report_offset usb_buffer_index packet_header_flags
       usb_packet_frame spi_buffer_index set_transmit_report_offset
       set_packet_header_index].
  rewrite (u32_small (transmit_report_offset w + sent)) by lia.
  destruct (Z.eqb_spec (transmit_report_offset w + sent) sizeof_usb_packet)
    as [Full | Part];
    cbn [fst snd transmit_report_offset usb_buffer_index packet_header_flags
         usb_packet_frame spi_buffer_index set_transmit_report_offset
         set_usb_buffer_index set_packet_header_index].
  - split; [lia|]. split; [intros; contradiction|].
    split; [intros; lia|].
    split; [intros _ _; split; [reflexivity|]; right; rewrite U1; auto|].
    split; [intros H; contradiction H; reflexivity|]. auto.
  - split; [lia|]. split; [intros; contradiction|].
    split; [intros; lia|].
    split; [intros _ _; split; [reflexivity|]; left;
            split; [lia|]; auto|].
    split; [intros H; contradiction H; reflexivity|]. auto.
Qed.

(** ** The interrupt handler always acknowledges *)

Lemma extends_log_hid_report_loop todo i fingers n :
  extends_log (hid_report_loop todo i fingers n).
Proof.
  intros w. exists []. rewrite hid_report_loop_world.
  symmetry. apply app_nil_r.
Qed.

Lemma extends_log_write_hid_report :
  extends_log (st_tp_write_hid_report spi_device).
Proof.
  unfold st_tp_write_hid_report, st_tp_read_host_buffer_header.
  apply extends_log_bind; [auto with buslog|]. intros r.
  destruct (negb (r =? 0)); [auto with buslog|].
  apply extends_log_bind.
  { intros w. exists []. destruct (negb _); symmetry; apply app_nil_r. }
  intros changed.
  apply extends_log_bind; [apply extends_log_read_all_events|].
  intros num_events. destruct (num_events <? 0); [auto with buslog|].
  apply extends_log_bind; [apply extends_log_hid_report_loop|].
  intros [fingers num_finger].
  destruct (_ && _); [auto with buslog|].
  intros w. exists []. symmetry. apply app_nil_r.
Qed.

Lemma extends_log_read_frame : extends_log (st_tp_read_frame spi_device).
Proof.
  intros w. unfold st_tp_read_frame, spi_transaction.
  repeat (break_if; cbn [fst snd spi_log set_usb_packet_frame set_rx_buf
                         set_spi_log]);
    solve [ eexists; reflexivity | exists []; symmetry; apply app_nil_r ].
Qed.

Lemma extends_log_heat_map_capture :
  extends_log (heat_map_capture spi_device).
Proof.
  intros w. unfold heat_map_capture.
  destruct (_ <=? 1); [|exists []; symmetry; apply app_nil_r].
  destruct (extends_log_read_frame w) as (frames & Hf).
  destruct (st_tp_read_frame spi_device w) as [r w1]. cbn [snd] in Hf.
  destruct (r =? EC_SUCCESS); [|exists frames; exact Hf].
  set (w2 := set_spi_buffer_index _ w1).
  destruct (negb _); [|exists frames; exact Hf].
  destruct (print_frame_world w2) as (c & ->).
  exists frames. exact Hf.
Qed.

Lemma extends_log_read_report_body :
  extends_log
    (fun w =>
       if negb (Z.land (system_state w) SYSTEM_STATE_ENABLE_HEAT_MAP =? 0)
       then bind (heat_map_capture spi_device)
              (fun _ w1 =>
                 if spi_buffer_index w1 >? usb_buffer_index w1
                 then hook_call_deferred st_tp_interrupt_send_data w1
                 else (tt, w1)) w
       else bind (st_tp_write_hid_report spi_device) (fun _ => pure tt) w).
Proof.
  intros w. destruct (negb _).
  - apply (extends_log_bind (heat_map_capture spi_device));
      [apply extends_log_heat_map_capture|].
    intros _ w1. exists [].
    destruct (_ >? _); symmetry; apply app_nil_r.
  - apply (extends_log_bind (st_tp_write_hid_report spi_device));
      [apply extends_log_write_hid_report | auto with buslog].
Qed.

(** X14: [st_tp_read_report] ends every call with the host buffer
    acknowledge, in heat map mode and in report mode, whether a frame was
    captured or skipped and whatever went wrong before; its result is the
    return code of that acknowledge alone, so an error of
    [st_tp_write_hid_report] is not passed on. *)
Theorem st_tp_read_report_acknowledges (w : world) :
  let r := fst (st_tp_read_report spi_device w) in
  let w' := snd (st_tp_read_report spi_device w) in
  exists before,
    spi_log w' = spi_log w ++ before ++ [[ST_TP_CMD_SPI_HOST_BUFFER_ACK]] /\
    r = reply_ret (spi_device (spi_log w ++ before)
                     [ST_TP_CMD_SPI_HOST_BUFFER_ACK] 0).
Proof.
  cbv zeta.
  destruct (extends_log_read_report_body w) as (before & Hb).
  exists before. revert Hb.
  unfold st_tp_read_report, bind, st_tp_send_ack, spi_transaction, pure.
  destruct (negb (Z.land (system_state w) SYSTEM_STATE_ENABLE_HEAT_MAP =? 0)).
  - destruct (heat_map_capture spi_device w) as [u w1].
    destruct (spi_buffer_index w1 >? usb_buffer_index w1);
      cbn [fst snd spi_log set_rx_buf set_spi_log hook_call_deferred modify
           set_deferred_calls];
      unfold hook_call_deferred, modify;
      cbn [fst snd spi_log set_rx_buf set_spi_log set_deferred_calls];
      intros ->; rewrite <- app_assoc; auto.
  - destruct (st_tp_write_hid_report spi_device w) as [u w1].
    cbn [fst snd spi_log set_rx_buf set_spi_log].
    intros ->. rewrite <- app_assoc. auto.
Qed.

(** X15: [st_tp_disable_heat_map] does nothing at all when heat map mode
    is off.  When it is on, it sends exactly one frame, the feature
    select with the heat map off and the dome switch as it is, and never
    a scan mode command; the heat map bit is cleared exactly when that
    frame succeeded, and no other bit of [system_state] changes. *)
Theorem st_tp_disable_heat_map_spec (w : world) :
  let w' := snd (st_tp_disable_heat_map spi_device w) in
  let s := system_state w in
  let frame := [ST_TP_CMD_WRITE_FEATURE_SELECT; 5;
                if Z.land s SYSTEM_STATE_ENABLE_DOME_SWITCH =? 0
                then 0 else 2] in
  (Z.land s SYSTEM_STATE_ENABLE_HEAT_MAP = 0 -> w' = w) /\
  (Z.land s SYSTEM_STATE_ENABLE_HEAT_MAP <> 0 ->
   spi_log w' = spi_log w ++ [frame] /\
   (reply_ret (spi_device (spi_log w) frame 0) = 0 ->
    system_state w' = Z.land s (Z.lnot SYSTEM_STATE_ENABLE_HEAT_MAP)) /\
   (reply_ret (spi_device (spi_log w) frame 0) <> 0 ->
    system_state w' = s)).
Proof.
  cbv zeta. unfold st_tp_disable_heat_map, bind, st_tp_update_system_state.
  state_constants.
  set (n := set_bits 0 (system_state w) (Z.lnot 2)).
  assert (N1 : Z.land n 1 = Z.land (system_state w) 1).
  { subst n. assert (D : Z.land 2 1 = 0) by reflexivity. bitblast. }
  assert (N8 : Z.land n 8 = Z.land (system_state w) 8).
  { subst n. assert (D : Z.land 2 8 = 0) by reflexivity. bitblast. }
  assert (N2 : Z.land n 2 = 0).
  { subst n. bitblast. }
  assert (N4 : Z.land n 4 = Z.land (system_state w) 4).
  { subst n. assert (D : Z.land 2 4 = 0) by reflexivity. bitblast. }
  assert (F : feature_select_frame n
              = [ST_TP_CMD_WRITE_FEATURE_SELECT; 5;
                 if Z.land (system_state w) 4 =? 0 then 0 else 2]).
  { unfold feature_select_frame. state_constants. rewrite N2, N4.
    reflexivity. }
  assert (C : set_bits (system_state w) n 6
              = Z.land (system_state w) (Z.lnot 2)).
  { subst n. assert (D : Z.land 6 2 = 2) by reflexivity. bitblast. }
  unfold bind. rewrite (update_debug_mode_noop n w N1).
  split.
  - intros H.
    assert (N6 : Z.land n 6 = Z.land (system_state w) 6).
    { subst n. assert (D : Z.land 6 2 = 2) by reflexivity. bitblast. }
    rewrite (update_feature_select_noop n w N6).
    cbn [fst snd Z.eqb negb EC_SUCCESS].
    rewrite (update_active_mode_noop n w N8). reflexivity.
  - intros H.
    assert (N6 : Z.land n 6 <> Z.land (system_state w) 6).
    { intros E. apply H.
      assert (E2 : Z.land (Z.land n 6) 2 = Z.land (Z.land (system_state w) 6) 2)
        by (rewrite E; reflexivity).
      rewrite <- !Z.land_assoc in E2. change (Z.land 6 2) with 2 in E2.
      rewrite N2 in E2. symmetry. exact E2. }
    unfold update_feature_select. state_constants.
    apply Z.eqb_neq in N6. rewrite N6. cbn [negb]. rewrite N2, F.
    cbn [Z.eqb]. unfold spi_transaction.
    destruct (negb (reply_ret
                      (spi_device (spi_log w)
                         [ST_TP_CMD_WRITE_FEATURE_SELECT; 5;
                          if Z.land (system_state w) 4 =? 0 then 0 else 2] 0)
                    =? 0)) eqn:R; cbn [fst snd]; rewrite ?R; cbn [negb];
      eqb_hyps.
    + unfold pure. cbn [fst snd spi_log system_state set_rx_buf set_spi_log].
      split; [reflexivity|]. split; [intros; contradiction | reflexivity].
    + assert (A : update_active_mode spi_device n
                    (set_system_state
                       (set_bits (system_state w) n 6)
                       (snd (spi_transaction spi_device
                               [ST_TP_CMD_WRITE_FEATURE_SELECT; 5;
                                if Z.land (system_state w) 4 =? 0
                                then 0 else 2] 0 w)))
                  = (EC_SUCCESS,
                     set_system_state
                       (set_bits (system_state w) n 6)
                       (snd (spi_transaction spi_device
                               [ST_TP_CMD_WRITE_FEATURE_SELECT; 5;
                                if Z.land (system_state w) 4 =? 0
                                then 0 else 2] 0 w)))).
      { apply update_active_mode_noop.
        cbn [system_state set_system_state]. rewrite set_bits_disjoint;
          [exact N8 | reflexivity]. }
      unfold spi_transaction in A. cbn [snd] in A.
      cbn [system_state set_rx_buf set_spi_log] in *.
      rewrite A. cbn [fst snd Z.eqb negb EC_SUCCESS].
      unfold update_locked_scan_mode, pure.
      cbn [Z.eqb negb fst snd spi_log system_state set_system_state
           set_rx_buf set_spi_log].
      split; [reflexivity|]. split; [intros _; exact C|].
      intros; contradiction.
Qed.

(** ** Firmware update: waiting, erasing, writing *)

Lemma wait_for_flash_ready_loop_spec (retry : nat) (type : Z) :
  forall w : world,
  let r := fst (wait_for_flash_ready_loop spi_device retry type w) in
  let w' := snd (wait_for_flash_ready_loop spi_device retry type w) in
  exists polls, (polls <= retry)%nat /\
    spi_log w' = spi_log w ++ repeat (flash_ready_frame type) polls /\
    ((r = EC_SUCCESS /\ (1 <= polls)%nat /\
      Z.land (nth 0 (rx_union w') 0) 128 = 0 /\
      reply_ret (spi_device
                   (spi_log w ++ repeat (flash_ready_frame type) (polls - 1))
                   (flash_ready_frame type) 2) = EC_SUCCESS /\
      slept_ms w' = slept_ms w + 50 * (Z.of_nat polls - 1)) \/
     (r = EC_ERROR_TIMEOUT /\ polls = retry /\
      slept_ms w' = slept_ms w + 50 * Z.of_nat retry)).
Proof.
  induction retry as [|retry IH]; intros w; cbv zeta.
  - exists 0%nat. cbn. rewrite app_nil_r. split; [lia|].
    split; [reflexivity|]. right. split; [reflexivity|].
    split; [reflexivity | lia].
  - set (r0 := reply_ret (spi_device (spi_log w) (flash_ready_frame type) 2)).
    set (w1 := snd (spi_transaction spi_device (flash_ready_frame type) 2 w)).
    assert (E : wait_for_flash_ready_loop spi_device (S retry) type w
                = if (r0 =? EC_SUCCESS) &&
                     (Z.land (nth 0 (rx_union w1) 0) 128 =? 0)
                  then (r0, w1)
                  else wait_for_flash_ready_loop spi_device retry type
                         (set_slept_ms (slept_ms w1 + 50) w1))
      by reflexivity.
    rewrite E. clear E.
    assert (L : spi_log w1 = spi_log w ++ [flash_ready_frame type])
      by reflexivity.
    assert (S1 : slept_ms w1 = slept_ms w) by reflexivity.
    clearbody w1.
    destruct ((r0 =? EC_SUCCESS) &&
              (Z.land (nth 0 (rx_union w1) 0) 128 =? 0)) eqn:C.
    + apply andb_true_iff in C. destruct C as [Hr Hb]. eqb_hyps.
      exists 1%nat. cbn [fst snd repeat Nat.sub].
      split; [lia|]. split; [exact L|]. left.
      rewrite app_nil_r. repeat split; auto; lia.
    + destruct (IH (set_slept_ms (slept_ms w1 + 50) w1))
        as (k & Hk & Hl & Hres).
      exists (S k). split; [lia|].
      cbn [spi_log slept_ms set_slept_ms] in *.
      split; [rewrite Hl, L, <- app_assoc; reflexivity|].
      destruct Hres as [(R1 & R2 & R3 & R4 & R5) | (R1 & R2 & R3)].
      * left. split; [exact R1|]. split; [lia|]. split; [exact R3|].
        split.
        -- rewrite L, <- app_assoc in R4.
           replace (S k - 1)%nat with (S (k - 1)) by lia. exact R4.
        -- rewrite R5, S1. lia.
      * right. split; [exact R1|]. split; [lia|]. rewrite R3, S1. lia.
Qed.

(** X16: [wait_for_flash_ready] polls the status register at most 200
    times, always with the same frame, and returns [EC_SUCCESS] or
    [EC_ERROR_TIMEOUT] and nothing else: a failed transaction is retried
    like a busy flash, and its error code is never returned.  Success
    means the last poll succeeded with the busy bit clear, after 50 ms of
    sleep per earlier poll; the timeout comes after exactly 200 polls and
    10 s of sleep. *)
Theorem wait_for_flash_ready_outcome (type : Z) (w : world) :
  let r := fst (wait_for_flash_ready spi_device type w) in
  let w' := snd (wait_for_flash_ready spi_device type w) in
  exists polls, (polls <= 200)%nat /\
    spi_log w' = spi_log w ++ repeat (flash_ready_frame type) polls /\
    ((r = EC_SUCCESS /\ (1 <= polls)%nat /\
      Z.land (nth 0 (rx_union w') 0) 128 = 0 /\
      reply_ret (spi_device
                   (spi_log w ++ repeat (flash_ready_frame type) (polls - 1))
                   (flash_ready_frame type) 2) = EC_SUCCESS /\
      slept_ms w' = slept_ms w + 50 * (Z.of_nat polls - 1)) \/
     (r = EC_ERROR_TIMEOUT /\ polls = 200%nat /\
      slept_ms w' = slept_ms w + 10000)).
Proof.
  cbv zeta. unfold wait_for_flash_ready.
  destruct (wait_for_flash_ready_loop_spec 200 type w)
    as (polls & Hp & Hl & Hres).
  exists polls. split; [exact Hp|]. split; [exact Hl|].
  destruct Hres as [H | (R1 & R2 & R3)]; [left; exact H|].
  right. split; [exact R1|]. split; [exact R2|]. rewrite R3. reflexivity.
Qed.

(** Three register writes in a row, each checked, then [k]. *)
Lemma checked_writes_outcome (f1 f2 f3 : list Z) (k : M Z) (w : world) :
  let m := bind (spi_transaction spi_device f1 0) (fun r =>
           if negb (r =? 0) then pure r else
           bind (spi_transaction spi_device f2 0) (fun r =>
           if negb (r =? 0) then pure r else
           bind (spi_transaction spi_device f3 0) (fun r =>
           if negb (r =? 0) then pure r else k))) in
  let r1 := reply_ret (spi_device (spi_log w) f1 0) in
  let r2 := reply_ret (spi_device (spi_log w ++ [f1]) f2 0) in
  let r3 := reply_ret (spi_device (spi_log w ++ [f1; f2]) f3 0) in
  (r1 <> 0 /\ fst (m w) = r1 /\ spi_log (snd (m w)) = spi_log w ++ [f1]) \/
  (r1 = 0 /\ r2 <> 0 /\ fst (m w) = r2 /\
   spi_log (snd (m w)) = spi_log w ++ [f1; f2]) \/
  (r1 = 0 /\ r2 = 0 /\ r3 <> 0 /\ fst (m w) = r3 /\
   spi_log (snd (m w)) = spi_log w ++ [f1; f2; f3]) \/
  (r1 = 0 /\ r2 = 0 /\ r3 = 0 /\
   exists w3, spi_log w3 = spi_log w ++ [f1; f2; f3] /\ m w = k w3).
Proof.
  cbv zeta.
  set (w1 := snd (spi_transaction spi_device f1 0 w)).
  set (w2 := snd (spi_transaction spi_device f2 0 w1)).
  set (w3 := snd (spi_transaction spi_device f3 0 w2)).
  assert (L1 : spi_log w1 = spi_log w ++ [f1]) by reflexivity.
  assert (L2 : spi_log w2 = spi_log w ++ [f1; f2]).
  { subst w2. unfold spi_transaction.
    cbn [snd spi_log set_rx_buf set_spi_log].
    rewrite L1, <- app_assoc. reflexivity. }
  assert (L3 : spi_log w3 = spi_log w ++ [f1; f2; f3]).
  { subst w3. unfold spi_transaction.
    cbn [snd spi_log set_rx_buf set_spi_log].
    rewrite L2, <- app_assoc. reflexivity. }
  match goal with
  | |- context [bind ?a ?b w] => set (m := bind a b)
  end.
  assert (E : m w
              = if negb (reply_ret (spi_device (spi_log w) f1 0) =? 0)
                then (reply_ret (spi_device (spi_log w) f1 0), w1)
                else if negb (reply_ret (spi_device (spi_log w1) f2 0) =? 0)
                then (reply_ret (spi_device (spi_log w1) f2 0), w2)
                else if negb (reply_ret (spi_device (spi_log w2) f3 0) =? 0)
                then (reply_ret (spi_device (spi_log w2) f3 0), w3)
                else k w3).
  { subst m w3 w2 w1. unfold bind, pure, spi_transaction. cbn [fst snd].
    repeat (destruct (negb _); [reflexivity|]). reflexivity. }
  rewrite E. clear E. clearbody m w1 w2 w3. rewrite L1, L2.
  destruct (Z.eqb_spec (reply_ret (spi_device (spi_log w) f1 0)) 0)
    as [H1 | H1]; cbn [negb fst snd]; [|left; auto].
  right.
  destruct (Z.eqb_spec (reply_ret (spi_device (spi_log w ++ [f1]) f2 0)) 0)
    as [H2 | H2]; cbn [negb fst snd]; [|left; auto].
  right.
  destruct (Z.eqb_spec (reply_ret (spi_device (spi_log w ++ [f1; f2]) f3 0))
              0) as [H3 | H3]; cbn [negb fst snd]; [|left; auto].
  right. split; [exact H1|]. split; [exact H2|]. split; [exact H3|].
  exists w3. auto.
Qed.

(** X17: [erase_flash] stops at the first register write that fails and
    returns its code, with that write as the last frame on the bus; only
    after three successful writes does it poll the flash, and then it
    returns [EC_SUCCESS] or [EC_ERROR_TIMEOUT]. *)
Theorem erase_flash_outcome (w : world) :
  let r := fst (erase_flash spi_device w) in
  let w' := snd (erase_flash spi_device w) in
  let f1 := [ST_TP_CMD_WRITE_HW_REG] ++ be32 536871208 ++ be32 4294967171 in
  let f2 := [ST_TP_CMD_WRITE_HW_REG] ++ be32 536871019 ++ [0] in
  let f3 := [ST_TP_CMD_WRITE_HW_REG] ++ be32 536871018 ++ [160] in
  let r1 := reply_ret (spi_device (spi_log w) f1 0) in
  let r2 := reply_ret (spi_device (spi_log w ++ [f1]) f2 0) in
  let r3 := reply_ret (spi_device (spi_log w ++ [f1; f2]) f3 0) in
  (r1 <> 0 /\ r = r1 /\ spi_log w' = spi_log w ++ [f1]) \/
  (r1 = 0 /\ r2 <> 0 /\ r = r2 /\ spi_log w' = spi_log w ++ [f1; f2]) \/
  (r1 = 0 /\ r2 = 0 /\ r3 <> 0 /\ r = r3 /\
   spi_log w' = spi_log w ++ [f1; f2; f3]) \/
  (r1 = 0 /\ r2 = 0 /\ r3 = 0 /\
   (r = EC_SUCCESS \/ r = EC_ERROR_TIMEOUT) /\
   exists polls, (polls <= 200)%nat /\
     spi_log w' = spi_log w ++ [f1; f2; f3] ++
                  repeat (flash_ready_frame 106) polls).
Proof.
  cbv zeta.
  destruct (checked_writes_outcome
              ([ST_TP_CMD_WRITE_HW_REG] ++ be32 536871208 ++ be32 4294967171)
              ([ST_TP_CMD_WRITE_HW_REG] ++ be32 536871019 ++ [0])
              ([ST_TP_CMD_WRITE_HW_REG] ++ be32 536871018 ++ [160])
              (wait_for_flash_ready spi_device 106) w)
    as [H | [H | [H | (H1 & H2 & H3 & w3 & L3 & E)]]];
    [left; exact H | right; left; exact H | right; right; left; exact H |].
  right. right. right.
  split; [exact H1|]. split; [exact H2|]. split; [exact H3|].
  change (erase_flash spi_device w)
    with (bind (spi_transaction spi_device
                  ([ST_TP_CMD_WRITE_HW_REG] ++ be32 536871208 ++
                   be32 4294967171) 0) (fun r =>
          if negb (r =? 0) then pure r else
          bind (spi_transaction spi_device
                  ([ST_TP_CMD_WRITE_HW_REG] ++ be32 536871019 ++ [0]) 0)
            (fun r =>
          if negb (r =? 0) then pure r else
          bind (spi_transaction spi_device
                  ([ST_TP_CMD_WRITE_HW_REG] ++ be32 536871018 ++ [160]) 0)
            (fun r =>
          if negb (r =? 0) then pure r else
          wait_for_flash_ready spi_device 106))) w).
  rewrite E.
  destruct (wait_for_flash_ready_loop_spec 200 106 w3)
    as (polls & Hp & Hl & Hres).
  unfold wait_for_flash_ready. split.
  - destruct Hres as [(R & _) | (R & _)]; auto.
  - exists polls. split; [exact Hp|]. rewrite Hl, L3, <- app_assoc.
    reflexivity.
Qed.

Lemma write_flash_chunks_failure (fuel : nat) :
  forall (data : list Z) (tail head addr fbs : Z) (w : world)
         r head' fbs' w',
  write_flash_chunks spi_device fuel data tail head addr fbs w
    = Some (r, head', fbs', w') ->
  exists frames,
    spi_log w' = spi_log w ++ frames /\
    (r <> 0 ->
     exists before f,
       frames = before ++ [f] /\
       r = reply_ret (spi_device (spi_log w ++ before) f 0)).
Proof.
  induction fuel as [|fuel IH]; intros data tail head addr fbs w
    r head' fbs' w' E; [discriminate|].
  cbn [write_flash_chunks] in E.
  destruct (fbs <? ST_TP_FLASH_BUFFER_SIZE).
  - unfold st_tp_write_one_chunk, spi_transaction in E.
    set (c := u32 (Z.min ST_TP_DMA_CHUNK_SIZE (tail - head))) in *.
    set (f := chunk_frame data head addr c) in *.
    set (w1 := set_rx_buf _ _) in *.
    assert (L1 : spi_log w1 = spi_log w ++ [f]) by reflexivity.
    clearbody w1.
    destruct (negb (reply_ret (spi_device (spi_log w) f 0) =? 0)) eqn:R.
    + inversion E; subst. exists [f]. split; [exact L1|].
      intros _. exists [], f. rewrite app_nil_r. auto.
    + destruct (head + c >=? tail).
      * inversion E; subst. exists [f]. split; [exact L1|].
        intros H. contradiction H. reflexivity.
      * apply IH in E. destruct E as (frames & Lf & Hf).
        exists (f :: frames). split.
        { rewrite Lf, L1, <- app_assoc. reflexivity. }
        intros Hr. destruct (Hf Hr) as (before & g & -> & Hg).
        exists (f :: before), g. split; [reflexivity|].
        rewrite L1, <- app_assoc in Hg. exact Hg.
  - inversion E; subst. exists []. split; [symmetry; apply app_nil_r|].
    intros H. contradiction H. reflexivity.
Qed.

Lemma st_tp_start_flash_dma_failure (w : world) :
  let r := fst (st_tp_start_flash_dma spi_device w) in
  let w' := snd (st_tp_start_flash_dma spi_device w) in
  r <> 0 ->
  exists before f,
    spi_log w' = spi_log w ++ before ++ [f] /\
    (r = reply_ret (spi_device (spi_log w ++ before) f 0) \/
     (r = EC_ERROR_TIMEOUT /\ f = flash_ready_frame 113)).
Proof.
  cbv zeta.
  set (f := [ST_TP_CMD_WRITE_HW_REG] ++ be32 536871025 ++ [192]).
  set (w1 := snd (spi_transaction spi_device f 0 w)).
  assert (E : st_tp_start_flash_dma spi_device w
              = if negb (reply_ret (spi_device (spi_log w) f 0) =? 0)
                then (reply_ret (spi_device (spi_log w) f 0), w1)
                else wait_for_flash_ready_loop spi_device 200 113 w1).
  { unfold st_tp_start_flash_dma, write_hwreg_cmd8, bind, pure,
      spi_transaction, wait_for_flash_ready.
    cbn [fst snd]. fold f. destruct (negb _); reflexivity. }
  rewrite E. clear E.
  assert (L1 : spi_log w1 = spi_log w ++ [f]) by reflexivity.
  clearbody w1 f.
  destruct (negb (reply_ret (spi_device (spi_log w) f 0) =? 0)).
  - intros _. exists [], f. cbn [fst snd]. rewrite app_nil_r. auto.
  - destruct (wait_for_flash_ready_loop_spec 200 113 w1)
      as (polls & Hp & Hl & [(R & _) | (R & -> & _)]).
    + intros H. contradiction.
    + intros _. exists (f :: repeat (flash_ready_frame 113) 199),
        (flash_ready_frame 113).
      split; [|right; auto].
      rewrite Hl, L1, <- app_assoc.
      change 200%nat with (199 + 1)%nat. rewrite repeat_app.
      reflexivity.
Qed.

Lemma write_flash_groups_failure (fuel : nat) :
  forall (data : list Z) (tail offset head : Z) (w : world) r w',
  write_flash_groups spi_device fuel data tail offset head w = Some (r, w') ->
  exists frames,
    spi_log w' = spi_log w ++ frames /\
    (r <> 0 ->
     exists before f,
       frames = before ++ [f] /\
       (r = reply_ret (spi_device (spi_log w ++ before) f 0) \/
        (r = EC_ERROR_TIMEOUT /\ f = flash_ready_frame 113))).
Proof.
  induction fuel as [|fuel IH]; intros data tail offset head w r w' E;
    [discriminate|].
  cbn [write_flash_groups] in E.
  destruct (head <? tail).
  2: { inversion E; subst. exists []. split; [symmetry; apply app_nil_r|].
       intros H. contradiction H. reflexivity. }
  destruct (write_flash_chunks spi_device (S fuel) data tail head 1048576 0 w)
    as [[[[r1 head1] fbs1] w1]|] eqn:C; [|discriminate].
  apply write_flash_chunks_failure in C. destruct C as (fr1 & L1 & F1).
  destruct (negb (r1 =? 0)) eqn:R1.
  { inversion E; subst. exists fr1. split; [exact L1|].
    intros Hr. destruct (F1 Hr) as (before & f & -> & Hf).
    exists before, f. auto. }
  clear F1. unfold spi_transaction in E.
  set (cfg := flash_dma_config_frame offset (u32 (fbs1 / 4 - 1))) in *.
  set (w2 := set_rx_buf _ _) in *.
  assert (L2 : spi_log w2 = spi_log w ++ fr1 ++ [cfg]).
  { subst w2. cbn [spi_log set_rx_buf set_spi_log].
    rewrite L1, <- app_assoc. reflexivity. }
  clearbody w2.
  destruct (negb (reply_ret (spi_device (spi_log w1) cfg 0) =? 0)) eqn:R2.
  { inversion E; subst. exists (fr1 ++ [cfg]). split; [exact L2|].
    intros _. exists fr1, cfg. rewrite <- L1. auto. }
  pose proof (st_tp_start_flash_dma_failure w2) as D3.
  pose proof (st_tp_start_flash_dma_log w2) as G3.
  destruct (st_tp_start_flash_dma spi_device w2) as [r3 w3].
  cbn [fst snd] in D3, G3.
  destruct (negb (r3 =? 0)) eqn:R3.
  { inversion E; subst. eqb_hyps.
    destruct (D3 R3) as (before & f & L3 & Hf).
    exists ((fr1 ++ [cfg]) ++ before ++ [f]). split.
    { rewrite L3, L2, <- !app_assoc. reflexivity. }
    intros _. exists ((fr1 ++ [cfg]) ++ before), f.
    split; [rewrite <- !app_assoc; reflexivity|].
    rewrite L2 in Hf. rewrite <- !app_assoc in *. exact Hf. }
  eqb_hyps. destruct (G3 R3) as (polls & _ & L3).
  apply IH in E. destruct E as (rest & L4 & F4).
  exists ((fr1 ++ [cfg]) ++ flash_dma_frames polls ++ rest). split.
  { rewrite L4, L3, L2, <- !app_assoc. reflexivity. }
  intros Hr. destruct (F4 Hr) as (before & f & -> & Hf).
  exists ((fr1 ++ [cfg]) ++ flash_dma_frames polls ++ before), f.
  split; [rewrite <- !app_assoc; reflexivity|].
  rewrite L3, L2 in Hf. rewrite <- !app_assoc in *. exact Hf.
Qed.

(** X18: when [st_tp_write_flash] returns an error, the transfer was
    abandoned on the spot: the last frame on the bus is the one that
    failed and the error is its return code, or the error is
    [EC_ERROR_TIMEOUT] and the last frame is a flash status poll of
    [st_tp_start_flash_dma].  With nothing to send ([size <= 0]) the
    function returns [EC_SUCCESS] without touching the bus. *)
Theorem st_tp_write_flash_failure (fuel : nat) (offset size : Z)
    (data : list Z) (w : world) r w' :
  st_tp_write_flash spi_device fuel offset size data w = Some (r, w') ->
  (size <= 0 -> r = EC_SUCCESS /\ w' = w) /\
  (r <> 0 ->
   exists before f,
     spi_log w' = spi_log w ++ before ++ [f] /\
     (r = reply_ret (spi_device (spi_log w ++ before) f 0) \/
      (r = EC_ERROR_TIMEOUT /\ f = flash_ready_frame 113))).
Proof.
  unfold st_tp_write_flash. intros E. split.
  - intros Hs. destruct fuel as [|fuel]; [discriminate|].
    cbn [write_flash_groups] in E.
    destruct (Z.ltb_spec 0 size); [lia|]. inversion E. auto.
  - intros Hr. apply write_flash_groups_failure in E.
    destruct E as (frames & L & F).
    destruct (F Hr) as (before & f & -> & Hf).
    exists before, f. auto.
Qed.

(** X19: an offset that is not a multiple of [ST_TP_DMA_CHUNK_SIZE] makes
    [touchpad_update_write] return [EC_ERROR_INVAL] having only printed
    its banner: such an offset is never 0, so scanning is not stopped,
    the flash is not erased and nothing goes over the bus. *)
Theorem touchpad_update_write_unaligned (fuel : nat) (offset size : Z)
    (data : list Z) (w : world) :
  Z.rem offset ST_TP_DMA_CHUNK_SIZE <> 0 ->
  touchpad_update_write spi_device fuel offset size data w
  = Some (EC_ERROR_INVAL,
          set_console (console w ++ [MsgUpdateWrite offset size]) w).
Proof.
  intros H. unfold touchpad_update_write, cprints, modify.
  destruct (Z.eqb_spec offset 0) as [-> | Hz].
  { exfalso. apply H. reflexivity. }
  cbn [Z.eqb negb]. apply Z.eqb_neq in H. rewrite H. reflexivity.
Qed.

(** ** Reset and full initialization *)

Lemma find_controller_ready_spec (todo : nat) : forall (i : Z) (w : world),
  snd (find_controller_ready todo i w)
  = set_events_examined (events_examined (snd (find_controller_ready todo i w)))
      w /\
  (fst (find_controller_ready todo i w) = true ->
   exists j, i <= j < i + Z.of_nat todo /\
             event_evt_id (event_at w j) = ST_TP_EVENT_ID_CONTROLLER_READY).
Proof.
  induction todo as [|todo IH]; intros i w.
  - cbn. split; [destruct w; reflexivity | discriminate].
  - cbn [find_controller_ready]. unfold bind, rx_buf_events.
    fold (event_at w i).
    destruct (Z.eqb_spec (event_evt_id (event_at w i))
                ST_TP_EVENT_ID_CONTROLLER_READY) as [Hr | Hr].
    + cbn. split; [reflexivity|]. intros _. exists i. split; [lia | exact Hr].
    + destruct (IH (i + 1)
                  (set_events_examined (events_examined w ++ [i]) w))
        as (W & F).
      split.
      * rewrite W at 1. reflexivity.
      * intros H. destruct (F H) as (j & Hj & Ej).
        exists j. split; [lia | exact Ej].
Qed.

Lemma st_tp_reset_loop_step (retry : nat) (w : world) :
  st_tp_reset_loop spi_device (S retry) w
  = let ev := st_tp_read_all_events spi_device w in
    if fst ev <? 0 then (- fst ev, snd ev)
    else
      let fc := find_controller_ready (Z.to_nat (fst ev)) 0 (snd ev) in
      if fst fc
      then (0, set_console (console (snd fc) ++ [MsgTouchpadReady]) (snd fc))
      else st_tp_reset_loop spi_device retry
             (set_slept_ms (slept_ms (snd fc) + 10) (snd fc)).
Proof.
  cbn [st_tp_reset_loop]. unfold bind, pure, cprints, msleep, modify.
  destruct (st_tp_read_all_events spi_device w) as [n w1]. cbn [fst snd].
  destruct (n <? 0); [reflexivity|].
  destruct (find_controller_ready (Z.to_nat n) 0 w1) as [[|] w2];
    reflexivity.
Qed.

(** What the retry loop of [st_tp_reset] does.  [last_ret] is the return
    code of the last read; the record found is one of those the read
    counted. *)
Lemma st_tp_reset_loop_spec (retry : nat) : forall w : world,
  let cmd := [ST_TP_CMD_READ_ALL_EVENTS] in
  let r := fst (st_tp_reset_loop spi_device retry w) in
  let w' := snd (st_tp_reset_loop spi_device retry w) in
  exists reads, (reads <= retry)%nat /\
    let last_ret :=
      reply_ret (spi_device (spi_log w ++ repeat cmd (reads - 1)) cmd
                   (32 * 8 + ST_TP_DUMMY_BYTE)) in
    spi_log w' = spi_log w ++ repeat cmd reads /\
    deferred_calls w' = deferred_calls w /\
    touchpad_int_enabled w' = touchpad_int_enabled w /\
    touchpad_resets w' = touchpad_resets w /\
    system_state w' = system_state w /\
    ((r = 0 /\ (1 <= reads)%nat /\
      (exists c, console w' = c ++ [MsgTouchpadReady]) /\
      (exists j, 0 <= j /\
         event_evt_id (event_at w' j) = ST_TP_EVENT_ID_CONTROLLER_READY /\
         (last_ret = 0 ->
          j < 32 /\
          forall i, 0 <= i <= j -> valid_magic (event_at w' i) = true) /\
         (last_ret <> 0 -> j < - last_ret))) \/
     (r <> 0 /\ (1 <= reads)%nat /\ r = last_ret) \/
     (r = EC_ERROR_TIMEOUT /\ reads = retry /\
      slept_ms w' = slept_ms w + 10 * Z.of_nat retry /\
      exists c, console w' = c ++ [MsgTimeoutControllerReady])).
Proof.
  induction retry as [|retry IH]; intros w; cbv zeta.
  - exists 0%nat. cbn. rewrite app_nil_r.
    split; [lia|]. repeat (split; [reflexivity|]).
    right. right. split; [reflexivity|]. split; [reflexivity|].
    split; [lia|]. exists (console w). reflexivity.
  - rewrite st_tp_reset_loop_step. cbv zeta.
    destruct (st_tp_read_all_events_world w) as (c & e & W3).
    pose proof (st_tp_read_all_events_ok w) as Hok.
    pose proof (st_tp_read_all_events_valid w) as Hval.
    pose proof (st_tp_read_all_events_failed w) as Hbad.
    unfold spi_transaction in W3, Hbad. cbn [snd] in W3, Hbad.
    remember (st_tp_read_all_events spi_device w) as ev eqn:Eev. clear Eev.
    destruct (Z.ltb_spec (fst ev) 0) as [Neg | Pos].
    + (* the read failed *)
      exists 1%nat. cbn [fst snd repeat Nat.sub]. rewrite W3.
      cbn [spi_log deferred_calls touchpad_int_enabled touchpad_resets
           system_state set_console set_events_examined set_rx_buf
           set_spi_log].
      split; [lia|]. repeat (split; [reflexivity|]).
      right. left. rewrite app_nil_r.
      destruct (Z.eq_dec
                  (reply_ret (spi_device (spi_log w)
                                [ST_TP_CMD_READ_ALL_EVENTS]
                                (32 * 8 + ST_TP_DUMMY_BYTE))) 0) as [Z0 | NZ].
      * destruct (Hok Z0) as (Hn & _). lia.
      * rewrite (Hbad NZ) in *. cbn [fst] in *.
        rewrite Z.opp_involutive. repeat split; auto; lia.
    + pose proof (find_controller_ready_spec (Z.to_nat (fst ev)) 0 (snd ev))
        as (W4 & F4).
      remember (find_controller_ready (Z.to_nat (fst ev)) 0 (snd ev))
        as fc eqn:Efc. clear Efc.
      destruct (fst fc) eqn:Found.
      * (* controller ready *)
        exists 1%nat. cbn [fst snd repeat Nat.sub].
        destruct (F4 eq_refl) as (j & Hj & Ej).
        assert (Ev : forall i,
                   event_at (set_console (console (snd fc) ++
                                          [MsgTouchpadReady]) (snd fc)) i
                   = event_at (snd ev) i).
        { intros i. rewrite W4. reflexivity. }
        split; [lia|].
        split; [rewrite W4, W3; reflexivity|].
        split; [rewrite W4, W3; reflexivity|].
        split; [rewrite W4, W3; reflexivity|].
        split; [rewrite W4, W3; reflexivity|].
        split; [rewrite W4, W3; reflexivity|].
        left. split; [reflexivity|]. split; [lia|].
        split; [eexists; reflexivity|].
        exists j. split; [lia|]. split; [rewrite Ev; exact Ej|].
        rewrite app_nil_r. split.
        -- intros Z0. destruct (Hok Z0) as (Hn & _).
           split; [lia|]. intros i Hi. rewrite Ev.
           apply (Hval Z0). lia.
        -- intros NZ. rewrite (Hbad NZ) in Hj. cbn [fst] in Hj. lia.
      * (* not yet: sleep and retry *)
        set (w5 := set_slept_ms (slept_ms (snd fc) + 10) (snd fc)).
        assert (L5 : spi_log w5 = spi_log w ++ [[ST_TP_CMD_READ_ALL_EVENTS]]
                     /\ deferred_calls w5 = deferred_calls w
                     /\ touchpad_int_enabled w5 = touchpad_int_enabled w
                     /\ touchpad_resets w5 = touchpad_resets w
                     /\ system_state w5 = system_state w
                     /\ slept_ms w5 = slept_ms w + 10).
        { subst w5. rewrite W4, W3. repeat split. }
        clearbody w5. destruct L5 as (L5 & D5 & I5 & T5 & S5 & M5).
        destruct (IH w5) as (k & Hk & Hl & Hd & Hi & Ht & Hs & Hres).
        exists (S k). split; [lia|].
        split; [rewrite Hl, L5, <- app_assoc; reflexivity|].
        split; [congruence|]. split; [congruence|].
        split; [congruence|]. split; [congruence|].
        assert (Last : forall k', (1 <= k')%nat ->
                   spi_log w5 ++ repeat [ST_TP_CMD_READ_ALL_EVENTS] (k' - 1)
                   = spi_log w ++
                     repeat [ST_TP_CMD_READ_ALL_EVENTS] (S k' - 1)).
        { intros k' Hk'. rewrite L5, <- app_assoc.
          replace (S k' - 1)%nat with (S (k' - 1)) by lia. reflexivity. }
        destruct Hres as [(R1 & R2 & R3 & R4) | [(R1 & R2 & R3) | (R1 & R2 & R3 & R4)]].
        -- left. rewrite (Last k R2) in R4.
           split; [exact R1|]. split; [lia|]. split; [exact R3 | exact R4].
        -- right. left. rewrite (Last k R2) in R3.
           split; [exact R1|]. split; [lia | exact R3].
        -- right. right. split; [exact R1|]. split; [lia|].
           split; [rewrite R3, M5; lia | exact R4].
Qed.

(** X20: [st_tp_reset] pulses the reset line once and then reads the
    event batch at most 100 times, touching neither [system_state] nor
    the interrupt setting nor the deferred calls.  It ends in one of
    three ways.  With 0 and the ready message printed, after a read whose
    batch holds a controller-ready event among the records the read
    counted: when that read succeeded, one of the first 32 records, with
    a valid magic byte on it and on every record before it.  With the
    code of a failed read, at once.  With [EC_ERROR_TIMEOUT], after
    exactly 100 reads and 1 s of sleep. *)
Theorem st_tp_reset_outcome (w : world) :
  let cmd := [ST_TP_CMD_READ_ALL_EVENTS] in
  let r := fst (st_tp_reset spi_device w) in
  let w' := snd (st_tp_reset spi_device w) in
  exists reads, (reads <= 100)%nat /\
    let last_ret :=
      reply_ret (spi_device (spi_log w ++ repeat cmd (reads - 1)) cmd
                   (32 * 8 + ST_TP_DUMMY_BYTE)) in
    spi_log w' = spi_log w ++ repeat cmd reads /\
    touchpad_resets w' = touchpad_resets w + 1 /\
    system_state w' = system_state w /\
    touchpad_int_enabled w' = touchpad_int_enabled w /\
    deferred_calls w' = deferred_calls w /\
    ((r = 0 /\ (1 <= reads)%nat /\
      (exists c, console w' = c ++ [MsgTouchpadReady]) /\
      (exists j, 0 <= j /\
         event_evt_id (event_at w' j) = ST_TP_EVENT_ID_CONTROLLER_READY /\
         (last_ret = 0 ->
          j < 32 /\
          forall i, 0 <= i <= j -> valid_magic (event_at w' i) = true) /\
         (last_ret <> 0 -> j < - last_ret))) \/
     (r <> 0 /\ (1 <= reads)%nat /\ r = last_ret) \/
     (r = EC_ERROR_TIMEOUT /\ reads = 100%nat /\
      slept_ms w' = slept_ms w + 1000 /\
      exists c, console w' = c ++ [MsgTimeoutControllerReady])).
Proof.
  cbv zeta.
  change (st_tp_reset spi_device w)
    with (st_tp_reset_loop spi_device 100
            (set_touchpad_resets (touchpad_resets w + 1) w)).
  destruct (st_tp_reset_loop_spec 100
              (set_touchpad_resets (touchpad_resets w + 1) w))
    as (reads & Hr & Hl & Hd & Hi & Ht & Hs & Hres).
  exists reads. cbn [spi_log deferred_calls touchpad_int_enabled
                     touchpad_resets system_state slept_ms
                     set_touchpad_resets] in *.
  repeat (split; [assumption|]).
  destruct Hres as [H | [H | (R1 & R2 & R3 & R4)]];
    [left; exact H | right; left; exact H | right; right].
  repeat split; auto.
Qed.

Lemma keeps_platform_bind {A B} (m : M A) (k : A -> M B) :
  keeps_platform m -> (forall a, keeps_platform (k a)) ->
  keeps_platform (bind m k).
Proof.
  intros Hm Hk w. unfold bind. specialize (Hm w).
  destruct (m w) as [a w1]. cbn [snd] in Hm.
  destruct (Hk a w1) as (H1 & H2 & H3).
  destruct Hm as (G1 & G2 & G3).
  repeat split; congruence.
Qed.

Lemma keeps_platform_pure {A} (a : A) : keeps_platform (pure a).
Proof. intros w. repeat split. Qed.

Lemma keeps_platform_spi_transaction tx rxlen :
  keeps_platform (spi_transaction spi_device tx rxlen).
Proof. intros w. repeat split. Qed.

Lemma keeps_platform_update_system_state new_state mask :
  keeps_platform (st_tp_update_system_state spi_device new_state mask).
Proof.
  intros w. unfold st_tp_update_system_state.
  generalize (set_bits new_state (system_state w) (Z.lnot mask)) as n.
  intros n. revert w.
  change (keeps_platform
            (bind (update_debug_mode n) (fun _ =>
             bind (update_feature_select spi_device n) (fun rn =>
             if negb (fst rn =? 0) then pure (fst rn) else
             bind (update_active_mode spi_device n) (fun r =>
             if negb (r =? 0) then pure r else
             update_locked_scan_mode spi_device (snd rn)))))).
  apply keeps_platform_bind.
  { intros w. unfold update_debug_mode. destruct (negb _); repeat split. }
  intros _. apply keeps_platform_bind.
  { intros w. unfold update_feature_select, spi_transaction.
    repeat (break_if; cbn [fst snd]); repeat split. }
  intros rn. destruct (negb (fst rn =? 0)); [apply keeps_platform_pure|].
  apply keeps_platform_bind.
  { intros w. unfold update_active_mode, spi_transaction, cprints, modify.
    repeat (break_if; cbn [fst snd]); repeat split. }
  intros r. destruct (negb (r =? 0)); [apply keeps_platform_pure|].
  unfold update_locked_scan_mode.
  destruct (negb _);
    [apply keeps_platform_spi_transaction | apply keeps_platform_pure].
Qed.

Lemma st_tp_stop_scan_platform (w : world) :
  touchpad_int_enabled (snd (st_tp_stop_scan spi_device w)) = false /\
  deferred_calls (snd (st_tp_stop_scan spi_device w)) = deferred_calls w /\
  touchpad_resets (snd (st_tp_stop_scan spi_device w)) = touchpad_resets w.
Proof.
  unfold st_tp_stop_scan, bind.
  destruct (keeps_platform_update_system_state 0 SYSTEM_STATE_ACTIVE_MODE w)
    as (_ & D & T).
  destruct (st_tp_update_system_state spi_device 0 SYSTEM_STATE_ACTIVE_MODE w)
    as [r w1].
  cbn [snd] in D, T.
  unfold st_tp_enable_interrupt, gpio_set_touchpad_int, bind, pure, modify,
    spi_transaction.
  cbn. auto.
Qed.

Lemma st_tp_reset_platform (w : world) :
  touchpad_int_enabled (snd (st_tp_reset spi_device w))
  = touchpad_int_enabled w /\
  deferred_calls (snd (st_tp_reset spi_device w)) = deferred_calls w /\
  touchpad_resets (snd (st_tp_reset spi_device w)) = touchpad_resets w + 1.
Proof.
  change (st_tp_reset spi_device w)
    with (st_tp_reset_loop spi_device 100
            (set_touchpad_resets (touchpad_resets w + 1) w)).
  destruct (st_tp_reset_loop_spec 100
              (set_touchpad_resets (touchpad_resets w + 1) w))
    as (reads & _ & _ & Hd & Hi & Ht & _).
  cbn [deferred_calls touchpad_int_enabled touchpad_resets
       set_touchpad_resets] in *.
  auto.
Qed.

Lemma st_tp_full_initialize_start_unfold (w : world) :
  st_tp_full_initialize_start spi_device w
  = let wr := snd (st_tp_reset spi_device
                     (snd (st_tp_stop_scan spi_device w))) in
    if negb (fst (st_tp_reset spi_device
                    (snd (st_tp_stop_scan spi_device w))) =? 0)
    then (tt, wr)
    else (tt,
          set_deferred_calls
            (deferred_calls wr ++ [st_tp_full_initialize_end_data 100])
            (snd (spi_transaction spi_device
                    [ST_TP_CMD_WRITE_SYSTEM_COMMAND; 0; 3] 0
                    (set_console (console wr ++ [MsgStartFullInit]) wr)))).
Proof.
  unfold st_tp_full_initialize_start, bind, pure.
  destruct (st_tp_stop_scan spi_device w) as [r0 ws]. cbn [fst snd].
  destruct (st_tp_reset spi_device ws) as [rs wr]. cbn [fst snd].
  destruct (negb (rs =? 0)); reflexivity.
Qed.

Lemma st_tp_full_initialize_start_interrupt (w : world) :
  touchpad_int_enabled (snd (st_tp_full_initialize_start spi_device w))
  = false.
Proof.
  pose proof (st_tp_stop_scan_platform w) as (I1 & _).
  pose proof (st_tp_reset_platform (snd (st_tp_stop_scan spi_device w)))
    as (I2 & _).
  rewrite st_tp_full_initialize_start_unfold. cbv zeta.
  remember (st_tp_reset spi_device (snd (st_tp_stop_scan spi_device w)))
    as res eqn:Eres. clear Eres.
  remember (snd (st_tp_stop_scan spi_device w)) as ws eqn:Ews. clear Ews.
  destruct res as [rs wr]. cbn [fst snd] in *.
  destruct (negb (rs =? 0)); cbn [snd]; [congruence|].
  unfold spi_transaction.
  cbn [snd touchpad_int_enabled set_deferred_calls set_rx_buf set_spi_log
       set_console].
  congruence.
Qed.

(** X21: [st_tp_full_initialize_start] first stops scanning and resets
    the controller, and in every case leaves the touchpad interrupt
    disabled.  When the reset fails it stops there: no initialization
    command is sent and no completion check is scheduled.  When the reset
    succeeds it sends the full-initialization command as the last frame
    and schedules exactly one [st_tp_full_initialize_end] 100 ms later,
    without looking at the result of the command. *)
Theorem st_tp_full_initialize_start_spec (w : world) :
  let ws := snd (st_tp_stop_scan spi_device w) in
  let rs := fst (st_tp_reset spi_device ws) in
  let wr := snd (st_tp_reset spi_device ws) in
  let w' := snd (st_tp_full_initialize_start spi_device w) in
  touchpad_int_enabled w' = false /\
  touchpad_resets w' = touchpad_resets w + 1 /\
  (rs <> 0 -> w' = wr /\ deferred_calls w' = deferred_calls w) /\
  (rs = 0 ->
   deferred_calls w'
   = deferred_calls w ++ [st_tp_full_initialize_end_data 100] /\
   spi_log w' = spi_log wr ++ [[ST_TP_CMD_WRITE_SYSTEM_COMMAND; 0; 3]] /\
   console w' = console wr ++ [MsgStartFullInit]).
Proof.
  cbv zeta.
  pose proof (st_tp_stop_scan_platform w) as (I1 & D1 & T1).
  pose proof (st_tp_reset_platform (snd (st_tp_stop_scan spi_device w)))
    as (I2 & D2 & T2).
  rewrite st_tp_full_initialize_start_unfold. cbv zeta.
  remember (st_tp_reset spi_device (snd (st_tp_stop_scan spi_device w)))
    as res eqn:Eres. clear Eres.
  remember (snd (st_tp_stop_scan spi_device w)) as ws eqn:Ews. clear Ews.
  destruct res as [rs wr]. cbn [fst snd] in *.
  destruct (Z.eqb_spec rs 0) as [Z0 | NZ]; cbn [negb snd].
  - unfold spi_transaction.
    cbn [snd touchpad_int_enabled touchpad_resets deferred_calls spi_log
         console set_deferred_calls set_rx_buf set_spi_log set_console].
    split; [congruence|]. split; [congruence|].
    split; [intros; contradiction|]. intros _.
    split; [congruence|]. split; reflexivity.
  - split; [congruence|]. split; [congruence|].
    split; [|intros; contradiction]. intros _.
    split; [reflexivity | congruence].
Qed.

(** ** Command echo and the debug entry point *)

Lemma check_command_echo_loop_spec (status_report cmd_echo : Z)
    (cmd : list Z) (len : Z) (todo : nat) :
  forall (i : Z) (w : world),
  let res := check_command_echo_loop status_report cmd_echo todo i cmd len w in
  let echo j := (event_evt_id (event_at w j) =? status_report) &&
                (event_report_type (event_at w j) =? cmd_echo) &&
                echo_matches (event_at w j) cmd len in
  snd res = set_events_examined (events_examined (snd res)) w /\
  (fst res = true -> exists j, i <= j < i + Z.of_nat todo /\ echo j = true) /\
  (fst res = false -> forall j, i <= j < i + Z.of_nat todo -> echo j = false).
Proof.
  induction todo as [|todo IH]; intros i w; cbv zeta.
  - cbn. split; [destruct w; reflexivity|].
    split; [discriminate | intros _ j Hj; lia].
  - cbn [check_command_echo_loop]. unfold bind, rx_buf_events.
    fold (event_at w i).
    destruct ((event_evt_id (event_at w i) =? status_report) &&
              (event_report_type (event_at w i) =? cmd_echo) &&
              echo_matches (event_at w i) cmd len) eqn:E.
    + cbn. split; [reflexivity|]. split; [|discriminate].
      intros _. exists i. split; [lia | exact E].
    + destruct (IH (i + 1)
                  (set_events_examined (events_examined w ++ [i]) w))
        as (W & T & F).
      split; [rewrite W at 1; reflexivity|]. split.
      * intros H. destruct (T H) as (j & Hj & Ej).
        exists j. split; [lia | exact Ej].
      * intros H j Hj. destruct (Z.eq_dec j i) as [-> | Hne]; [exact E|].
        apply (F H). lia.
Qed.

(** X22: [st_tp_check_command_echo] reads the event batch once.  A failed
    read gives back its (positive) code.  Otherwise the result is 0
    exactly when one of the events counted by [st_tp_read_all_events] is
    a status report of type command echo whose first [MIN(4, len)] bytes
    equal the command, and the negative [-EC_ERROR_BUSY] when none is. *)
Theorem st_tp_check_command_echo_spec
    (status_report cmd_echo busy : Z) (cmd : list Z) (len : Z) (w : world) :
  let n := fst (st_tp_read_all_events spi_device w) in
  let w1 := snd (st_tp_read_all_events spi_device w) in
  let echo j := (event_evt_id (event_at w1 j) =? status_report) &&
                (event_report_type (event_at w1 j) =? cmd_echo) &&
                echo_matches (event_at w1 j) cmd len in
  let r := fst (st_tp_check_command_echo spi_device status_report cmd_echo
                  busy cmd len w) in
  let w' := snd (st_tp_check_command_echo spi_device status_report cmd_echo
                   busy cmd len w) in
  (n < 0 -> r = - n) /\
  (0 <= n ->
   (r = 0 /\ exists j, 0 <= j < n /\ echo j = true) \/
   (r = - busy /\ forall j, 0 <= j < n -> echo j = false)) /\
  spi_log w' = spi_log w ++ [[ST_TP_CMD_READ_ALL_EVENTS]].
Proof.
  cbv zeta.
  destruct (st_tp_read_all_events_world w) as (c & e & W3).
  unfold spi_transaction in W3. cbn [snd] in W3.
  assert (E : st_tp_check_command_echo spi_device status_report cmd_echo
                busy cmd len w
              = let ev := st_tp_read_all_events spi_device w in
                if fst ev <? 0 then (- fst ev, snd ev)
                else
                  let lp := check_command_echo_loop status_report cmd_echo
                              (Z.to_nat (fst ev)) 0 cmd len (snd ev) in
                  (if fst lp then 0 else - busy, snd lp)).
  { unfold st_tp_check_command_echo, bind, pure.
    destruct (st_tp_read_all_events spi_device w) as [n w1]. cbn [fst snd].
    destruct (n <? 0); [reflexivity|].
    destruct (check_command_echo_loop status_report cmd_echo
                (Z.to_nat n) 0 cmd len w1) as [[|] w2]; reflexivity. }
  rewrite E. clear E. cbv zeta.
  remember (st_tp_read_all_events spi_device w) as ev eqn:Eev. clear Eev.
  destruct (Z.ltb_spec (fst ev) 0) as [Neg | Pos]; cbn [fst snd].
  - split; [reflexivity|]. split; [lia|]. rewrite W3. reflexivity.
  - split; [lia|].
    destruct (check_command_echo_loop_spec status_report cmd_echo cmd len
                (Z.to_nat (fst ev)) 0 (snd ev)) as (W4 & T & F).
    remember (check_command_echo_loop status_report cmd_echo
                (Z.to_nat (fst ev)) 0 cmd len (snd ev)) as lp eqn:Elp.
    clear Elp. split.
    + intros _. destruct (fst lp).
      * left. split; [reflexivity|].
        destruct (T eq_refl) as (j & Hj & Ej). exists j. split; [lia|auto].
      * right. split; [reflexivity|]. intros j Hj. apply (F eq_refl). lia.
    + rewrite W4, W3. reflexivity.
Qed.

(** X23: [touchpad_debug] accepts only a one-byte parameter holding the
    calibrate command: then it runs [st_tp_full_initialize_start], which
    leaves the touchpad interrupt disabled, and returns [EC_SUCCESS] with
    no data.  Any other request is refused with [EC_RES_INVALID_PARAM]
    and has no effect at all: nothing is sent, nothing is printed and the
    output arguments are not assigned. *)
Theorem touchpad_debug_validates (invalid_param calibrate : Z)
    (param : list Z) (param_size : Z) (w : world) :
  let res := touchpad_debug spi_device invalid_param calibrate
               param param_size w in
  (param_size = 1 /\ nth 0 param 0 = calibrate ->
   fst res = (EC_SUCCESS, Some (None, 0)) /\
   snd res = snd (st_tp_full_initialize_start spi_device w) /\
   touchpad_int_enabled (snd res) = false) /\
  (~ (param_size = 1 /\ nth 0 param 0 = calibrate) ->
   res = ((invalid_param, None), w)).
Proof.
  cbv zeta. unfold touchpad_debug.
  pose proof (st_tp_full_initialize_start_interrupt w) as I.
  destruct (Z.eqb_spec param_size 1) as [S1 | S1]; cbn [negb].
  - destruct (Z.eqb_spec (nth 0 param 0) calibrate) as [C | C].
    + split; [|intros H; exfalso; apply H; auto].
      intros _. unfold bind, pure.
      destruct (st_tp_full_initialize_start spi_device w) as [u w1].
      cbn [fst snd] in *. auto.
    + split; [intros [_ H]; contradiction | reflexivity].
  - split; [intros [H _]; contradiction | reflexivity].
Qed.

(** ** Register addresses on the wire *)

Lemma testbit_255 (m : Z) : 0 <= m -> Z.testbit 255 m = (m <? 8).
Proof.
  intros H. change 255 with (Z.ones 8). apply Z.testbit_ones_nonneg; lia.
Qed.

Lemma testbit_above_32 (x n : Z) :
  0 <= x < 4294967296 -> 32 <= n -> Z.testbit x n = false.
Proof.
  intros Hx Hn. replace n with (n - 32 + 32) by lia.
  rewrite <- Z.shiftr_spec by lia.
  rewrite Z.shiftr_div_pow2 by lia.
  change (2 ^ 32) with 4294967296.
  rewrite Z.div_small by lia. apply Z.bits_0.
Qed.

Lemma land_255_range (a : Z) : 0 <= Z.land a 255 <= 255.
Proof.
  change (Z.land a 255) with (Z.land a (Z.ones 8)).
  rewrite Z.land_ones by lia.
  pose proof (Z.mod_pos_bound a (2 ^ 8) ltac:(lia)) as H.
  change (2 ^ 8) with 256 in *. lia.
Qed.

(** X24: the four bytes [be32] puts on the wire for a 32-bit register
    address or value are bytes (0 .. 255) and determine it: reading them
    back most significant first gives the value again, so two different
    addresses never produce the same [write_hwreg_cmd32] frame. *)
Theorem be32_round_trip (x : Z) :
  0 <= x < 4294967296 ->
  of_be32 (be32 x) = x /\
  length (be32 x) = 4%nat /\
  Forall (fun b => 0 <= b <= 255) (be32 x).
Proof.
  intros Hx. split; [|split].
  - unfold of_be32, be32. cbn [nth].
    apply Z.bits_inj'. intros n Hn.
    rewrite !Z.lor_spec.
    rewrite !Z.shiftl_spec by lia.
    rewrite !Z.land_spec.
    pose proof (testbit_above_32 x n Hx) as Hhigh.
    destruct (Z.lt_ge_cases n 8); [|destruct (Z.lt_ge_cases n 16);
      [|destruct (Z.lt_ge_cases n 24); [|destruct (Z.lt_ge_cases n 32)]]];
      repeat match goal with
      | |- context [Z.testbit (Z.shiftr ?a ?k) ?m] =>
          first [ rewrite (Z.shiftr_spec a k m) by lia
                | rewrite (Z.testbit_neg_r (Z.shiftr a k) m) by lia ]
      end;
      repeat match goal with
      | |- context [Z.testbit 255 ?m] =>
          first [ rewrite (testbit_255 m) by lia
                | rewrite (Z.testbit_neg_r 255 m) by lia ]
      end;
      repeat match goal with
      | |- context [?a <? 8] =>
          destruct (Z.ltb_spec a 8); try lia
      end;
      repeat match goal with
      | |- context [Z.testbit x ?m] =>
          lazymatch m with
          | n => fail
          | _ => replace m with n by lia
          end
      end;
      try rewrite Hhigh by lia;
      destruct (Z.testbit x n); reflexivity.
  - reflexivity.
  - unfold be32. repeat constructor; apply land_255_range.
Qed.
End Proofs.

(** ** The model on concrete inputs *)

#[local] Existing Instance sample_header.

Example read_all_events_sample :
  fst (st_tp_read_all_events (device_answering sample_batch) boot_world) = 2
  /\ console (snd (st_tp_read_all_events (device_answering sample_batch)
                     boot_world)) = [MsgTouchpadError 7 16909060]
  /\ events_examined (snd (st_tp_read_all_events
                             (device_answering sample_batch) boot_world))
     = [0; 1; 2].
Proof. vm_compute. auto. Qed.

Example read_all_events_failure :
  fst (st_tp_read_all_events (device_failing [135]) boot_world) = -1.
Proof. reflexivity. Qed.

Example start_scan_sample :
  spi_log (snd (st_tp_start_scan (device_answering []) boot_world))
  = [[162; 5; 2]; [160; 0; 1]; [192]; [164; 1; 1]].
Proof. reflexivity. Qed.

Lemma st_tp_read_all_events_stops_witness :
  reply_ret (device_answering sample_batch (spi_log boot_world)
               [ST_TP_CMD_READ_ALL_EVENTS] (32 * 8 + ST_TP_DUMMY_BYTE))
    = EC_SUCCESS /\
  0 <= fst (st_tp_read_all_events (device_answering sample_batch) boot_world)
    <= 32.
Proof.
  split; [reflexivity|].
  exact (proj1 (st_tp_read_all_events_stops_at_first_invalid
                  (device_answering sample_batch) boot_world eq_refl)).
Defined.

Lemma st_tp_read_all_events_bounds_witness :
  0 <= reply_ret (device_failing [135] (spi_log boot_world)
                    [ST_TP_CMD_READ_ALL_EVENTS] (32 * 8 + ST_TP_DUMMY_BYTE)) /\
  fst (st_tp_read_all_events (device_failing [135]) boot_world) < 0.
Proof.
  split; [vm_compute; discriminate|].
  refine (proj1 (proj2 (st_tp_read_all_events_bounds
                          (device_failing [135]) boot_world _)) _).
  - vm_compute. discriminate.
  - vm_compute. discriminate.
Defined.

Lemma st_tp_update_system_state_idempotent_witness :
  st_tp_update_system_state (device_answering []) 12 12 boot_world
  = (EC_SUCCESS,
     snd (st_tp_update_system_state (device_answering []) 12 12 boot_world)) /\
  st_tp_update_system_state (device_answering []) 12 12
    (snd (st_tp_update_system_state (device_answering []) 12 12 boot_world))
  = (EC_SUCCESS,
     snd (st_tp_update_system_state (device_answering []) 12 12 boot_world)).
Proof.
  split; [reflexivity|].
  exact (proj1 (st_tp_update_system_state_idempotent
                  (device_answering []) 12 12 boot_world _ eq_refl)).
Defined.

(** C7, as stated, fails when the active-scan-mode command fails: the
    call made by [st_tp_enable_heat_map] on a freshly booted driver turns
    the heat-map flag on, then returns the error of the active-scan-mode
    command, and no locked-scan-mode command follows the feature select. *)
Lemma enable_heat_map_without_locked_scan :
  Z.land (system_state boot_world) SYSTEM_STATE_ENABLE_HEAT_MAP = 0 /\
  Z.land (system_state
            (snd (st_tp_update_system_state
                    (device_failing (scan_mode_active_frame 14))
                    14 14 boot_world)))
         SYSTEM_STATE_ENABLE_HEAT_MAP <> 0 /\
  fst (st_tp_update_system_state
         (device_failing (scan_mode_active_frame 14)) 14 14 boot_world) <> 0 /\
  spi_log (snd (st_tp_update_system_state
                  (device_failing (scan_mode_active_frame 14))
                  14 14 boot_world))
  = [feature_select_frame 14; scan_mode_active_frame 14] /\
  ~ In scan_mode_locked_frame
      (spi_log (snd (st_tp_update_system_state
                       (device_failing (scan_mode_active_frame 14))
                       14 14 boot_world))).
Proof.
  vm_compute. repeat split; try discriminate.
  intros H. destruct H as [H | H]; [discriminate|].
  destruct H as [H | H]; [discriminate | exact H].
Qed.

Lemma st_tp_update_system_state_locked_scan_witness :
  (Z.land (system_state boot_world) SYSTEM_STATE_ENABLE_HEAT_MAP = 0 /\
   Z.land (system_state
             (snd (st_tp_update_system_state (device_answering [])
                     14 14 boot_world)))
          SYSTEM_STATE_ENABLE_HEAT_MAP <> 0 /\
   In scan_mode_locked_frame
      (spi_log (snd (st_tp_update_system_state (device_answering [])
                       14 14 boot_world))))
  /\
  (Z.land (set_bits 0 (system_state (heat_map_world 0 0)) (Z.lnot 2))
          SYSTEM_STATE_ENABLE_HEAT_MAP = 0 /\
   ST_TP_CMD_WRITE_FEATURE_SELECT <> ST_TP_CMD_WRITE_SCAN_MODE_SELECT /\
   ST_TP_SCAN_MODE_ACTIVE <> ST_TP_SCAN_MODE_LOCKED /\
   exists frames,
     spi_log (snd (st_tp_update_system_state (device_answering [])
                     0 2 (heat_map_world 0 0)))
     = spi_log (heat_map_world 0 0) ++ frames /\
     ~ In scan_mode_locked_frame frames).
Proof.
  assert (On : Z.land (system_state
                         (snd (st_tp_update_system_state (device_answering [])
                                 14 14 boot_world)))
                      SYSTEM_STATE_ENABLE_HEAT_MAP <> 0)
    by (vm_compute; discriminate).
  split.
  - split; [reflexivity|]. split; [exact On|].
    destruct (proj1 (st_tp_update_system_state_locked_scan
                       (device_answering []) 14 14 boot_world)
                eq_refl On) as [(mid & L & _) | (F & _)].
    + rewrite L. apply in_or_app. right. simpl. right.
      apply in_or_app. right. left. reflexivity.
    + exfalso. apply F. reflexivity.
  - split; [reflexivity|].
    split; [vm_compute; discriminate|].
    split; [vm_compute; discriminate|].
    apply (proj2 (st_tp_update_system_state_locked_scan
                    (device_answering []) 0 2 (heat_map_world 0 0))).
    + reflexivity.
    + vm_compute; discriminate.
    + vm_compute; discriminate.
Defined.

(** C8, as stated, fails on a header without the header magic: block 1
    is requested, the first header shows block 0, and every later header
    shows block 1 with a changed count but a zero magic byte.  The call
    polls five times and reports a timeout. *)
Lemma load_host_data_needs_header_magic :
  fst (st_tp_load_host_data
         (device_then [0; 165; 0; 0; 0] [0; 0; 1; 1; 0]) 1 boot_world)
  = EC_ERROR_TIMEOUT /\
  data_header_host_data_mem_id
    (rx_union (snd (st_tp_load_host_data
                      (device_then [0; 165; 0; 0; 0] [0; 0; 1; 1; 0])
                      1 boot_world))) = 1 /\
  data_header_count
    (rx_union (snd (st_tp_load_host_data
                      (device_then [0; 165; 0; 0; 0] [0; 0; 1; 1; 0])
                      1 boot_world)))
  <> data_header_count
       (rx_union (poll_header
                    (device_then [0; 165; 0; 0; 0] [0; 0; 1; 1; 0])
                    boot_world)) /\
  length (spi_log (snd (st_tp_load_host_data
                          (device_then [0; 165; 0; 0; 0] [0; 0; 1; 1; 0])
                          1 boot_world))) = 7%nat.
Proof. vm_compute. repeat split; discriminate. Qed.

Lemma st_tp_load_host_data_spec_witness :
  (data_header_host_data_mem_id
     (rx_union (poll_header (device_answering [0; 165; 1; 0; 0]) boot_world))
   = 1 /\
   fst (st_tp_load_host_data (device_answering [0; 165; 1; 0; 0]) 1 boot_world)
   = EC_SUCCESS /\
   spi_log (snd (st_tp_load_host_data (device_answering [0; 165; 1; 0; 0])
                   1 boot_world))
   = spi_log boot_world ++ [host_data_header_frame])
  /\
  (data_header_host_data_mem_id
     (rx_union (poll_header (device_then [0; 165; 0; 0; 0] [0; 165; 1; 1; 0])
                  boot_world)) <> 1 /\
   fst (spi_transaction (device_then [0; 165; 0; 0; 0] [0; 165; 1; 1; 0])
          (load_host_data_frame 1) 0
          (poll_header (device_then [0; 165; 0; 0; 0] [0; 165; 1; 1; 0])
             boot_world)) = 0 /\
   (fst (st_tp_load_host_data
           (device_then [0; 165; 0; 0; 0] [0; 165; 1; 1; 0]) 1 boot_world)
    = EC_SUCCESS \/
    fst (st_tp_load_host_data
           (device_then [0; 165; 0; 0; 0] [0; 165; 1; 1; 0]) 1 boot_world)
    = EC_ERROR_TIMEOUT)).
Proof.
  split.
  - assert (Hit : data_header_host_data_mem_id
                    (rx_union (poll_header
                                 (device_answering [0; 165; 1; 0; 0])
                                 boot_world)) = 1) by reflexivity.
    split; [exact Hit|].
    destruct (proj1 (st_tp_load_host_data_spec
                       (device_answering [0; 165; 1; 0; 0]) 1 boot_world)
                Hit) as (A & _ & C).
    split; assumption.
  - assert (Miss : data_header_host_data_mem_id
                     (rx_union (poll_header
                                  (device_then [0; 165; 0; 0; 0]
                                     [0; 165; 1; 1; 0]) boot_world)) <> 1)
      by (vm_compute; discriminate).
    assert (Sent : fst (spi_transaction
                          (device_then [0; 165; 0; 0; 0] [0; 165; 1; 1; 0])
                          (load_host_data_frame 1) 0
                          (poll_header
                             (device_then [0; 165; 0; 0; 0] [0; 165; 1; 1; 0])
                             boot_world)) = 0) by reflexivity.
    split; [exact Miss|]. split; [exact Sent|].
    destruct (proj2 (proj2 (st_tp_load_host_data_spec
                              (device_then [0; 165; 0; 0; 0]
                                 [0; 165; 1; 1; 0]) 1 boot_world)
                       Miss) Sent)
      as [(k & _ & _ & _ & R & _) | (_ & R & _)].
    + left. exact R.
    + right. exact R.
Defined.

Example load_host_data_reload_sample :
  st_tp_load_host_data (device_then [0; 165; 0; 0; 0] [0; 165; 1; 1; 0])
    1 boot_world
  = (EC_SUCCESS,
     mkWorld [[166; 0; 0]; [164; 6; 1]; [166; 0; 0]] [0; 165; 1; 1; 0]
       0 0 0 0 0 (fun _ => []) 0 0 0 [] [] [] false 0 0 []).
Proof. reflexivity. Qed.

(** C2, as stated, fails at its own scenario: with write index 5 and read
    index 4 the capture is performed, and the write index ends two past
    the read index. *)
Lemma capture_at_write_5_read_4_is_performed :
  system_state (heat_map_world 5 4) = SYSTEM_STATE_ENABLE_HEAT_MAP /\
  spi_buffer_index (heat_map_world 5 4) = 5 /\
  usb_buffer_index (heat_map_world 5 4) = 4 /\
  spi_buffer_index (snd (st_tp_read_report (device_answering sample_frame)
                           (heat_map_world 5 4))) = 6 /\
  usb_buffer_index (snd (st_tp_read_report (device_answering sample_frame)
                           (heat_map_world 5 4))) = 4 /\
  ~ (spi_buffer_index (snd (st_tp_read_report (device_answering sample_frame)
                              (heat_map_world 5 4)))
     <= usb_buffer_index (snd (st_tp_read_report
                                 (device_answering sample_frame)
                                 (heat_map_world 5 4))) + 1) /\
  spi_log (snd (st_tp_read_report (device_answering sample_frame)
                  (heat_map_world 5 4)))
  = [[ST_TP_CMD_READ_SPI_HOST_BUFFER; 1; 32]; [ST_TP_CMD_SPI_HOST_BUFFER_ACK]].
Proof.
  repeat split; try (vm_compute; reflexivity).
  vm_compute. intros H. apply H. reflexivity.
Qed.

Example capture_at_write_6_read_4_is_skipped :
  spi_buffer_index (snd (st_tp_read_report (device_answering sample_frame)
                           (heat_map_world 6 4))) = 6 /\
  spi_log (snd (st_tp_read_report (device_answering sample_frame)
                  (heat_map_world 6 4)))
  = [[ST_TP_CMD_SPI_HOST_BUFFER_ACK]].
Proof. vm_compute. auto. Qed.

Lemma st_tp_read_report_double_buffer_witness :
  (buffer_gap (heat_map_world 6 4) <= 2 /\
   buffer_gap (snd (st_tp_read_report (device_answering sample_frame)
                      (heat_map_world 6 4))) <= 2)
  /\
  (Z.land (system_state (heat_map_world 6 4)) SYSTEM_STATE_ENABLE_HEAT_MAP <> 0 /\
   1 < buffer_gap (heat_map_world 6 4) /\
   spi_buffer_index (snd (st_tp_read_report (device_answering sample_frame)
                            (heat_map_world 6 4)))
   = spi_buffer_index (heat_map_world 6 4))
  /\
  (Z.land (system_state (heat_map_world 5 4)) SYSTEM_STATE_ENABLE_HEAT_MAP <> 0 /\
   buffer_gap (heat_map_world 5 4) <= 1 /\
   fst (st_tp_read_frame (device_answering sample_frame) (heat_map_world 5 4))
   = EC_SUCCESS /\
   0 <= get_heat_map_addr (heat_map_world 5 4) /\
   spi_buffer_index (snd (st_tp_read_report (device_answering sample_frame)
                            (heat_map_world 5 4)))
   = u32 (spi_buffer_index (heat_map_world 5 4) + 1) /\
   spi_log (snd (st_tp_read_report (device_answering sample_frame)
                   (heat_map_world 5 4)))
   = spi_log (heat_map_world 5 4) ++
     [read_frame_command (heat_map_world 5 4);
      [ST_TP_CMD_SPI_HOST_BUFFER_ACK]]).
Proof.
  assert (G6 : buffer_gap (heat_map_world 6 4) <= 2)
    by (vm_compute; discriminate).
  assert (H6 : Z.land (system_state (heat_map_world 6 4))
                      SYSTEM_STATE_ENABLE_HEAT_MAP <> 0)
    by (vm_compute; discriminate).
  assert (S6 : 1 < buffer_gap (heat_map_world 6 4)) by reflexivity.
  assert (H5 : Z.land (system_state (heat_map_world 5 4))
                      SYSTEM_STATE_ENABLE_HEAT_MAP <> 0)
    by (vm_compute; discriminate).
  assert (G5 : buffer_gap (heat_map_world 5 4) <= 1)
    by (vm_compute; discriminate).
  assert (R5 : fst (st_tp_read_frame (device_answering sample_frame)
                      (heat_map_world 5 4)) = EC_SUCCESS)
    by (vm_compute; reflexivity).
  assert (A5 : 0 <= get_heat_map_addr (heat_map_world 5 4))
    by (vm_compute; discriminate).
  destruct (st_tp_read_report_double_buffer (device_answering sample_frame)
              (heat_map_world 6 4)) as (A & B & _).
  destruct (st_tp_read_report_double_buffer (device_answering sample_frame)
              (heat_map_world 5 4)) as (_ & _ & C).
  destruct (C H5 G5) as (C1 & _ & _ & _ & C5).
  split; [split; [exact G6 | exact (A G6)]|].
  split.
  - split; [exact H6|]. split; [exact S6|]. exact (proj1 (B H6 S6)).
  - split; [exact H5|]. split; [exact G5|]. split; [exact R5|].
    split; [exact A5|]. split; [exact (C1 R5)|]. exact (proj1 (C5 A5)).
Defined.

Lemma heat_map_capture_gated_and_bounded_witness :
  (spi_buffer_index (snd (st_tp_read_report (device_answering sample_frame)
                            (heat_map_world 5 4)))
   <> spi_buffer_index (heat_map_world 5 4) /\
   buffer_gap (heat_map_world 5 4) <= 1)
  /\
  (reachable (device_answering sample_frame)
     (heat_map_world 0 0, TaskWaiting) /\
   buffer_gap (fst (heat_map_world 0 0, TaskWaiting)) <= 2)
  /\
  (reachable (device_answering sample_frame)
     (snd (st_tp_read_report (device_answering sample_frame)
             (heat_map_world 0 0)),
      heatmap_task_wake
        (snd (st_tp_read_report (device_answering sample_frame)
                (heat_map_world 0 0)))) /\
   draining
     (snd (st_tp_read_report (device_answering sample_frame)
             (heat_map_world 0 0)),
      heatmap_task_wake
        (snd (st_tp_read_report (device_answering sample_frame)
                (heat_map_world 0 0)))) /\
   buffer_gap
     (fst (snd (st_tp_read_report (device_answering sample_frame)
                  (heat_map_world 0 0)),
           heatmap_task_wake
             (snd (st_tp_read_report (device_answering sample_frame)
                     (heat_map_world 0 0))))) <= 1 /\
   Z.land (spi_buffer_index
             (fst (snd (st_tp_read_report (device_answering sample_frame)
                          (heat_map_world 0 0)),
                   heatmap_task_wake
                     (snd (st_tp_read_report (device_answering sample_frame)
                             (heat_map_world 0 0)))))) 1
   <> Z.land (usb_buffer_index
                (fst (snd (st_tp_read_report (device_answering sample_frame)
                             (heat_map_world 0 0)),
                      heatmap_task_wake
                        (snd (st_tp_read_report
                                (device_answering sample_frame)
                                (heat_map_world 0 0)))))) 1).
Proof.
  assert (Moved : spi_buffer_index
                    (snd (st_tp_read_report (device_answering sample_frame)
                            (heat_map_world 5 4)))
                  <> spi_buffer_index (heat_map_world 5 4))
    by (vm_compute; discriminate).
  assert (Init : reachable (device_answering sample_frame)
                   (heat_map_world 0 0, TaskWaiting))
    by (apply reachable_init; reflexivity).
  assert (Reach : reachable (device_answering sample_frame)
                    (snd (st_tp_read_report (device_answering sample_frame)
                            (heat_map_world 0 0)),
                     heatmap_task_wake
                       (snd (st_tp_read_report (device_answering sample_frame)
                               (heat_map_world 0 0))))).
  { eapply reachable_step; [|apply step_heatmap_wake].
    eapply reachable_step; [exact Init|].
    apply (step_touchpad_interrupt (device_answering sample_frame)
             (heat_map_world 0 0) TaskWaiting). }
  assert (Drain : draining
                    (snd (st_tp_read_report (device_answering sample_frame)
                            (heat_map_world 0 0)),
                     heatmap_task_wake
                       (snd (st_tp_read_report (device_answering sample_frame)
                               (heat_map_world 0 0)))))
    by (left; vm_compute; reflexivity).
  assert (Gap : buffer_gap
                  (fst (snd (st_tp_read_report (device_answering sample_frame)
                               (heat_map_world 0 0)),
                        heatmap_task_wake
                          (snd (st_tp_read_report
                                  (device_answering sample_frame)
                                  (heat_map_world 0 0))))) <= 1)
    by (vm_compute; discriminate).
  destruct (heat_map_capture_gated_and_bounded
              (device_answering sample_frame)) as (Gate & Bound & Slots).
  split; [|split].
  - split; [exact Moved|].
    exact (proj2 (Gate (heat_map_world 5 4) (or_introl Moved))).
  - split; [exact Init|]. exact (Bound (heat_map_world 0 0, TaskWaiting) Init).
  - split; [exact Reach|]. split; [exact Drain|]. split; [exact Gap|].
    exact (Slots _ Reach Drain Gap).
Defined.

(** C4, as stated, fails for a call that starts below the calibration
    range and runs into it: the 64 bytes written at offset
    [ST_TP_FLASH_OFFSET_CX - 32] all go out, the second chunk carrying the
    bytes for offsets [ST_TP_FLASH_OFFSET_CX] and up; and the group is
    committed after 64 bytes, not after a full flash buffer. *)
Lemma touchpad_update_write_reaches_calibration :
  Z.rem (ST_TP_FLASH_OFFSET_CX - 32) ST_TP_DMA_CHUNK_SIZE = 0 /\
  ST_TP_FLASH_OFFSET_CX <= (ST_TP_FLASH_OFFSET_CX - 32) + 32
    < ST_TP_FLASH_OFFSET_CONFIG /\
  64 <> ST_TP_FLASH_BUFFER_SIZE /\
  exists w',
    touchpad_update_write (device_answering []) 100
      (ST_TP_FLASH_OFFSET_CX - 32) 64 sample_image boot_world
    = Some (EC_SUCCESS, w') /\
    spi_log w' =
      [chunk_frame sample_image 0 1048576 32;
       chunk_frame sample_image 32 1048608 32;
       flash_dma_config_frame (Z.shiftr (ST_TP_FLASH_OFFSET_CX - 32) 2)
         (64 / 4 - 1);
       [ST_TP_CMD_WRITE_HW_REG] ++ be32 536871025 ++ [192];
       flash_ready_frame 113] /\
    slice 5 32 (chunk_frame sample_image 32 1048608 32) = zseq 33 32.
Proof.
  split; [reflexivity|]. split; [split; [discriminate | reflexivity]|].
  split; [discriminate|].
  eexists. split; [vm_compute; reflexivity|].
  split; vm_compute; reflexivity.
Qed.

Lemma touchpad_update_write_flash_witness :
  (0 < ST_TP_DMA_CHUNK_SIZE /\
   (ST_TP_DMA_CHUNK_SIZE | ST_TP_FLASH_BUFFER_SIZE) /\
   0 < ST_TP_FLASH_BUFFER_SIZE < 4294967296 /\
   Z.rem ST_TP_FLASH_OFFSET_CX ST_TP_DMA_CHUNK_SIZE = 0 /\
   (Z.to_nat 64 < 100)%nat) /\
  exists r w',
    touchpad_update_write (device_answering []) 100
      ST_TP_FLASH_OFFSET_CX 64 sample_image boot_world = Some (r, w').
Proof.
  assert (H1 : 0 < ST_TP_DMA_CHUNK_SIZE) by reflexivity.
  assert (H2 : (ST_TP_DMA_CHUNK_SIZE | ST_TP_FLASH_BUFFER_SIZE))
    by (exists 2048; reflexivity).
  assert (H3 : 0 < ST_TP_FLASH_BUFFER_SIZE < 4294967296)
    by (split; reflexivity).
  assert (H4 : Z.rem ST_TP_FLASH_OFFSET_CX ST_TP_DMA_CHUNK_SIZE = 0)
    by reflexivity.
  assert (H5 : (Z.to_nat 64 < 100)%nat) by (vm_compute; lia).
  split; [auto|].
  destruct (touchpad_update_write_flash (device_answering []) 100
              ST_TP_FLASH_OFFSET_CX 64 sample_image boot_world
              H1 H2 H3 H4 H5) as (r & w' & E & _).
  exists r, w'. exact E.
Defined.

Example touchpad_update_write_calibration_sample :
  touchpad_update_write (device_answering []) 100
    ST_TP_FLASH_OFFSET_CX 64 sample_image boot_world
  = Some (EC_SUCCESS,
          set_console [MsgUpdateWrite ST_TP_FLASH_OFFSET_CX 64] boot_world).
Proof. reflexivity. Qed.

(** C5 at a failing erase: the device rejects the first command of
    [erase_flash] and accepts everything else.  The call for offset 0
    sends that command, carries on, writes the chunk and reports
    success. *)
Lemma touchpad_update_write_ignores_erase_failure :
  reply_ret (device_failing (erase_command sample_header) []
               (erase_command sample_header) 0) <> EC_SUCCESS /\
  exists w',
    touchpad_update_write (device_failing (erase_command sample_header)) 100
      0 32 sample_image boot_world = Some (EC_SUCCESS, w') /\
    In (erase_command sample_header) (spi_log w') /\
    In (chunk_frame sample_image 0 1048576 32) (spi_log w').
Proof.
  split; [vm_compute; discriminate|].
  eexists. split; [vm_compute; reflexivity|].
  split; vm_compute; tauto.
Qed.

Example erase_flash_reports_the_failure :
  fst (erase_flash (device_failing (erase_command sample_header)) boot_world)
  = 1 /\
  fst (st_tp_prepare_for_update (device_failing (erase_command sample_header))
         boot_world) = EC_SUCCESS.
Proof. vm_compute. auto. Qed.

(** ** The further properties on concrete inputs *)

Lemma st_tp_update_system_state_failure_witness :
  fst (st_tp_update_system_state (device_failing [160; 0; 1]) 12 12
         boot_world) <> EC_SUCCESS /\
  exists prev f,
    spi_log (snd (st_tp_update_system_state (device_failing [160; 0; 1])
                    12 12 boot_world))
    = spi_log boot_world ++ prev ++ [f] /\
    fst (st_tp_update_system_state (device_failing [160; 0; 1]) 12 12
           boot_world)
    = reply_ret (device_failing [160; 0; 1] (spi_log boot_world ++ prev) f 0).
Proof.
  assert (H : fst (st_tp_update_system_state (device_failing [160; 0; 1])
                     12 12 boot_world) <> EC_SUCCESS)
    by (vm_compute; discriminate).
  split; [exact H|].
  destruct (st_tp_update_system_state_failure (device_failing [160; 0; 1])
              12 12 boot_world H) as (prev & f & L & R & _).
  exists prev, f. split; [exact L | exact R].
Defined.

Lemma st_tp_parse_finger_bounds_witness :
  0 <= 0 /\
  snd (st_tp_parse_finger (repeat zero_finger 5) sample_finger_event 0)
  <= Z.max 0 MAX_FINGERS.
Proof.
  split; [apply Z.le_refl|].
  exact (proj1 (proj2 (st_tp_parse_finger_bounds (repeat zero_finger 5)
                         sample_finger_event 0 (Z.le_refl 0)))).
Defined.

Lemma st_tp_write_hid_report_well_formed_witness :
  0 <= MAX_FINGERS /\
  MAX_FINGERS < 2 ^ REPORT_COUNT_BITS /\
  (touchpad_reports (snd (st_tp_write_hid_report
                            (device_answering sample_batch)
                            late_interrupt_world))
   = touchpad_reports late_interrupt_world \/
   exists r,
     touchpad_reports (snd (st_tp_write_hid_report
                              (device_answering sample_batch)
                              late_interrupt_world))
     = touchpad_reports late_interrupt_world ++ [r] /\
     report_id r = 1 /\
     report_well_formed (report_finger r) (report_count r) /\
     report_timestamp r
     = Z.quot (irq_ts late_interrupt_world) USB_HID_TOUCHPAD_TIMESTAMP_UNIT
       mod 65536).
Proof.
  assert (H : 0 <= MAX_FINGERS) by (vm_compute; discriminate).
  assert (H' : MAX_FINGERS < 2 ^ REPORT_COUNT_BITS) by reflexivity.
  split; [exact H|]. split; [exact H'|].
  destruct (st_tp_write_hid_report_well_formed
              (device_answering sample_batch) late_interrupt_world H H')
    as [E | (r & E & _ & I & W & _ & _ & T & _)].
  - left. exact E.
  - right. exists r. split; [exact E|]. split; [exact I|].
    split; [exact W | exact T].
Defined.

Example hid_report_timestamp_wraps :
  map (fun r => (report_count r, report_button r, report_timestamp r))
      (touchpad_reports (snd (st_tp_write_hid_report
                                (device_answering sample_batch)
                                late_interrupt_world)))
  = [(1, 0, 34464)].
Proof. vm_compute. reflexivity. Qed.

Example parse_finger_negative_index :
  st_tp_parse_finger (repeat zero_finger 5) sample_finger_event (-1)
  = (repeat zero_finger 5, -1).
Proof. vm_compute. reflexivity. Qed.

Lemma st_tp_write_hid_report_failure_witness :
  fst (st_tp_write_hid_report (device_failing [135]) boot_world) <> 0 /\
  touchpad_reports (snd (st_tp_write_hid_report (device_failing [135])
                           boot_world))
  = touchpad_reports boot_world.
Proof.
  assert (H : fst (st_tp_write_hid_report (device_failing [135]) boot_world)
              <> 0) by (vm_compute; discriminate).
  split; [exact H|].
  exact (proj1 (st_tp_write_hid_report_failure (device_failing [135])
                  boot_world H)).
Defined.

Lemma st_tp_write_hid_report_dome_switch_witness :
  fst (st_tp_write_hid_report (device_answering sample_batch) boot_world) = 0
  /\
  Z.land (buffer_header_flags
            (rx_union (snd (st_tp_read_host_buffer_header
                              (device_answering sample_batch) boot_world))))
         ST_TP_BUFFER_HEADER_DOMESWITCH_CHG <> 0 /\
  Z.land (system_state (snd (st_tp_write_hid_report
                               (device_answering sample_batch) boot_world)))
         SYSTEM_STATE_DOME_SWITCH_LEVEL
  = (if buffer_header_dome_switch_level
          (rx_union (snd (st_tp_read_host_buffer_header
                            (device_answering sample_batch) boot_world)))
        =? 0
     then SYSTEM_STATE_DOME_SWITCH_LEVEL else 0).
Proof.
  assert (H1 : fst (st_tp_write_hid_report (device_answering sample_batch)
                      boot_world) = 0) by (vm_compute; reflexivity).
  assert (H2 : Z.land (buffer_header_flags
                         (rx_union (snd (st_tp_read_host_buffer_header
                                           (device_answering sample_batch)
                                           boot_world))))
                      ST_TP_BUFFER_HEADER_DOMESWITCH_CHG <> 0)
    by (vm_compute; discriminate).
  split; [exact H1|]. split; [exact H2|].
  exact (proj1 (proj2 (st_tp_write_hid_report_dome_switch
                         (device_answering sample_batch) boot_world H1 H2))).
Defined.

Lemma st_tp_write_hid_report_quiet_witness :
  reply_ret (device_answering [] (spi_log boot_world)
               [ST_TP_CMD_READ_SPI_HOST_BUFFER; 0; 0]
               (ST_TP_DUMMY_BYTE + sizeof_buffer_header)) = 0 /\
  reply_ret (device_answering []
               (spi_log boot_world ++ [[ST_TP_CMD_READ_SPI_HOST_BUFFER; 0; 0]])
               [ST_TP_CMD_READ_ALL_EVENTS] (32 * 8 + ST_TP_DUMMY_BYTE)) = 0 /\
  Z.land (buffer_header_flags
            (rx_union (snd (st_tp_read_host_buffer_header
                              (device_answering []) boot_world))))
         ST_TP_BUFFER_HEADER_DOMESWITCH_CHG = 0 /\
  (forall j, 0 <= j < 32 ->
     is_pointer_event
       (event_at (snd (st_tp_write_hid_report (device_answering [])
                         boot_world)) j) = false) /\
  touchpad_reports (snd (st_tp_write_hid_report (device_answering [])
                           boot_world))
  = touchpad_reports boot_world.
Proof.
  assert (H1 : reply_ret (device_answering [] (spi_log boot_world)
                            [ST_TP_CMD_READ_SPI_HOST_BUFFER; 0; 0]
                            (ST_TP_DUMMY_BYTE + sizeof_buffer_header)) = 0)
    by reflexivity.
  assert (H2 : reply_ret (device_answering []
                            (spi_log boot_world ++
                             [[ST_TP_CMD_READ_SPI_HOST_BUFFER; 0; 0]])
                            [ST_TP_CMD_READ_ALL_EVENTS]
                            (32 * 8 + ST_TP_DUMMY_BYTE)) = 0)
    by reflexivity.
  assert (H3 : Z.land (buffer_header_flags
                         (rx_union (snd (st_tp_read_host_buffer_header
                                           (device_answering []) boot_world))))
                      ST_TP_BUFFER_HEADER_DOMESWITCH_CHG = 0)
    by (vm_compute; reflexivity).
  assert (H4 : forall j, 0 <= j < 32 ->
                 is_pointer_event
                   (event_at (snd (st_tp_write_hid_report
                                     (device_answering []) boot_world)) j)
                 = false).
  { intros j _. unfold event_at, slice.
    assert (R : rx_union (snd (st_tp_write_hid_report (device_answering [])
                                 boot_world)) = [])
      by (vm_compute; reflexivity).
    rewrite R, skipn_nil, firstn_nil. reflexivity. }
  split; [exact H1|]. split; [exact H2|]. split; [exact H3|].
  split; [exact H4|].
  exact (proj1 (proj2 (st_tp_write_hid_report_quiet (device_answering [])
                         boot_world H1 H2 H3 H4))).
Defined.

Lemma st_tp_write_hid_report_events_in_bounds_witness :
  0 <= reply_ret (device_answering sample_batch
                    (spi_log boot_world ++
                     [[ST_TP_CMD_READ_SPI_HOST_BUFFER; 0; 0]])
                    [ST_TP_CMD_READ_ALL_EVENTS] (32 * 8 + ST_TP_DUMMY_BYTE)) /\
  exists examined,
    events_examined (snd (st_tp_write_hid_report
                            (device_answering sample_batch) boot_world))
    = events_examined boot_world ++ examined /\
    Forall (fun i => 0 <= i < 32) examined.
Proof.
  assert (H : 0 <= reply_ret (device_answering sample_batch
                                (spi_log boot_world ++
                                 [[ST_TP_CMD_READ_SPI_HOST_BUFFER; 0; 0]])
                                [ST_TP_CMD_READ_ALL_EVENTS]
                                (32 * 8 + ST_TP_DUMMY_BYTE)))
    by (vm_compute; discriminate).
  split; [exact H|].
  exact (st_tp_write_hid_report_events_in_bounds
           (device_answering sample_batch) boot_world H).
Defined.

Lemma st_tp_read_frame_pixels_witness :
  0 <= get_heat_map_addr (heat_map_world 5 4) /\
  reply_ret (device_answering sample_frame (spi_log (heat_map_world 5 4))
               (read_frame_command (heat_map_world 5 4))
               (sizeof_heat_map + ST_TP_DUMMY_BYTE)) = EC_SUCCESS /\
  length (usb_packet_frame
            (snd (st_tp_read_frame (device_answering sample_frame)
                    (heat_map_world 5 4)))
            (Z.land (spi_buffer_index (heat_map_world 5 4)) 1))
  = Z.to_nat (ST_TOUCH_COLS * ST_TOUCH_ROWS).
Proof.
  assert (H1 : 0 <= get_heat_map_addr (heat_map_world 5 4))
    by (vm_compute; discriminate).
  assert (H2 : reply_ret (device_answering sample_frame
                            (spi_log (heat_map_world 5 4))
                            (read_frame_command (heat_map_world 5 4))
                            (sizeof_heat_map + ST_TP_DUMMY_BYTE))
               = EC_SUCCESS) by reflexivity.
  split; [exact H1|]. split; [exact H2|].
  exact (proj1 (st_tp_read_frame_pixels (device_answering sample_frame)
                  (heat_map_world 5 4) H1 H2)).
Defined.

Lemma st_tp_read_report_unknown_version_witness :
  release_info unknown_release_world < 3 /\
  release_info unknown_release_world <> 1 /\
  Z.land (system_state unknown_release_world) SYSTEM_STATE_ENABLE_HEAT_MAP
  <> 0 /\
  buffer_gap unknown_release_world <= 1 /\
  spi_buffer_index (snd (st_tp_read_report (device_answering [])
                           unknown_release_world))
  = u32 (spi_buffer_index unknown_release_world + 1).
Proof.
  assert (H1 : release_info unknown_release_world < 3) by reflexivity.
  assert (H2 : release_info unknown_release_world <> 1)
    by (vm_compute; discriminate).
  assert (H3 : Z.land (system_state unknown_release_world)
                      SYSTEM_STATE_ENABLE_HEAT_MAP <> 0)
    by (vm_compute; discriminate).
  assert (H4 : buffer_gap unknown_release_world <= 1)
    by (vm_compute; discriminate).
  split; [exact H1|]. split; [exact H2|]. split; [exact H3|].
  split; [exact H4|].
  exact (proj1 (proj2 (st_tp_read_report_unknown_version
                         (device_answering []) unknown_release_world
                         H1 H2 H3 H4))).
Defined.

Lemma heatmap_send_packet_offset_witness :
  0 < sizeof_usb_packet < 4294967296 /\
  0 <= transmit_report_offset (heat_map_world 5 4) < sizeof_usb_packet /\
  (forall data n offset last, usb_accepting data n offset last <= n) /\
  0 <= transmit_report_offset
         (snd (heatmap_send_packet usb_accepting (heat_map_world 5 4)))
    < sizeof_usb_packet.
Proof.
  assert (H1 : 0 < sizeof_usb_packet < 4294967296)
    by (vm_compute; split; reflexivity).
  assert (H2 : 0 <= transmit_report_offset (heat_map_world 5 4)
               < sizeof_usb_packet)
    by (vm_compute; split; [discriminate | reflexivity]).
  assert (H3 : forall data n offset last,
                 usb_accepting data n offset last <= n)
    by (intros data n offset last; apply Z.le_refl).
  split; [exact H1|]. split; [exact H2|]. split; [exact H3|].
  exact (proj1 (heatmap_send_packet_offset usb_accepting (heat_map_world 5 4)
                  H1 H2 H3)).
Defined.

Lemma st_tp_write_flash_failure_witness :
  exists r w',
    st_tp_write_flash
      (device_failing (chunk_frame sample_image 0 1048576 32))
      65 0 64 sample_image boot_world = Some (r, w') /\
    r <> 0 /\
    exists before f,
      spi_log w' = spi_log boot_world ++ before ++ [f] /\
      (r = reply_ret (device_failing (chunk_frame sample_image 0 1048576 32)
                        (spi_log boot_world ++ before) f 0) \/
       (r = EC_ERROR_TIMEOUT /\ f = flash_ready_frame 113)).
Proof.
  assert (E : exists r w',
             st_tp_write_flash
               (device_failing (chunk_frame sample_image 0 1048576 32))
               65 0 64 sample_image boot_world = Some (r, w') /\ r <> 0).
  { vm_compute. eexists _, _. split; [reflexivity | discriminate]. }
  destruct E as (r & w' & E & Hr).
  exists r, w'. split; [exact E|]. split; [exact Hr|].
  exact (proj2 (st_tp_write_flash_failure
                  (device_failing (chunk_frame sample_image 0 1048576 32))
                  65 0 64 sample_image boot_world r w' E) Hr).
Defined.

Lemma touchpad_update_write_unaligned_witness :
  Z.rem 5 ST_TP_DMA_CHUNK_SIZE <> 0 /\
  touchpad_update_write (device_answering []) 0 5 10 [] boot_world
  = Some (EC_ERROR_INVAL,
          set_console (console boot_world ++ [MsgUpdateWrite 5 10])
            boot_world).
Proof.
  assert (H : Z.rem 5 ST_TP_DMA_CHUNK_SIZE <> 0)
    by (vm_compute; discriminate).
  split; [exact H|].
  exact (touchpad_update_write_unaligned (device_answering []) 0 5 10 []
           boot_world H).
Defined.

Lemma be32_round_trip_witness :
  0 <= 536871208 < 4294967296 /\ of_be32 (be32 536871208) = 536871208.
Proof.
  assert (H : 0 <= 536871208 < 4294967296)
    by (split; [discriminate | reflexivity]).
  split; [exact H|].
  exact (proj1 (be32_round_trip 536871208 H)).
Defined.
